(** * bsvalias client: service location and capability resolution

    A shallow embedding of [doh-srv-resolver.ts] (class [DohSrvResolver]) and
    [capability-resolver.ts] (class [CapabilityResolver]) of the
    [bsvalias-core] package, followed by the properties of the two classes.

    Conventions of the embedding:
    - a JavaScript exception is a value of [Exn]; code that may throw returns
      [Result];
    - JavaScript numbers that the code only ever obtains from [parseInt] or
      from integer literals are integers of [Z] (the rounding of doubles
      beyond 2^53, their overflow and the sign of zero are not
      represented);
    - strings are [string]s: sequences of code units below 256;
    - [Math.random] is a function [nat -> Q] giving the value of the k-th
      call, together with a counter of the calls made so far; the product
      [Math.random() * sumAccumulator] is computed exactly. *)

From Stdlib Require Import ZArith List String Ascii Bool Lia.
From Stdlib Require Import QArith Qround.
From Stdlib Require Import Permutation Sorted.
From Stdlib Require Import DecimalString.
From Equations Require Import Equations.
Import ListNotations.

Local Open Scope string_scope.
Local Open Scope Z_scope.

(* ===================================================================== *)
(** ** JavaScript runtime: exceptions and the string primitives used      *)
(* ===================================================================== *)

Module Js.

(** The error classes of [errors.ts] that the two classes throw or let
    through, and the built-in [TypeError]. Each carries its message. *)
Inductive Exn : Type :=
| DnsServerResponseError (message : string)
| DNSSECNotEnabledError (message : string)
| BsvAliasUnexpectedServerResponseError (message : string)
| BsvAliasServerErrorResponse (status : Z)
| ConnectionTimeoutError
| UnexpectedBsvAliasNetworkError (message : string)
| TypeError.

Inductive Result (A : Type) : Type :=
| Ok (value : A)
| Throw (exn : Exn).
Arguments Ok {A} value.
Arguments Throw {A} exn.

(** [Array.prototype.map] with a callback that may throw: elements are
    visited in order and the first exception is propagated. *)
Fixpoint mapResult {A B : Type} (f : A -> Result B) (l : list A)
  : Result (list B) :=
  match l with
  | [] => Ok []
  | x :: xs =>
      match f x with
      | Throw e => Throw e
      | Ok y =>
          match mapResult f xs with
          | Throw e => Throw e
          | Ok ys => Ok (y :: ys)
          end
      end
  end.

(** [s.split(sep)] for a one-character separator. *)
Fixpoint split (sep : ascii) (s : string) : list string :=
  match s with
  | EmptyString => [EmptyString]
  | String c rest =>
      if Ascii.eqb c sep then EmptyString :: split sep rest
      else match split sep rest with
           | [] => [String c EmptyString]
           | tok :: toks => String c tok :: toks
           end
  end.

Definition charCode (c : ascii) : N := N_of_ascii c.

(** Line terminators: the characters [.] does not match in a regular
    expression without the [s] flag (LF and CR among the code units below
    256). *)
Definition isLineTerminator (c : ascii) : bool :=
  (charCode c =? 10)%N || (charCode c =? 13)%N.

(** [StrWhiteSpaceChar] among the code units below 256: TAB, LF, VT, FF,
    CR, SP and NBSP. *)
Definition isStrWhiteSpaceChar (c : ascii) : bool :=
  ((9 <=? charCode c)%N && (charCode c <=? 13)%N)
  || (charCode c =? 32)%N || (charCode c =? 160)%N.

Fixpoint trimStart (s : string) : string :=
  match s with
  | EmptyString => EmptyString
  | String c rest => if isStrWhiteSpaceChar c then trimStart rest else s
  end.

Definition digitValue (c : ascii) : option Z :=
  let n := charCode c in
  if ((48 <=? n)%N && (n <=? 57)%N) then Some (Z.of_N n - 48) else None.

(** The longest prefix of decimal digits, read as a number; [acc] is [None]
    until a first digit has been seen. *)
Fixpoint parseDigits (s : string) (acc : option Z) : option Z :=
  match s with
  | EmptyString => acc
  | String c rest =>
      match digitValue c with
      | None => acc
      | Some d =>
          parseDigits rest
            (Some (match acc with None => d | Some a => 10 * a + d end))
      end
  end.

(** [parseInt(s, 10)]; [None] is [NaN]. *)
Definition parseInt (s : string) : option Z :=
  let trimmed := trimStart s in
  let '(sign, body) :=
    match trimmed with
    | String "-" rest => (-1, rest)
    | String "+" rest => (1, rest)
    | _ => (1, trimmed)
    end in
  match parseDigits body None with
  | None => None
  | Some mathInt => Some (sign * mathInt)
  end.

(** The tail [\.?$] of both regular expressions: greedy optional dot, then
    end of input. *)
Definition matchOptionalDotAtEnd (rest : string) : bool :=
  String.eqb rest "." || String.eqb rest "".

(** [/^(.*?)\.?$/.exec(s)], returning capture group 1, or [None] when
    [exec] returns [null]. The lazy group is tried at every length from
    zero upwards: [group] is the text captured so far and [rest] what
    follows it; the group may only grow over a character that is not a
    line terminator. *)
Fixpoint execLazyGroup (group rest : string) : option string :=
  if matchOptionalDotAtEnd rest then Some group
  else match rest with
       | EmptyString => None
       | String c rest' =>
           if isLineTerminator c then None
           else execLazyGroup (group ++ String c EmptyString) rest'
       end.

Definition execTargetRegex (s : string) : option string :=
  execLazyGroup "" s.

(** [s.replace(/\.$/, '')]: the input is scanned from the left for the
    first position where a dot is followed by the end of input. *)
Fixpoint replaceTrailingDot (s : string) : string :=
  match s with
  | EmptyString => EmptyString
  | String c rest =>
      if Ascii.eqb c "." && String.eqb rest "" then EmptyString
      else String c (replaceTrailingDot rest)
  end.

(** Conversion of an integral number to a string in a template literal. *)
Definition numberToString (n : Z) : string :=
  NilZero.string_of_int (Z.to_int n).

End Js.

(* ===================================================================== *)
(** ** doh-srv-resolver.ts                                                *)
(* ===================================================================== *)

Module QueryQuestion.
Record t : Type := mk { name : string; type : Z }.
End QueryQuestion.

Module ResourceRecordAnswer.
Record t : Type := mk { name : string; type : Z; TTL : Z; data : string }.
End ResourceRecordAnswer.

Module SrvRecord.
Record t : Type := mk {
  name : string;
  TTL : Z;
  priority : Z;
  weight : Z;
  port : Z;
  target : string
}.
End SrvRecord.

Module DomainService.
Record t : Type := mk { host : string; port : Z }.
End DomainService.

Module SrvResolverResponse.
Record t : Type := mk {
  services : list DomainService.t;
  isDomainSecure : bool
}.
End SrvResolverResponse.

(** The response of the DNS resolver as interface [QueryResponse] declares
    it. [Question] and [Answer] are optional here because the code tests
    both for presence before use ([None]: the field is missing or is not an
    array). *)
Module QueryResponse.
Record t : Type := mk {
  Status : Z;
  TC : bool;
  RD : bool;
  RA : bool;
  AD : bool;
  CD : bool;
  Question : option (list QueryQuestion.t);
  Answer : option (list ResourceRecordAnswer.t)
}.
End QueryResponse.

Module DohSrvResolver.
Import Js.

Module ErrorCodes.
Definition NOERROR : Z := 0.
Definition NXDOMAIN : Z := 3.
End ErrorCodes.

Module RecordTypes.
Definition SRV : Z := 33.
End RecordTypes.

Definition HOSTNAME : string := "cloudflare-dns.com".
Definition PATH : string := "/dns-query".

Definition msgInvalidAnswer : string := "Invalid answer".
Definition msgInvalidPriority : string :=
  "Invalid priority: value could not be converted to a number".
Definition msgInvalidWeight : string :=
  "Invalid weight: value could not be converted to a number".
Definition msgInvalidPort : string :=
  "Invalid port: value could not be converted to a number".
Definition msgInvalidTarget : string := "Invalid target domain name found".

(** [deserialiseSrvAnswer] *)
Definition deserialiseSrvAnswer (answer : ResourceRecordAnswer.t)
  : Result SrvRecord.t :=
  let dataElements := split " " (ResourceRecordAnswer.data answer) in
  if negb (Nat.eqb (List.length dataElements) 4) then
    Throw (DnsServerResponseError msgInvalidAnswer)
  else
    match parseInt (nth 0 dataElements "") with
    | None => Throw (DnsServerResponseError msgInvalidPriority)
    | Some priority =>
        match parseInt (nth 1 dataElements "") with
        | None => Throw (DnsServerResponseError msgInvalidWeight)
        | Some weight =>
            match parseInt (nth 2 dataElements "") with
            | None => Throw (DnsServerResponseError msgInvalidPort)
            | Some port =>
                match execTargetRegex (nth 3 dataElements "") with
                | None => Throw (DnsServerResponseError msgInvalidTarget)
                | Some target =>
                    Ok (SrvRecord.mk
                          (ResourceRecordAnswer.name answer)
                          (ResourceRecordAnswer.TTL answer)
                          priority weight port
                          (if String.eqb target "" then "." else target))
                end
            end
        end
    end.

(** The local interface [SrvRecordWithRunningSum] of
    [orderResourceListByWeight]: the record's fields and [runningSum]. *)
Module SrvRecordWithRunningSum.
Record t : Type := mk { record : SrvRecord.t; runningSum : Z }.
Definition weight (r : t) : Z := SrvRecord.weight (record r).
Definition withRunningSum (r : t) (sum : Z) : t := mk (record r) sum.
End SrvRecordWithRunningSum.

Definition toService (r : SrvRecordWithRunningSum.t) : DomainService.t :=
  DomainService.mk
    (SrvRecord.target (SrvRecordWithRunningSum.record r))
    (SrvRecord.port (SrvRecordWithRunningSum.record r)).

(** First [forEach] of the loop body: every record receives the running
    sum of the weights up to and including its own; the second component
    is the final value of [sumAccumulator]. *)
Fixpoint assignRunningSums (sumAccumulator : Z)
    (records : list SrvRecordWithRunningSum.t)
  : list SrvRecordWithRunningSum.t * Z :=
  match records with
  | [] => ([], sumAccumulator)
  | srvRecord :: rest =>
      let sumAccumulator' :=
        sumAccumulator + SrvRecordWithRunningSum.weight srvRecord in
      let '(rest', total) := assignRunningSums sumAccumulator' rest in
      (SrvRecordWithRunningSum.withRunningSum srvRecord sumAccumulator'
         :: rest', total)
  end.

(** Second [forEach] of the loop body, with its two captured variables
    [nextSrvRecord] and [newRecordsToProcess]. *)
Fixpoint selectNext (randomNumber : Z)
    (records : list SrvRecordWithRunningSum.t)
    (nextSrvRecord : option SrvRecordWithRunningSum.t)
    (newRecordsToProcess : list SrvRecordWithRunningSum.t)
  : option SrvRecordWithRunningSum.t * list SrvRecordWithRunningSum.t :=
  match records with
  | [] => (nextSrvRecord, newRecordsToProcess)
  | srvRecord :: rest =>
      match nextSrvRecord with
      | None =>
          if randomNumber <=? SrvRecordWithRunningSum.runningSum srvRecord
          then selectNext randomNumber rest (Some srvRecord)
                 newRecordsToProcess
          else selectNext randomNumber rest None
                 (newRecordsToProcess ++ [srvRecord])%list
      | Some _ =>
          selectNext randomNumber rest nextSrvRecord
            (newRecordsToProcess ++ [srvRecord])%list
      end
  end.

(** [Math.floor(Math.random() * sumAccumulator)] at the call numbered
    [calls]. *)
Definition randomNumberBelow (random : nat -> Q) (calls : nat)
    (sumAccumulator : Z) : Z :=
  Qfloor (random calls * inject_Z sumAccumulator).

(** One pass of the random selection (the [else] branch of the loop). *)
Definition randomSelection (random : nat -> Q) (calls : nat)
    (recordsToProcess : list SrvRecordWithRunningSum.t)
  : option SrvRecordWithRunningSum.t * list SrvRecordWithRunningSum.t :=
  let '(withSums, sumAccumulator) := assignRunningSums 0 recordsToProcess in
  selectNext (randomNumberBelow random calls sumAccumulator) withSums None [].

Definition inspect {A : Type} (a : A) : {b : A | a = b} :=
  exist _ a eq_refl.

(** The [while (moreRecordsToProcess)] loop. [sortedList] is the list
    built so far and [calls] the number of calls to [Math.random] made so
    far. When no record was selected [nextSrvRecord] is [null] and reading
    its [target] throws. *)
Equations? whileMoreRecordsToProcess (random : nat -> Q)
    (recordsToProcess : list SrvRecordWithRunningSum.t)
    (sortedList : list DomainService.t) (calls : nat)
  : Result (list DomainService.t * nat)
  by wf (List.length recordsToProcess) lt :=
whileMoreRecordsToProcess random [only] sortedList calls :=
  Ok ((sortedList ++ [toService only])%list, calls);
whileMoreRecordsToProcess random recordsToProcess sortedList calls
  with inspect (randomSelection random calls recordsToProcess) := {
  | exist _ (Some nextSrvRecord, newRecordsToProcess) eqn :=
      whileMoreRecordsToProcess random newRecordsToProcess
        (sortedList ++ [toService nextSrvRecord])%list (S calls);
  | exist _ (None, _) _ := Throw TypeError }.
Proof.
  (* every pass that selects a record leaves one record fewer *)
  all: assert (Hselect : forall randomNumber records next new next' new',
         selectNext randomNumber records next new = (next', new') ->
         (match next with
          | Some n =>
              next' = Some n /\
              List.length new' = List.length new + List.length records
          | None =>
              match next' with
              | Some _ =>
                  S (List.length new') =
                  List.length new + List.length records
              | None =>
                  List.length new' = List.length new + List.length records
              end
          end)%nat)
    by (induction records as [|r rest IH];
        intros next new next' new' H; simpl in H;
        [ inversion H; subst; destruct next'; simpl; auto with arith
        | destruct next as [n|];
          [ apply IH in H; destruct H as [-> H]; split; [reflexivity|];
            rewrite length_app in H; simpl in *; lia
          | destruct (randomNumber <=? SrvRecordWithRunningSum.runningSum r);
            [ apply IH in H; destruct H as [-> H]; simpl; lia
            | apply IH in H; destruct next'; rewrite length_app in H;
              simpl in *; lia ] ] ]).
  all: assert (Hsums : forall records acc,
         List.length (fst (assignRunningSums acc records)) =
         List.length records)
    by (induction records as [|r rest IH]; intros acc; simpl;
        [ reflexivity
        | specialize (IH (acc + SrvRecordWithRunningSum.weight r));
          destruct (assignRunningSums _ rest); simpl in *;
          now rewrite IH ]).
  all: unfold randomSelection in eqn;
       match type of eqn with
       | context [assignRunningSums 0 ?records] =>
           pose proof (Hsums records 0) as L;
           destruct (assignRunningSums 0 records) as [withSums total]
       end;
       apply Hselect in eqn; simpl in *; lia.
Qed.

Definition orderResourceListByWeight (random : nat -> Q)
    (recordsToOrder : list SrvRecord.t) (calls : nat)
  : Result (list DomainService.t * nat) :=
  let recordsToProcess :=
    map (fun srvRecord => SrvRecordWithRunningSum.mk srvRecord 0)
      recordsToOrder in
  if (0 <? List.length recordsToProcess)%nat
  then whileMoreRecordsToProcess random recordsToProcess [] calls
  else Ok ([], calls).

(** The comparator passed to [sort]. *)
Definition compareFn (recordA recordB : SrvRecord.t) : Z :=
  SrvRecord.priority recordA - SrvRecord.priority recordB.

(** [Array.prototype.sort] with [compareFn]: a stable sort. A record is
    inserted in front of the first record that does not compare below it,
    and the records are inserted from the last to the first, so records
    that compare equal keep their relative order. *)
Fixpoint insertSorted (recordA : SrvRecord.t) (sorted : list SrvRecord.t)
  : list SrvRecord.t :=
  match sorted with
  | [] => [recordA]
  | recordB :: rest =>
      if compareFn recordA recordB <=? 0 then recordA :: sorted
      else recordB :: insertSorted recordA rest
  end.

Definition sort (records : list SrvRecord.t) : list SrvRecord.t :=
  fold_right insertSorted [] records.

Definition isSentinel (record : SrvRecord.t) : bool :=
  String.eqb (SrvRecord.target record) ".".

(** The variables the [forEach] over [sortedSrvRecords] captures, and the
    number of calls to [Math.random] made so far. *)
Record BandLoop : Type := mkBandLoop {
  previousPriority : option Z;
  recordsToProcess : list SrvRecord.t;
  sortedServices : list DomainService.t;
  randomCalls : nat
}.

(** [srvRecord.priority !== previousPriority] *)
Definition priorityDiffers (srvRecord : SrvRecord.t)
    (previous : option Z) : bool :=
  match previous with
  | None => true
  | Some p => negb (SrvRecord.priority srvRecord =? p)
  end.

Fixpoint forEachSorted (random : nat -> Q) (records : list SrvRecord.t)
    (st : BandLoop) : Result BandLoop :=
  match records with
  | [] => Ok st
  | srvRecord :: rest =>
      if priorityDiffers srvRecord (previousPriority st) then
        match orderResourceListByWeight random (recordsToProcess st)
                (randomCalls st) with
        | Throw e => Throw e
        | Ok (ordered, calls) =>
            forEachSorted random rest
              (mkBandLoop (Some (SrvRecord.priority srvRecord))
                 [srvRecord]
                 (sortedServices st ++ ordered)%list
                 calls)
        end
      else
        forEachSorted random rest
          (mkBandLoop (previousPriority st)
             (recordsToProcess st ++ [srvRecord])%list
             (sortedServices st)
             (randomCalls st))
  end.

(** Lines "Order records by priority" to "Process last record" of
    [locateServices]: [records] are the records that are left after the
    sentinel records have been dropped. *)
Definition orderByPriorityAndWeight (random : nat -> Q)
    (records : list SrvRecord.t) (calls : nat)
  : Result (list DomainService.t * nat) :=
  let sortedSrvRecords := sort records in
  let previousPriority :=
    match sortedSrvRecords with
    | first :: _ => Some (SrvRecord.priority first)
    | [] => None
    end in
  match forEachSorted random sortedSrvRecords
          (mkBandLoop previousPriority [] [] calls) with
  | Throw e => Throw e
  | Ok st =>
      match orderResourceListByWeight random (recordsToProcess st)
              (randomCalls st) with
      | Throw e => Throw e
      | Ok (ordered, calls') =>
          Ok ((sortedServices st ++ ordered)%list, calls')
      end
  end.

(** The part of [locateServices] after the answers have been deserialised
    ([srvRecords]), with [ad] the [AD] flag of the response. *)
Definition processSrvRecords (random : nat -> Q) (ad : bool)
    (srvRecords : list SrvRecord.t) (calls : nat)
  : Result (option SrvResolverResponse.t * nat) :=
  if Nat.eqb (List.length srvRecords) 0 then
    Throw (DnsServerResponseError "No valid answer found")
  else
    let serviceNotSupportedRecords := filter isSentinel srvRecords in
    if Nat.eqb (List.length serviceNotSupportedRecords) 1 then
      Ok (None, calls)
    else
      match orderByPriorityAndWeight random
              (filter (fun srvRecord => negb (isSentinel srvRecord))
                 srvRecords) calls with
      | Throw e => Throw e
      | Ok (sortedServices, calls') =>
          Ok (Some (SrvResolverResponse.mk sortedServices ad), calls')
      end.

Definition queryNameOf (domainName service protocol : string) : string :=
  "_" ++ service ++ "._" ++ protocol ++ "." ++ domainName.

Definition queryUrl (queryName : string) : string :=
  "https://" ++ HOSTNAME ++ PATH ++ "?" ++ "name=" ++ queryName ++ "&"
    ++ "type=SRV".

Definition queryHeaders : list (string * string) :=
  [("accept", "application/dns-json");
   ("content-type", "application/dns-json")].

Definition answerMatches (question : QueryQuestion.t)
    (answer : ResourceRecordAnswer.t) : bool :=
  String.eqb (ResourceRecordAnswer.name answer) (QueryQuestion.name question)
  && (ResourceRecordAnswer.type answer =? QueryQuestion.type question).

(** [locateServices]. [get] is [this.request.get]; the result carries the
    number of calls to [Math.random] made so far. *)
Definition locateServices
    (get : string -> list (string * string) -> Result QueryResponse.t)
    (random : nat -> Q)
    (domainName service protocol : string) (calls : nat)
  : Result (option SrvResolverResponse.t * nat) :=
  let queryName := queryNameOf domainName service protocol in
  match get (queryUrl queryName) queryHeaders with
  | Throw e => Throw e
  | Ok response =>
      if QueryResponse.Status response =? ErrorCodes.NXDOMAIN then
        Ok (None, calls)
      else if negb (QueryResponse.Status response =? ErrorCodes.NOERROR) then
        Throw (DnsServerResponseError "Error response sent by the server")
      else
        match QueryResponse.Question response with
        | None => Throw (DnsServerResponseError "No `Question` field found")
        | Some questions =>
            match questions with
            | [question] =>
                let isNameValid :=
                  negb (String.eqb (QueryQuestion.name question) "")
                  && String.eqb (QueryQuestion.name question) queryName in
                let isTypeValid :=
                  negb (QueryQuestion.type question =? 0)
                  && (QueryQuestion.type question =? RecordTypes.SRV) in
                if negb isNameValid then
                  Throw (DnsServerResponseError "Invalid question name")
                else if negb isTypeValid then
                  Throw (DnsServerResponseError "Invalid question type")
                else
                  match QueryResponse.Answer response with
                  | None => Ok (None, calls)
                  | Some answers =>
                      match mapResult deserialiseSrvAnswer
                              (filter (answerMatches question) answers) with
                      | Throw e => Throw e
                      | Ok srvRecords =>
                          processSrvRecords random
                            (QueryResponse.AD response) srvRecords calls
                      end
                  end
            | _ =>
                Throw (DnsServerResponseError
                         "Expected only one `Question` element")
            end
        end
  end.

End DohSrvResolver.

(* ===================================================================== *)
(** ** srv-resolver.ts and capability-resolver.ts                         *)
(* ===================================================================== *)

(** The abstract class [SrvResolver]: one method, [locateServices]. *)
Module SrvResolver.
Class t (R : Type) : Type := {
  locateServices :
    R -> string -> string -> string ->
    Js.Result (option SrvResolverResponse.t)
}.
End SrvResolver.

(** Values of the JavaScript runtime as [CapabilityResolver] meets them:
    what [JSON.parse] produces, [undefined], and the members that a
    property read finds on a built-in prototype. An object is the list of
    its own properties (keys are distinct after parsing). Numbers are
    integral: the code never computes with them. *)
Module JsVal.
Import Js.

#[warnings="-register-all"]
Inductive t : Type :=
| Undefined
| Null
| Boolean (b : bool)
| Number (n : Z)
| Str (s : string)
| Array (elements : list t)
| Object (properties : list (string * t))
| BuiltinFunction (name : string)
| ObjectPrototype.

(** [typeof v] *)
Definition typeOf (v : t) : string :=
  match v with
  | Undefined => "undefined"
  | Null => "object"
  | Boolean _ => "boolean"
  | Number _ => "number"
  | Str _ => "string"
  | Array _ => "object"
  | Object _ => "object"
  | BuiltinFunction _ => "function"
  | ObjectPrototype => "object"
  end.

Fixpoint ownProperty (key : string) (properties : list (string * t))
  : option t :=
  match properties with
  | [] => None
  | (k, v) :: rest => if String.eqb k key then Some v else ownProperty key rest
  end.

(** The properties of [Object.prototype] (ECMAScript with its Annex B). *)
Definition objectPrototypeFunctions : list string :=
  ["constructor"; "hasOwnProperty"; "isPrototypeOf"; "propertyIsEnumerable";
   "toLocaleString"; "toString"; "valueOf"; "__defineGetter__";
   "__defineSetter__"; "__lookupGetter__"; "__lookupSetter__"].

Definition inString (key : string) (names : list string) : bool :=
  existsb (String.eqb key) names.

(** A read of [key] that reaches [Object.prototype]. *)
Definition objectPrototypeGet (key : string) : t :=
  if String.eqb key "__proto__" then ObjectPrototype
  else if inString key objectPrototypeFunctions then BuiltinFunction key
  else Undefined.

(** The functions of [Array.prototype] (ECMAScript 2015). *)
Definition arrayPrototypeFunctions : list string :=
  ["concat"; "constructor"; "copyWithin"; "entries"; "every"; "fill";
   "filter"; "find"; "findIndex"; "forEach"; "indexOf"; "join"; "keys";
   "lastIndexOf"; "map"; "pop"; "push"; "reduce"; "reduceRight"; "reverse";
   "shift"; "slice"; "some"; "sort"; "splice"; "toLocaleString"; "toString";
   "unshift"; "values"].

Fixpoint arrayElement (key : string) (elements : list t) (index : Z)
  : option t :=
  match elements with
  | [] => None
  | e :: rest =>
      if String.eqb (numberToString index) key then Some e
      else arrayElement key rest (index + 1)
  end.

(** [o[key]] for a value [o] whose [typeof] is ["object"]. Reading a
    property of [null] throws. *)
Definition getOfObject (o : t) (key : string) : Result t :=
  match o with
  | Null | Undefined => Throw TypeError
  | Object properties =>
      match ownProperty key properties with
      | Some v => Ok v
      | None => Ok (objectPrototypeGet key)
      end
  | Array elements =>
      match arrayElement key elements 0 with
      | Some v => Ok v
      | None =>
          if String.eqb key "length" then
            Ok (Number (Z.of_nat (List.length elements)))
          else if inString key arrayPrototypeFunctions then
            Ok (BuiltinFunction key)
          else Ok (objectPrototypeGet key)
      end
  | ObjectPrototype => Ok (objectPrototypeGet key)
  | Boolean _ | Number _ | Str _ | BuiltinFunction _ => Ok Undefined
  end.

(** [response.field] for the two field names the code reads from the
    parsed document, [capabilities] and [bsvalias]: no prototype defines
    either, so only an own property of an object can supply a value. *)
Definition getField (response : t) (field : string) : Result t :=
  match response with
  | Null | Undefined => Throw TypeError
  | Object properties =>
      match ownProperty field properties with
      | Some v => Ok v
      | None => Ok Undefined
      end
  | _ => Ok Undefined
  end.

(** [v === s] for a string [s] *)
Definition strictEqualsString (v : t) (s : string) : bool :=
  match v with
  | Str s' => String.eqb s' s
  | _ => false
  end.

(** [v === undefined] *)
Definition isUndefined (v : t) : bool :=
  match v with
  | Undefined => true
  | _ => false
  end.

End JsVal.

Module CapabilityResolver.
Import Js.

Definition BSVALIAS_VERSION : string := "1.0".

(** The class: its two private fields. [request] is [this.request.get]. *)
Record t (R : Type) : Type := mk {
  srvResolver : R;
  request : string -> Result JsVal.t
}.
Arguments mk {R} srvResolver request.
Arguments srvResolver {R} _.
Arguments request {R} _.

Section Methods.
Context {R : Type} {resolver : SrvResolver.t R}.

Definition domainsAreEqual (domainName1 domainName2 : string) : bool :=
  String.eqb (replaceTrailingDot domainName1) (replaceTrailingDot domainName2).

Definition wellKnownUrl (targetDomainName : string) (targetPort : Z)
  : string :=
  "https://" ++ targetDomainName ++ ":" ++ numberToString targetPort
    ++ "/.well-known/bsvalias".

Definition getWellKnownBaseUrl (this : t R) (domainName : string)
  : Result string :=
  match SrvResolver.locateServices (srvResolver this)
          domainName "bsvalias" "tcp" with
  | Throw e => Throw e
  | Ok srvResolverResponse =>
      let target : Result (string * Z * bool) :=
        match srvResolverResponse with
        | None => Ok (domainName, 443, false)
        | Some response =>
            match SrvResolverResponse.services response with
            | [] => Throw TypeError
            | service :: _ =>
                Ok (DomainService.host service,
                    DomainService.port service,
                    SrvResolverResponse.isDomainSecure response)
            end
        end in
      match target with
      | Throw e => Throw e
      | Ok (targetDomainName, targetPort, isSecure) =>
          let isSecure :=
            if domainsAreEqual targetDomainName domainName
               || domainsAreEqual targetDomainName ("www." ++ domainName)
            then true else isSecure in
          if negb isSecure then
            Throw (DNSSECNotEnabledError
                     ("DNSSEC not enabled on domain " ++ targetDomainName))
          else Ok (wellKnownUrl targetDomainName targetPort)
      end
  end.

(** [getCapabilitiesForDomain]: the outcome, and the URLs passed to
    [this.request.get] in the order of the calls. *)
Definition getCapabilitiesForDomain (this : t R) (domainName : string)
  : Result JsVal.t * list string :=
  match getWellKnownBaseUrl this domainName with
  | Throw e => (Throw e, [])
  | Ok wellKnownBsvAliasUrl =>
      let outcome :=
        match request this wellKnownBsvAliasUrl with
        | Throw e => Throw e
        | Ok response =>
            match JsVal.getField response "capabilities" with
            | Throw e => Throw e
            | Ok capabilities =>
                if negb (String.eqb (JsVal.typeOf capabilities) "object") then
                  Throw (BsvAliasUnexpectedServerResponseError
                           "No capabilities returned")
                else
                  match JsVal.getField response "bsvalias" with
                  | Throw e => Throw e
                  | Ok bsvalias =>
                      if negb (JsVal.strictEqualsString bsvalias
                                 BSVALIAS_VERSION) then
                        Throw (BsvAliasUnexpectedServerResponseError
                                 "Unsupported BSV alias version")
                      else Ok capabilities
                  end
            end
        end in
      (outcome, [wellKnownBsvAliasUrl])
  end.

Definition isCapabilitySupportedForDomain (this : t R)
    (capabilityCode domainName : string) : Result bool * list string :=
  let '(outcome, requested) := getCapabilitiesForDomain this domainName in
  match outcome with
  | Throw e => (Throw e, requested)
  | Ok capabilities =>
      match JsVal.getOfObject capabilities capabilityCode with
      | Throw e => (Throw e, requested)
      | Ok value =>
          (Ok (if JsVal.isUndefined value then false else true), requested)
      end
  end.

End Methods.
End CapabilityResolver.

(** [DohSrvResolver] as an [SrvResolver]: the instance holds its
    [request.get], the random source and the number of calls made to it. *)
Module DohInstance.
Record t : Type := mk {
  get : string -> list (string * string) -> Js.Result QueryResponse.t;
  random : nat -> Q;
  calls : nat
}.
End DohInstance.

#[export] Instance DohSrvResolver_SrvResolver : SrvResolver.t DohInstance.t := {
  locateServices r domainName service protocol :=
    match DohSrvResolver.locateServices (DohInstance.get r)
            (DohInstance.random r) domainName service protocol
            (DohInstance.calls r) with
    | Js.Throw e => Js.Throw e
    | Js.Ok (response, _) => Js.Ok response
    end
}.

(** A resolver that answers with a fixed outcome. *)
#[export] Instance Fixed_SrvResolver
  : SrvResolver.t (Js.Result (option SrvResolverResponse.t)) := {
  locateServices r _ _ _ := r
}.

From Stdlib Require Import DecimalPos.

(* ===================================================================== *)
(** ** Regular expressions and [String.prototype.replace]                 *)
(* ===================================================================== *)

(** Regular expressions without groups that capture, assertions or
    references, as [RegExp.prototype.test] uses them between [^] and [$]:
    [test] tells whether the whole input is in the language of the
    pattern. *)
Module RegExp.

Inductive t : Type :=
| Never
| Empty
| Class (member : ascii -> bool)
| Seq (first second : t)
| Or (left right : t)
| Star (body : t).

(** [r?], [r+] and [r{0,n}] *)
Definition Optional (r : t) : t := Or r Empty.
Definition Plus (r : t) : t := Seq r (Star r).

Fixpoint AtMost (n : nat) (r : t) : t :=
  match n with
  | O => Empty
  | S n' => Optional (Seq r (AtMost n' r))
  end.

Fixpoint nullable (r : t) : bool :=
  match r with
  | Never => false
  | Empty => true
  | Class _ => false
  | Seq r1 r2 => nullable r1 && nullable r2
  | Or r1 r2 => nullable r1 || nullable r2
  | Star _ => true
  end.

Definition isNever (r : t) : bool :=
  match r with
  | Never => true
  | _ => false
  end.

Definition isEmpty (r : t) : bool :=
  match r with
  | Empty => true
  | _ => false
  end.

(** Sequence and alternative that drop the operands that cannot
    contribute. *)
Definition seq (r1 r2 : t) : t :=
  if isNever r1 || isNever r2 then Never
  else if isEmpty r1 then r2
  else Seq r1 r2.

Definition or (r1 r2 : t) : t :=
  if isNever r1 then r2
  else if isNever r2 then r1
  else Or r1 r2.

(** What is left of the pattern after the character [c]. *)
Fixpoint after (c : ascii) (r : t) : t :=
  match r with
  | Never => Never
  | Empty => Never
  | Class member => if member c then Empty else Never
  | Seq r1 r2 =>
      if nullable r1 then or (seq (after c r1) r2) (after c r2)
      else seq (after c r1) r2
  | Or r1 r2 => or (after c r1) (after c r2)
  | Star body => seq (after c body) (Star body)
  end.

(** [/^r$/.test(s)] *)
Fixpoint test (r : t) (s : string) : bool :=
  match s with
  | EmptyString => nullable r
  | String c rest => test (after c r) rest
  end.

End RegExp.

Module JsString.

(** [s] without its prefix [pattern], when it starts with it. *)
Fixpoint stripPrefix (pattern s : string) : option string :=
  match pattern with
  | EmptyString => Some s
  | String p pattern' =>
      match s with
      | EmptyString => None
      | String c rest =>
          if Ascii.eqb p c then stripPrefix pattern' rest else None
      end
  end.

(** The first occurrence of [pattern] in [s]: what precedes it and what
    follows it. *)
Fixpoint splitAtFirst (pattern s : string) : option (string * string) :=
  match stripPrefix pattern s with
  | Some following => Some (EmptyString, following)
  | None =>
      match s with
      | EmptyString => None
      | String c rest =>
          match splitAtFirst pattern rest with
          | Some (preceding, following) =>
              Some (String c preceding, following)
          | None => None
          end
      end
  end.

(** [GetSubstitution] for a search value that is a string: there are no
    captures, so of the [$] forms only [$$], [$&], [$`] and [$'] are
    replaced. *)
Fixpoint getSubstitution (matched preceding following template : string)
  : string :=
  match template with
  | EmptyString => EmptyString
  | String c rest =>
      if Ascii.eqb c "$" then
        match rest with
        | EmptyString => String c EmptyString
        | String d rest' =>
            if Ascii.eqb d "$" then
              String "$" (getSubstitution matched preceding following rest')
            else if Ascii.eqb d "&" then
              matched ++ getSubstitution matched preceding following rest'
            else if Ascii.eqb d "`" then
              preceding ++ getSubstitution matched preceding following rest'
            else if Ascii.eqb d "'" then
              following ++ getSubstitution matched preceding following rest'
            else
              String c (getSubstitution matched preceding following rest)
        end
      else String c (getSubstitution matched preceding following rest)
  end.

(** [s.replace(searchValue, replaceValue)] for two strings: the first
    occurrence only. *)
Definition replace (s searchValue replaceValue : string) : string :=
  match splitAtFirst searchValue s with
  | None => s
  | Some (preceding, following) =>
      preceding
        ++ getSubstitution searchValue preceding following replaceValue
        ++ following
  end.

End JsString.

(* ===================================================================== *)
(** ** validators.ts                                                      *)
(* ===================================================================== *)

(** What the feature clients throw: the exceptions of the core, and the
    errors they construct themselves with a message. *)
Module Client.

Inductive Exn : Type :=
| Core (exn : Js.Exn)
| TypeError (message : string)
| Error (message : string)
| BsvAliasCapabilityNotSupportedError (message : string).

Inductive Outcome (A : Type) : Type :=
| Return (value : A)
| Raise (exn : Exn).
Arguments Return {A} value.
Arguments Raise {A} exn.

Definition ofCore {A : Type} (r : Js.Result A) : Outcome A :=
  match r with
  | Js.Ok a => Return a
  | Js.Throw e => Raise (Core e)
  end.

End Client.

Module Validators.
Import RegExp.

Definition inRange (low high : N) (c : ascii) : bool :=
  (low <=? Js.charCode c)%N && (Js.charCode c <=? high)%N.

(** [a-zA-Z0-9] *)
Definition isAlphanumeric (c : ascii) : bool :=
  inRange 97 122 c || inRange 65 90 c || inRange 48 57 c.

Definition isOneOf (chars : string) (c : ascii) : bool :=
  existsb (Ascii.eqb c) (list_ascii_of_string chars).

(** [a-zA-Z0-9.!#$%&'*+/=?^_`{|}~-] *)
Definition isLocalPartChar (c : ascii) : bool :=
  isAlphanumeric c || isOneOf ".!#$%&'*+/=?^_`{|}~-" c.

(** [a-zA-Z0-9-] *)
Definition isLabelChar (c : ascii) : bool :=
  isAlphanumeric c || Ascii.eqb c "-".

(** [[a-zA-Z0-9](?:[a-zA-Z0-9-]{0,61}[a-zA-Z0-9])?] *)
Definition label : RegExp.t :=
  Seq (Class isAlphanumeric)
    (Optional (Seq (AtMost 61 (Class isLabelChar)) (Class isAlphanumeric))).

(** [handleRegex] *)
Definition handleRegex : RegExp.t :=
  Seq (Plus (Class isLocalPartChar))
    (Seq (Class (Ascii.eqb "@"))
       (Seq label (Star (Seq (Class (Ascii.eqb ".")) label)))).

Definition checkPaymailHandle (handle : JsVal.t) : Client.Outcome unit :=
  match handle with
  | JsVal.Str s =>
      if negb (RegExp.test handleRegex s) then
        Client.Raise (Client.Error "`handle` must be a valid paymail handle")
      else Client.Return tt
  | _ => Client.Raise (Client.TypeError "`handle` must be a string")
  end.

End Validators.

(* ===================================================================== *)
(** ** request.ts                                                         *)
(* ===================================================================== *)

(** An object whose values are strings, as the headers of a request: its
    own properties in their order. *)
Module Headers.

Definition t : Type := list (string * string).

(** [object[key] = value] *)
Fixpoint set (key value : string) (object : t) : t :=
  match object with
  | [] => [(key, value)]
  | (k, v) :: rest =>
      if String.eqb k key then (k, value) :: rest
      else (k, v) :: set key value rest
  end.

(** [{ ...target, ...source }] *)
Definition spread (target source : t) : t :=
  fold_left (fun object property => set (fst property) (snd property) object)
    source target.

Fixpoint get (key : string) (object : t) : option string :=
  match object with
  | [] => None
  | (k, v) :: rest => if String.eqb k key then Some v else get key rest
  end.

End Headers.

Module RequestParams.
Record t : Type := mk {
  maxConnectionTimeout : option Z;
  responseType : option string
}.
End RequestParams.

(** The fields of [AxiosRequestConfig] that [sendRequest] sets, but for
    the cancel token. *)
Module AxiosRequestConfig.
Record t : Type := mk {
  url : string;
  method : string;
  timeout : Z;
  data : option JsVal.t;
  responseType : string;
  headers : Headers.t;
  withCredentials : bool
}.
End AxiosRequestConfig.

(** What [sendRequest] reads of a rejection of [axios]: the status of
    [error.response] when there is one, [axios.isCancel(error)],
    [error.code] and [error.message]. *)
Module AxiosError.
Record t : Type := mk {
  response : option Z;
  isCancel : bool;
  code : option string;
  message : string
}.
End AxiosError.

Module Request.
Import Js.

Definition DEFAULT_MAX_CONNECTION_TIMEOUT : Z := 10000.

Inductive AxiosOutcome (D : Type) : Type :=
| Fulfilled (data : D)
| Rejected (error : AxiosError.t).
Arguments Fulfilled {D} data.
Arguments Rejected {D} error.

Inductive Effect : Type :=
| SetTimeout (delay : Z)
| Axios (config : AxiosRequestConfig.t)
| ClearTimeout.

Record t : Type := mk {
  maxConnectionTimeout : Z;
  responseType : string
}.

(** The constructor: a missing, zero or empty parameter is falsy and
    gives the default. *)
Definition new (params : option RequestParams.t) : t :=
  let _params :=
    match params with
    | Some p => p
    | None => RequestParams.mk None None
    end in
  mk (match RequestParams.maxConnectionTimeout _params with
      | Some n => if n =? 0 then DEFAULT_MAX_CONNECTION_TIMEOUT else n
      | None => DEFAULT_MAX_CONNECTION_TIMEOUT
      end)
     (match RequestParams.responseType _params with
      | Some s => if String.eqb s "" then "json" else s
      | None => "json"
      end).

(** The handler passed to [catch]. *)
Definition onRejected (error : AxiosError.t) : Exn :=
  match AxiosError.response error with
  | Some status => BsvAliasServerErrorResponse status
  | None =>
      if AxiosError.isCancel error
         || match AxiosError.code error with
            | Some code => String.eqb code "ECONNABORTED"
            | None => false
            end
      then ConnectionTimeoutError
      else UnexpectedBsvAliasNetworkError (AxiosError.message error)
  end.

Section SendRequest.
Context {D : Type}.
Variable axios : AxiosRequestConfig.t -> AxiosOutcome D.

Definition sendRequest (this : t) (method url : string)
    (headers : option Headers.t) (data : option JsVal.t)
  : Result D * list Effect :=
  let requestHeaders :=
    Headers.spread [("content-type", "application/json")]
      (match headers with Some h => h | None => [] end) in
  let axiosRequestConfig :=
    AxiosRequestConfig.mk url method (maxConnectionTimeout this) data
      (responseType this) requestHeaders true in
  let effects :=
    [SetTimeout (maxConnectionTimeout this + 1000);
     Axios axiosRequestConfig; ClearTimeout] in
  match axios axiosRequestConfig with
  | Fulfilled result => (Ok result, effects)
  | Rejected error => (Throw (onRejected error), effects)
  end.

Definition get (this : t) (url : string) (headers : option Headers.t)
  : Result D * list Effect :=
  sendRequest this "get" url headers None.

Definition post (this : t) (url : string) (headers : option Headers.t)
    (data : option JsVal.t) : Result D * list Effect :=
  sendRequest this "post" url headers data.

End SendRequest.
End Request.

(* ===================================================================== *)
(** ** doh-srv-resolver.ts: the constructor                               *)
(* ===================================================================== *)

(** [DohSrvResolver] as its constructor builds it: its [request] is
    [new Request()], over the [axios] of the environment. *)
Module DohSrvResolverConstructor.
Section Constructor.
Variable axios :
  AxiosRequestConfig.t -> Request.AxiosOutcome QueryResponse.t.

Definition request : Request.t := Request.new None.

(** [this.request.get(url, headers)] *)
Definition get (url : string) (headers : Headers.t)
  : Js.Result QueryResponse.t * list Request.Effect :=
  Request.get axios request url (Some headers).

Definition new (random : nat -> Q) (calls : nat) : DohInstance.t :=
  DohInstance.mk (fun url headers => fst (get url headers)) random calls.

End Constructor.
End DohSrvResolverConstructor.

(* ===================================================================== *)
(** ** sfp-client.ts                                                      *)
(* ===================================================================== *)

Module SfpClient.
Import Js Client.

Definition AUTHORIZE_TRANSACTION_BRFC : string := "95dddb461bff".
Definition ASSET_INFORMATION_BRFC : string := "1300361cb2d4".

(** The class: its capability resolver, and [get] and [post] of its
    [request]. *)
Record t (R : Type) : Type := mk {
  capabilityResolver : CapabilityResolver.t R;
  get : string -> Headers.t -> Result JsVal.t;
  post : string -> Headers.t -> JsVal.t -> Result JsVal.t
}.
Arguments mk {R} capabilityResolver get post.
Arguments capabilityResolver {R} _.
Arguments get {R} _.
Arguments post {R} _.

(** The requests a method causes, in their order: those of the capability
    resolver and those of the client's own [request]. *)
Inductive Effect : Type :=
| WellKnown (url : string)
| Get (url : string) (headers : Headers.t)
| Post (url : string) (headers : Headers.t) (data : JsVal.t).

(** [typeof v === undefined]: the string that [typeof] gives is compared
    with the value [undefined], to which no string is strictly equal. *)
Definition typeofIsUndefined (v : JsVal.t) : bool := false.

(** [urlTemplate.replace('{alias}', alias).replace('{domain.tld}',
    domainName)] *)
Definition fillTemplate (urlTemplate alias domainName : string) : string :=
  JsString.replace (JsString.replace urlTemplate "{alias}" alias)
    "{domain.tld}" domainName.

Section Methods.
Context {R : Type} {resolver : SrvResolver.t R}.

(** The capability [brfc] of [domainName] as a string: the steps that the
    methods share between the split of the handle and the request to the
    endpoint. [notSupported] is the message of the check that compares
    [typeof] with [undefined]. *)
Definition capabilityUrl (this : t R) (domainName brfc notSupported : string)
  : Outcome string * list Effect :=
  let '(outcome, requested) :=
    CapabilityResolver.getCapabilitiesForDomain (capabilityResolver this)
      domainName in
  let effects := map WellKnown requested in
  match outcome with
  | Throw e => (Raise (Core e), effects)
  | Ok capabilities =>
      match JsVal.getOfObject capabilities brfc with
      | Throw e => (Raise (Core e), effects)
      | Ok url =>
          if typeofIsUndefined url then
            (Raise (BsvAliasCapabilityNotSupportedError notSupported),
             effects)
          else
            match url with
            | JsVal.Str s => (Return s, effects)
            | _ =>
                (Raise (Core (BsvAliasUnexpectedServerResponseError
                                "Capability information must be a string")),
                 effects)
            end
      end
  end.

(** [requestAssetInformation]. A handle that passed [checkPaymailHandle]
    is a string with one [@]; the branches for other values are not
    reached. *)
Definition requestAssetInformation (this : t R) (assetHandle : JsVal.t)
  : Outcome JsVal.t * list Effect :=
  match Validators.checkPaymailHandle assetHandle with
  | Raise e => (Raise e, [])
  | Return _ =>
      match assetHandle with
      | JsVal.Str handle =>
          match split "@" handle with
          | alias :: domainName :: _ =>
              match capabilityUrl this domainName ASSET_INFORMATION_BRFC
                      "No asset information capability found" with
              | (Raise e, effects) => (Raise e, effects)
              | (Return urlTemplate, effects) =>
                  let assetInformationUrl :=
                    fillTemplate urlTemplate alias domainName in
                  let headers := [("responseType", "json")] in
                  (ofCore (get this assetInformationUrl headers),
                   (effects ++ [Get assetInformationUrl headers])%list)
              end
          | _ => (Raise (Core Js.TypeError), [])
          end
      | _ => (Raise (Core Js.TypeError), [])
      end
  end.

(** [checkAuthorizeTransactionParams]. Destructuring [null], whose
    [typeof] is "object", throws. *)
Definition checkAuthorizeTransactionParams (params : JsVal.t)
  : Outcome unit :=
  if negb (String.eqb (JsVal.typeOf params) "object") then
    Raise (TypeError "`params` must be an object")
  else
    match JsVal.getField params "assetPaymail",
          JsVal.getField params "hex" with
    | Ok assetPaymail, Ok hex =>
        match Validators.checkPaymailHandle assetPaymail with
        | Raise e => Raise e
        | Return _ =>
            if negb (String.eqb (JsVal.typeOf hex) "string") then
              Raise (TypeError "`hex` must be a string")
            else Return tt
        end
    | Throw e, _ => Raise (Core e)
    | _, Throw e => Raise (Core e)
    end.

(** [authorizeTransaction] *)
Definition authorizeTransaction (this : t R) (params : JsVal.t)
  : Outcome JsVal.t * list Effect :=
  match checkAuthorizeTransactionParams params with
  | Raise e => (Raise e, [])
  | Return _ =>
      match JsVal.getField params "hex",
            JsVal.getField params "assetPaymail" with
      | Ok hex, Ok (JsVal.Str assetPaymail) =>
          match split "@" assetPaymail with
          | _ :: domainName :: _ =>
              match capabilityUrl this domainName AUTHORIZE_TRANSACTION_BRFC
                      "No authorize transaction capability found" with
              | (Raise e, effects) => (Raise e, effects)
              | (Return url, effects) =>
                  let postData := JsVal.Object [("hex", hex)] in
                  (ofCore (post this url [] postData),
                   (effects ++ [Post url [] postData])%list)
              end
          | _ => (Raise (Core Js.TypeError), [])
          end
      | _, _ => (Raise (Core Js.TypeError), [])
      end
  end.

End Methods.
End SfpClient.

(* ===================================================================== *)
(** ** Definitions used to state the properties                           *)
(* ===================================================================== *)

Import Js.
Import DohSrvResolver.

Fixpoint hasLineTerminator (s : string) : bool :=
  match s with
  | EmptyString => false
  | String c rest => isLineTerminator c || hasLineTerminator rest
  end.

Definition invalid (message : string) : Result SrvRecord.t :=
  Throw (DnsServerResponseError message).


Definition exampleAnswer : ResourceRecordAnswer.t :=
  ResourceRecordAnswer.mk "_bsvalias._tcp.example.com" 33 299
    "10 10 443 example.com.".

Definition serviceOf (record : SrvRecord.t) : DomainService.t :=
  DomainService.mk (SrvRecord.target record) (SrvRecord.port record).

Definition recordsOf (rs : list SrvRecordWithRunningSum.t)
  : list SrvRecord.t :=
  map SrvRecordWithRunningSum.record rs.

(** The records as the loop of [orderResourceListByWeight] starts with. *)
Definition withZeroSums (records : list SrvRecord.t)
  : list SrvRecordWithRunningSum.t :=
  map (fun srvRecord => SrvRecordWithRunningSum.mk srvRecord 0) records.

Definition totalWeight (records : list SrvRecord.t) : Z :=
  fold_right (fun record sum => SrvRecord.weight record + sum) 0 records.

(** The first record of [records] whose cumulative weight, counted from
    [sum], is at least [draw], with the records before and after it. *)
Fixpoint firstReaching (draw sum : Z) (records : list SrvRecord.t)
  : option (list SrvRecord.t * SrvRecord.t * list SrvRecord.t) :=
  match records with
  | [] => None
  | record :: rest =>
      let sum' := sum + SrvRecord.weight record in
      if draw <=? sum' then Some ([], record, rest)
      else match firstReaching draw sum' rest with
           | Some (before, chosen, after) =>
               Some (record :: before, chosen, after)
           | None => None
           end
  end.

(** An outcome with [services] put in front of its list. *)
Definition prepend (services : list DomainService.t)
    (outcome : Result (list DomainService.t * nat))
  : Result (list DomainService.t * nat) :=
  match outcome with
  | Ok (rest, calls) => Ok ((services ++ rest)%list, calls)
  | Throw e => Throw e
  end.



(** [Math.random] returning the same value at every call. *)
Definition constantRandom (value : Q) : nat -> Q := fun _ => value.

(** The priority bands of a list of records: the maximal runs of
    neighbouring records with one priority. *)
Fixpoint bandsOf (records : list SrvRecord.t) : list (list SrvRecord.t) :=
  match records with
  | [] => []
  | record :: rest =>
      match bandsOf rest with
      | (next :: band) :: bands =>
          if SrvRecord.priority next =? SrvRecord.priority record
          then (record :: next :: band) :: bands
          else [record] :: (next :: band) :: bands
      | bands => [record] :: bands
      end
  end.

Definition bandPriority (band : list SrvRecord.t) : Z :=
  match band with
  | record :: _ => SrvRecord.priority record
  | [] => 0
  end.

(** A band is not empty and its records have one priority. *)
Definition isBand (band : list SrvRecord.t) : Prop :=
  band <> []
  /\ Forall (fun r => SrvRecord.priority r = bandPriority band) band.



(** The bands ordered by weight one after the other, each with the calls
    to [Math.random] that follow those of the band before it; the output
    is the concatenation. *)
Fixpoint orderBands (random : nat -> Q) (bands : list (list SrvRecord.t))
    (calls : nat) : Result (list DomainService.t * nat) :=
  match bands with
  | [] => Ok ([], calls)
  | band :: rest =>
      match orderResourceListByWeight random band calls with
      | Throw e => Throw e
      | Ok (ordered, calls') => prepend ordered (orderBands random rest calls')
      end
  end.

(** What [locateServices] does after the [forEach]: the last band is
    ordered and appended. *)
Definition processLast (random : nat -> Q) (loop : Result BandLoop)
  : Result (list DomainService.t * nat) :=
  match loop with
  | Throw e => Throw e
  | Ok st =>
      prepend (sortedServices st)
        (orderResourceListByWeight random (recordsToProcess st)
           (randomCalls st))
  end.

(** [request.get] answering every query with [response]. *)
Definition respond (response : QueryResponse.t)
  : string -> list (string * string) -> Result QueryResponse.t :=
  fun _ _ => Ok response.

(** A response that passes the checks of [locateServices] up to the
    deserialisation of its answers: [srvRecords] are the records of the
    answers that echo the question, and there is at least one. *)
Definition Validated (queryName : string) (response : QueryResponse.t)
    (srvRecords : list SrvRecord.t) : Prop :=
  QueryResponse.Status response = ErrorCodes.NOERROR
  /\ exists question answers,
      QueryResponse.Question response = Some [question]
      /\ QueryQuestion.name question = queryName
      /\ QueryQuestion.type question = RecordTypes.SRV
      /\ QueryResponse.Answer response = Some answers
      /\ mapResult deserialiseSrvAnswer
           (filter (answerMatches question) answers) = Ok srvRecords
      /\ srvRecords <> [].

(** The response of [locateServices] for an outcome of the ordering. *)
Definition respondWith (ad : bool)
    (outcome : Result (list DomainService.t * nat))
  : Result (option SrvResolverResponse.t * nat) :=
  match outcome with
  | Throw e => Throw e
  | Ok (services, calls) => Ok (Some (SrvResolverResponse.mk services ad), calls)
  end.

Definition notSentinel (record : SrvRecord.t) : bool :=
  negb (isSentinel record).

Definition exampleQuestion : QueryQuestion.t :=
  QueryQuestion.mk "_bsvalias._tcp.example.com" 33.

Definition exampleAnswerOf (data : string) : ResourceRecordAnswer.t :=
  ResourceRecordAnswer.mk "_bsvalias._tcp.example.com" 33 299 data.

Definition exampleResponse (ad : bool) (answers : list string)
  : QueryResponse.t :=
  QueryResponse.mk 0 false true true ad false (Some [exampleQuestion])
    (Some (map exampleAnswerOf answers)).

(** A response with the given status, questions and answers. *)
Definition responseOf (status : Z)
    (question : option (list QueryQuestion.t))
    (answer : option (list ResourceRecordAnswer.t)) : QueryResponse.t :=
  QueryResponse.mk status false true true true false question answer.

Definition exampleRecord (priority weight : Z) (target : string)
  : SrvRecord.t :=
  SrvRecord.mk "_bsvalias._tcp.example.com" 299 priority weight 443 target.

(** One sentinel answer next to an ordinary one. *)
Definition sentinelAmongTwo : QueryResponse.t :=
  exampleResponse true ["10 10 443 ."; "7 10 443 example.com"].

(** A sentinel answer alone. *)
Definition soleSentinel : QueryResponse.t :=
  exampleResponse true ["10 10 443 ."].

(** Two sentinel answers. *)
Definition twoSentinels : QueryResponse.t :=
  exampleResponse true ["10 10 443 ."; "7 10 443 ."].

(** Three records of priority 10 and one of priority 7. *)
Definition fourAnswers : QueryResponse.t :=
  exampleResponse true
    ["10 3 443 target1.example.com"; "10 7 443 target2.example.com";
     "10 10 443 target3.example.com"; "7 10 443 target4.example.com"].

Definition fourRecords : list SrvRecord.t :=
  [exampleRecord 10 3 "target1.example.com";
   exampleRecord 10 7 "target2.example.com";
   exampleRecord 10 10 "target3.example.com";
   exampleRecord 7 10 "target4.example.com"].

(** The target host is the queried domain or its [www] host, both sides
    without a final dot. *)
Definition sameOrWww (host domainName : string) : Prop :=
  replaceTrailingDot host = replaceTrailingDot domainName
  \/ replaceTrailingDot host = replaceTrailingDot ("www." ++ domainName).

(** A [CapabilityResolver] over a resolver with a fixed outcome. *)
Definition resolverWith
    (located : Result (option SrvResolverResponse.t))
    (request : string -> Result JsVal.t)
  : CapabilityResolver.t (Result (option SrvResolverResponse.t)) :=
  CapabilityResolver.mk located request.

(** A [CapabilityResolver] over [DohSrvResolver]. *)
Definition resolverOverDoh (response : QueryResponse.t) (random : nat -> Q)
    (calls : nat) (request : string -> Result JsVal.t)
  : CapabilityResolver.t DohInstance.t :=
  CapabilityResolver.mk (DohInstance.mk (respond response) random calls)
    request.

Definition wellKnownDocument (capabilities : JsVal.t) : JsVal.t :=
  JsVal.Object [("bsvalias", JsVal.Str "1.0"); ("capabilities", capabilities)].

Definition serve (document : JsVal.t) : string -> Result JsVal.t :=
  fun _ => Ok document.

Definition exampleCapabilities : JsVal.t :=
  JsVal.Object
    [("pki", JsVal.Str "https://bsvalias.example.org/{alias}@{domain.tld}/id");
     ("f12f968c92d6", JsVal.Boolean false)].

Definition located (host : string) (port : Z) (isDomainSecure : bool)
  : Result (option SrvResolverResponse.t) :=
  Ok (Some (SrvResolverResponse.mk [DomainService.mk host port]
              isDomainSecure)).

(** The failure of [getCapabilitiesForDomain] on a document fetched from
    [url]. *)
Definition unexpected (url message : string)
  : Result JsVal.t * list string :=
  (Throw (BsvAliasUnexpectedServerResponseError message), [url]).

(* ===================================================================== *)
(** ** Definitions used to state the further properties                   *)
(* ===================================================================== *)

Fixpoint countChar (c : ascii) (s : string) : nat :=
  match s with
  | EmptyString => O
  | String c' rest =>
      if Ascii.eqb c' c then S (countChar c rest) else countChar c rest
  end.

Definition hasChar (c : ascii) (s : string) : bool :=
  negb (Nat.eqb (countChar c s) 0).





(** [response] with its [Answer] replaced. *)
Definition withAnswer (response : QueryResponse.t)
    (answer : option (list ResourceRecordAnswer.t)) : QueryResponse.t :=
  QueryResponse.mk (QueryResponse.Status response)
    (QueryResponse.TC response) (QueryResponse.RD response)
    (QueryResponse.RA response) (QueryResponse.AD response)
    (QueryResponse.CD response) (QueryResponse.Question response) answer.

(** The name of a property that every object inherits from
    [Object.prototype]. *)
Definition isInherited (key : string) : bool :=
  String.eqb key "__proto__"
  || JsVal.inString key JsVal.objectPrototypeFunctions.

(** [s] ends with a dot. *)
Definition endsWithDot (s : string) : Prop := exists s', s = s' ++ ".".

(** The language of a pattern: the strings that it matches in whole. *)
Inductive Matches : RegExp.t -> string -> Prop :=
| MatchesEmpty : Matches RegExp.Empty ""
| MatchesClass member c :
    member c = true -> Matches (RegExp.Class member) (String c "")
| MatchesSeq r1 r2 s1 s2 :
    Matches r1 s1 -> Matches r2 s2 -> Matches (RegExp.Seq r1 r2) (s1 ++ s2)
| MatchesOrLeft r1 r2 s : Matches r1 s -> Matches (RegExp.Or r1 r2) s
| MatchesOrRight r1 r2 s : Matches r2 s -> Matches (RegExp.Or r1 r2) s
| MatchesStarNone r : Matches (RegExp.Star r) ""
| MatchesStarMore r s1 s2 :
    Matches r s1 -> Matches (RegExp.Star r) s2 ->
    Matches (RegExp.Star r) (s1 ++ s2).

Fixpoint allChars (member : ascii -> bool) (s : string) : bool :=
  match s with
  | EmptyString => true
  | String c rest => member c && allChars member rest
  end.

(** A label of a domain name as [checkPaymailHandle] admits it: one
    letter or digit, or a letter or digit, then at most 61 letters,
    digits or hyphens, then a letter or digit. *)
Definition isLabel (l : string) : Prop :=
  (exists c, l = String c "" /\ Validators.isAlphanumeric c = true)
  \/ (exists first middle last,
        l = String first (middle ++ String last "")
        /\ Validators.isAlphanumeric first = true
        /\ allChars Validators.isLabelChar middle = true
        /\ (String.length middle <= 61)%nat
        /\ Validators.isAlphanumeric last = true).

(** The labels, each after a dot. *)
Fixpoint dotted (labels : list string) : string :=
  match labels with
  | [] => ""
  | l :: rest => "." ++ l ++ dotted rest
  end.

(** A handle as [checkPaymailHandle] admits it: [alias], an [@], and the
    labels of the domain name separated by dots. *)
Definition isHandle (handle alias domainName : string) : Prop :=
  handle = alias ++ "@" ++ domainName
  /\ alias <> ""
  /\ allChars Validators.isLocalPartChar alias = true
  /\ exists first rest,
      domainName = first ++ dotted rest
      /\ isLabel first /\ Forall isLabel rest.

(** The characters of a domain name that [checkPaymailHandle] admits. *)
Definition isDomainChar (c : ascii) : bool :=
  Validators.isLabelChar c || Ascii.eqb c ".".

(** An [SfpClient] whose resolver finds no SRV record, whose well-known
    document is [document], and whose other requests are answered with
    [answer]. *)
Definition sfpClientWith (document : JsVal.t) (answer : Result JsVal.t)
  : SfpClient.t (Result (option SrvResolverResponse.t)) :=
  SfpClient.mk (resolverWith (Ok None) (serve document))
    (fun _ _ => answer) (fun _ _ _ => answer).

(** The failure of a method of [SfpClient] on a capability that is not a
    string. *)
Definition notAString : Client.Exn :=
  Client.Core
    (BsvAliasUnexpectedServerResponseError
       "Capability information must be a string").

(** Parameters of [authorizeTransaction]. *)
Definition authorizeParams (assetPaymail hex : string) : JsVal.t :=
  JsVal.Object
    [("assetPaymail", JsVal.Str assetPaymail); ("hex", JsVal.Str hex)].

(** The request of [DohSrvResolver] for the SRV records of a service of a
    domain. *)
Definition dnsQueryConfig (domainName service protocol : string)
  : AxiosRequestConfig.t :=
  AxiosRequestConfig.mk
    ("https://cloudflare-dns.com/dns-query?name="
       ++ ("_" ++ service ++ "._" ++ protocol ++ "." ++ domainName)
       ++ "&type=SRV")
    "get" 10000 None "json"
    [("content-type", "application/dns-json");
     ("accept", "application/dns-json")]
    true.

(** What [sendRequest] makes of the outcome of [axios]. *)
Definition settled {D : Type} (outcome : Request.AxiosOutcome D) : Result D :=
  match outcome with
  | Request.Fulfilled data => Ok data
  | Request.Rejected error => Throw (Request.onRejected error)
  end.

(* ===================================================================== *)
(** ** Properties                                                         *)
(* ===================================================================== *)

(** *** Strings and the two regular expressions *)

Lemma append_empty_r (s : string) : s ++ "" = s.
Proof. induction s as [|c s IH]; simpl; [reflexivity | now rewrite IH]. Qed.

Lemma append_assoc (a b c : string) : (a ++ b) ++ c = a ++ (b ++ c).
Proof. induction a as [|x a IH]; simpl; [reflexivity | now rewrite IH]. Qed.

Lemma replaceTrailingDot_dot (s : string) : replaceTrailingDot (s ++ ".") = s.
Proof.
  induction s as [|c s IH]; [reflexivity|].
  simpl. destruct s as [|d s'].
  - simpl. destruct (Ascii.eqb c "."); simpl; reflexivity.
  - rewrite IH. simpl. now rewrite andb_false_r.
Qed.

Lemma replaceTrailingDot_no_dot (s : string) :
  (forall s', s <> s' ++ ".") -> replaceTrailingDot s = s.
Proof.
  induction s as [|c s IH]; intros H; [reflexivity|].
  simpl. destruct (Ascii.eqb_spec c "."); simpl.
  - destruct (String.eqb_spec s "").
    + subst. exfalso. apply (H ""). reflexivity.
    + f_equal. apply IH. intros s' E. apply (H (String c s')). simpl.
      now rewrite E.
  - f_equal. apply IH. intros s' E. apply (H (String c s')). simpl.
    now rewrite E.
Qed.

Lemma matchOptionalDotAtEnd_spec (rest : string) :
  matchOptionalDotAtEnd rest = true <-> rest = "." \/ rest = "".
Proof.
  unfold matchOptionalDotAtEnd. rewrite orb_true_iff.
  rewrite !String.eqb_eq. tauto.
Qed.

(** On input without a line terminator the lazy group captures the input
    up to its optional final dot. *)
Lemma execLazyGroup_strips (rest : string) :
  forall group,
    hasLineTerminator rest = false ->
    execLazyGroup group rest = Some (group ++ replaceTrailingDot rest).
Proof.
  induction rest as [|c rest IH]; intros group Hlt.
  - simpl. now rewrite append_empty_r.
  - simpl in Hlt. apply orb_false_iff in Hlt as [Hc Hrest].
    cbn [execLazyGroup]. destruct (matchOptionalDotAtEnd (String c rest)) eqn:M.
    + apply matchOptionalDotAtEnd_spec in M as [M|M]; [|discriminate].
      inversion M; subst. simpl. now rewrite append_empty_r.
    + rewrite Hc. rewrite IH by assumption.
      rewrite append_assoc. simpl.
      destruct (Ascii.eqb_spec c "."); simpl; [|reflexivity].
      destruct (String.eqb_spec rest ""); [|reflexivity].
      subst. discriminate M.
Qed.

Lemma execLazyGroup_line_terminator (rest : string) :
  forall group,
    hasLineTerminator rest = true -> execLazyGroup group rest = None.
Proof.
  induction rest as [|c rest IH]; intros group Hlt; [discriminate|].
  cbn [execLazyGroup].
  destruct (matchOptionalDotAtEnd (String c rest)) eqn:M.
  - apply matchOptionalDotAtEnd_spec in M as [M|M]; [|discriminate].
    inversion M; subst. discriminate Hlt.
  - simpl in Hlt. destruct (isLineTerminator c); [reflexivity|].
    simpl in Hlt. now apply IH.
Qed.

(** *** Deserialisation of an SRV answer *)

Section Deserialise.



(** A target token with a line terminator is rejected: the regular
    expression does not match it. *)
Lemma deserialiseSrvAnswer_line_terminator answer p w po t :
  split " " (ResourceRecordAnswer.data answer) = [p; w; po; t] ->
  parseInt p <> None -> parseInt w <> None -> parseInt po <> None ->
  hasLineTerminator t = true ->
  deserialiseSrvAnswer answer = invalid msgInvalidTarget.
Proof.
  intros Htok Hp Hw Hpo Hlt. unfold deserialiseSrvAnswer. rewrite Htok.
  cbn [List.length Nat.eqb negb nth].
  destruct (parseInt p); [|contradiction].
  destruct (parseInt w); [|contradiction].
  destruct (parseInt po); [|contradiction].
  unfold execTargetRegex. now rewrite execLazyGroup_line_terminator.
Qed.

Example deserialise_root_target :
  deserialiseSrvAnswer
    (ResourceRecordAnswer.mk "q" 33 299 "10 10 443 .")
  = Ok (SrvRecord.mk "q" 299 10 10 443 ".").
Proof. reflexivity. Qed.

Example deserialise_empty_target :
  deserialiseSrvAnswer
    (ResourceRecordAnswer.mk "q" 33 299 "10 10 443 ")
  = Ok (SrvRecord.mk "q" 299 10 10 443 ".").
Proof. reflexivity. Qed.

Example deserialise_three_tokens :
  deserialiseSrvAnswer (ResourceRecordAnswer.mk "q" 33 299 "10 10 443")
  = invalid msgInvalidAnswer.
Proof. reflexivity. Qed.

End Deserialise.

(** *** The weighted ordering of one priority band *)

Section WeightedOrdering.
Variable random : nat -> Q.

Lemma whileMore_unfold rs sortedList calls :
  whileMoreRecordsToProcess random rs sortedList calls =
  match rs with
  | [only] => Ok ((sortedList ++ [toService only])%list, calls)
  | _ =>
      match randomSelection random calls rs with
      | (Some nextSrvRecord, newRecordsToProcess) =>
          whileMoreRecordsToProcess random newRecordsToProcess
            (sortedList ++ [toService nextSrvRecord])%list (S calls)
      | (None, _) => Throw TypeError
      end
  end.
Proof.
  destruct rs as [|a [|b l]]; simp whileMoreRecordsToProcess; try reflexivity.
  destruct (inspect (randomSelection random calls (a :: b :: l)))
      as [[[next|] new] e];
      simp whileMoreRecordsToProcess; rewrite e; reflexivity.
Qed.

Lemma assignRunningSums_recordsOf rs rs' :
  recordsOf rs = recordsOf rs' ->
  forall sum, assignRunningSums sum rs = assignRunningSums sum rs'.
Proof.
  revert rs'. induction rs as [|r rs IH]; intros [|r' rs'] E sum;
    try discriminate; [reflexivity|].
  simpl in E. injection E as Er Ers. simpl.
  unfold SrvRecordWithRunningSum.weight, SrvRecordWithRunningSum.withRunningSum.
  rewrite Er. now rewrite (IH rs' Ers).
Qed.

(** The loop reads the records, never the running sums left by an earlier
    pass. *)
Lemma whileMore_recordsOf rs rs' sortedList calls :
  recordsOf rs = recordsOf rs' ->
  whileMoreRecordsToProcess random rs sortedList calls =
  whileMoreRecordsToProcess random rs' sortedList calls.
Proof.
  intros E. rewrite (whileMore_unfold rs), (whileMore_unfold rs').
  unfold randomSelection. rewrite (assignRunningSums_recordsOf rs rs' E).
  destruct rs as [|a [|b l]], rs' as [|a' [|b' l']]; try discriminate E;
    try reflexivity.
  simpl in E. injection E as E. unfold toService. now rewrite E.
Qed.

Lemma assignRunningSums_spec rs :
  forall sum,
    recordsOf (fst (assignRunningSums sum rs)) = recordsOf rs
    /\ snd (assignRunningSums sum rs) = sum + totalWeight (recordsOf rs).
Proof.
  induction rs as [|r rs IH]; intros sum; simpl.
  - split; [reflexivity | lia].
  - destruct (IH (sum + SrvRecordWithRunningSum.weight r)) as [H1 H2].
    destruct (assignRunningSums _ rs) as [rest total]; simpl in *.
    split; [now rewrite H1|].
    unfold SrvRecordWithRunningSum.weight in *. lia.
Qed.

(** The second pass, started with nothing selected, finds the first record
    whose running sum is at least the draw and keeps the others in
    order. *)
Lemma selectNext_firstReaching draw rs :
  forall sum new,
    let withSums := fst (assignRunningSums sum rs) in
    match firstReaching draw sum (recordsOf rs) with
    | Some (before, chosen, after) =>
        exists next new',
          selectNext draw withSums None new = (Some next, new')
          /\ SrvRecordWithRunningSum.record next = chosen
          /\ recordsOf new' = (recordsOf new ++ before ++ after)%list
    | None =>
        exists new', selectNext draw withSums None new = (None, new')
    end.
Proof.
  induction rs as [|r rs IH]; intros sum new; cbv zeta.
  - simpl. eexists. reflexivity.
  - simpl. fold (SrvRecordWithRunningSum.weight r).
    specialize (IH (sum + SrvRecordWithRunningSum.weight r)).
    destruct (assignRunningSums (sum + SrvRecordWithRunningSum.weight r) rs)
      as [rest total] eqn:A.
    simpl in *.
    destruct (draw <=? sum + SrvRecordWithRunningSum.weight r) eqn:D.
    + (* selected here: the remaining records are all kept *)
      clear IH.
      assert (K : forall l next new0,
                 selectNext draw l (Some next) new0 =
                 (Some next, (new0 ++ l)%list)).
      { induction l as [|x l IHl]; intros next new0; simpl.
        - now rewrite app_nil_r.
        - rewrite IHl. now rewrite <- app_assoc. }
      rewrite K. eexists _, _. split; [reflexivity|]. split; [reflexivity|].
      unfold recordsOf. rewrite map_app. f_equal.
      pose proof (assignRunningSums_spec rs
                    (sum + SrvRecordWithRunningSum.weight r)) as [S1 _].
      rewrite A in S1. exact S1.
    + specialize (IH (new ++ [SrvRecordWithRunningSum.withRunningSum r
                                (sum + SrvRecordWithRunningSum.weight r)])%list).
      destruct (firstReaching draw (sum + SrvRecordWithRunningSum.weight r)
                  (recordsOf rs)) as [[[before chosen] after]|].
      * destruct IH as (next & new' & H1 & H2 & H3).
        exists next, new'. split; [exact H1|]. split; [exact H2|].
        rewrite H3. unfold recordsOf. rewrite map_app. simpl.
        now rewrite <- app_assoc.
      * exact IH.
Qed.

Lemma firstReaching_split draw records :
  forall sum before chosen after,
    firstReaching draw sum records = Some (before, chosen, after) ->
    records = (before ++ chosen :: after)%list.
Proof.
  induction records as [|r rest IH]; intros sum before chosen after H;
    simpl in H; [discriminate|].
  destruct (draw <=? sum + SrvRecord.weight r).
  - injection H as <- <- <-. reflexivity.
  - destruct (firstReaching draw (sum + SrvRecord.weight r) rest)
      as [[[b c] a]|] eqn:F; [|discriminate].
    injection H as <- <- <-. simpl. f_equal. eapply IH. exact F.
Qed.

Lemma recordsOf_withZeroSums records :
  recordsOf (withZeroSums records) = records.
Proof.
  unfold recordsOf, withZeroSums. rewrite map_map. simpl. apply map_id.
Qed.

Lemma randomSelection_firstReaching calls rs :
  let draw := randomNumberBelow random calls (totalWeight (recordsOf rs)) in
  match firstReaching draw 0 (recordsOf rs) with
  | Some (before, chosen, after) =>
      exists next new,
        randomSelection random calls rs = (Some next, new)
        /\ SrvRecordWithRunningSum.record next = chosen
        /\ recordsOf new = (before ++ after)%list
  | None => exists new, randomSelection random calls rs = (None, new)
  end.
Proof.
  cbv zeta. unfold randomSelection.
  pose proof (selectNext_firstReaching
                (randomNumberBelow random calls (totalWeight (recordsOf rs)))
                rs 0 []) as S.
  pose proof (assignRunningSums_spec rs 0) as [_ T].
  destruct (assignRunningSums 0 rs) as [withSums total]. simpl in *.
  subst total. exact S.
Qed.

(** One pass of the loop over two records or more (or none), in terms of
    the records alone. *)
Lemma whileMore_step rs sortedList calls :
  List.length rs <> 1%nat ->
  whileMoreRecordsToProcess random rs sortedList calls =
  match firstReaching
          (randomNumberBelow random calls (totalWeight (recordsOf rs)))
          0 (recordsOf rs) with
  | Some (before, chosen, after) =>
      whileMoreRecordsToProcess random (withZeroSums (before ++ after))
        (sortedList ++ [serviceOf chosen])%list (S calls)
  | None => Throw TypeError
  end.
Proof.
  intros Hlen. rewrite whileMore_unfold.
  pose proof (randomSelection_firstReaching calls rs) as S. cbv zeta in S.
  destruct (firstReaching _ 0 (recordsOf rs)) as [[[before chosen] after]|].
  - destruct S as (next & new & -> & Hnext & Hnew).
    destruct rs as [|a [|b l]]; [| now contradiction Hlen |];
      (rewrite (whileMore_recordsOf new (withZeroSums (before ++ after)))
         by (now rewrite recordsOf_withZeroSums);
       unfold toService, serviceOf; now rewrite Hnext).
  - destruct S as (new & ->).
    destruct rs as [|a [|b l]]; [| now contradiction Hlen |]; reflexivity.
Qed.

Lemma whileMore_single r sortedList calls :
  whileMoreRecordsToProcess random (withZeroSums [r]) sortedList calls =
  Ok ((sortedList ++ [serviceOf r])%list, calls).
Proof. rewrite whileMore_unfold. reflexivity. Qed.

Lemma length_withZeroSums records :
  List.length (withZeroSums records) = List.length records.
Proof. unfold withZeroSums. apply length_map. Qed.

(** Induction on the number of records left: every pass that continues
    removes exactly one. *)
Lemma band_induction (P : list SrvRecord.t -> Prop) :
  P [] ->
  (forall r, P [r]) ->
  (forall records,
      (2 <= List.length records)%nat ->
      (forall before chosen after,
          records = (before ++ chosen :: after)%list ->
          P (before ++ after)%list) ->
      P records) ->
  forall records, P records.
Proof.
  intros Hnil Hone Hstep records.
  remember (List.length records) as n eqn:Hn.
  revert records Hn.
  induction n as [n IH] using (well_founded_induction Wf_nat.lt_wf).
  intros records Hn. destruct records as [|a [|b l]]; [exact Hnil | apply Hone |].
  apply Hstep; [simpl; lia|].
  intros before chosen after E.
  apply (IH (List.length (before ++ after)%list)); [|reflexivity].
  subst n. rewrite E. rewrite !length_app. simpl. lia.
Qed.

Lemma whileMore_prepend records :
  forall services sortedList calls,
    whileMoreRecordsToProcess random (withZeroSums records)
      (services ++ sortedList)%list calls =
    prepend services
      (whileMoreRecordsToProcess random (withZeroSums records)
         sortedList calls).
Proof.
  induction records as [| r | records Hlen IH] using band_induction;
    intros services sortedList calls.
  - rewrite !whileMore_step by (simpl; lia). reflexivity.
  - rewrite !whileMore_single. simpl. now rewrite app_assoc.
  - rewrite !whileMore_step by (rewrite length_withZeroSums; lia).
    rewrite recordsOf_withZeroSums.
    destruct (firstReaching _ 0 records) as [[[before chosen] after]|] eqn:F;
      [|reflexivity].
    apply firstReaching_split in F.
    rewrite <- app_assoc. apply (IH _ _ _ F).
Qed.

(** [orderResourceListByWeight] on no record, on one, and on more. *)
Lemma orderResourceListByWeight_nil calls :
  orderResourceListByWeight random [] calls = Ok ([], calls).
Proof. reflexivity. Qed.

Lemma orderResourceListByWeight_single r calls :
  orderResourceListByWeight random [r] calls = Ok ([serviceOf r], calls).
Proof.
  unfold orderResourceListByWeight. simpl.
  apply (whileMore_single r [] calls).
Qed.

Lemma orderResourceListByWeight_step records calls :
  (2 <= List.length records)%nat ->
  orderResourceListByWeight random records calls =
  match firstReaching
          (randomNumberBelow random calls (totalWeight records)) 0 records with
  | Some (before, chosen, after) =>
      prepend [serviceOf chosen]
        (orderResourceListByWeight random (before ++ after)%list (S calls))
  | None => Throw TypeError
  end.
Proof.
  intros Hlen. unfold orderResourceListByWeight.
  fold (withZeroSums records). rewrite length_withZeroSums.
  destruct (Nat.ltb_spec 0 (List.length records)) as [_|]; [|lia].
  rewrite whileMore_step by (rewrite length_withZeroSums; lia).
  rewrite recordsOf_withZeroSums.
  destruct (firstReaching _ 0 records) as [[[before chosen] after]|] eqn:F;
    [|reflexivity].
  apply firstReaching_split in F.
  fold (withZeroSums (before ++ after)). rewrite length_withZeroSums.
  destruct (Nat.ltb_spec 0 (List.length (before ++ after)%list)) as [_|Hz].
  - apply (whileMore_prepend (before ++ after)%list [serviceOf chosen] []).
  - exfalso. rewrite F in Hlen. rewrite !length_app in *. simpl in *. lia.
Qed.

Lemma totalWeight_app l1 l2 :
  totalWeight (l1 ++ l2)%list = totalWeight l1 + totalWeight l2.
Proof.
  induction l1 as [|r l1 IH]; simpl; [reflexivity|]. rewrite IH. lia.
Qed.





Lemma prepend_Ok services outcome l c :
  prepend services outcome = Ok (l, c) ->
  exists rest, outcome = Ok (rest, c) /\ l = (services ++ rest)%list.
Proof.
  destruct outcome as [[rest c']|e]; simpl; intros H; [|discriminate].
  injection H as <- <-. now exists rest.
Qed.

(** A band that is ordered comes out as a permutation of itself, after one
    call to [Math.random] for every record but the last. *)
Lemma orderResourceListByWeight_outcome records :
  forall calls l c,
    orderResourceListByWeight random records calls = Ok (l, c) ->
    Permutation l (map serviceOf records)
    /\ c = (calls + (List.length records - 1))%nat.
Proof.
  induction records as [| r | records Hlen IH] using band_induction;
    intros calls l c H.
  - rewrite orderResourceListByWeight_nil in H. injection H as <- <-.
    split; [constructor | simpl; lia].
  - rewrite orderResourceListByWeight_single in H. injection H as <- <-.
    split; [reflexivity | simpl; lia].
  - rewrite orderResourceListByWeight_step in H by assumption.
    destruct (firstReaching _ 0 records) as [[[before chosen] after]|] eqn:F;
      [|discriminate].
    apply firstReaching_split in F.
    apply prepend_Ok in H as (rest & H & ->).
    destruct (IH _ _ _ F _ _ _ H) as [P C]. split.
    + rewrite F, map_app. simpl. apply Permutation_cons_app.
      now rewrite <- map_app.
    + rewrite F in Hlen |- *. rewrite C. rewrite !length_app in *.
      simpl in *. lia.
Qed.



End WeightedOrdering.



(** *** Sorting by priority *)

Lemma insertSorted_perm r l : Permutation (insertSorted r l) (r :: l).
Proof.
  induction l as [|x l IH]; simpl; [reflexivity|].
  destruct (compareFn r x <=? 0); [reflexivity|].
  rewrite IH. apply perm_swap.
Qed.

Lemma sort_perm records : Permutation (sort records) records.
Proof.
  induction records as [|r l IH]; simpl; [constructor|].
  rewrite insertSorted_perm. now constructor.
Qed.





(** *** Priority bands *)

Lemma bandsOf_cons r rest :
  exists band bands, bandsOf (r :: rest) = (r :: band) :: bands.
Proof.
  simpl. destruct (bandsOf rest) as [|[|next band] bands].
  - now exists [], [].
  - now exists [], ([] :: bands).
  - destruct (SrvRecord.priority next =? SrvRecord.priority r).
    + now exists (next :: band), bands.
    + now exists [], ((next :: band) :: bands).
Qed.

Lemma bandsOf_concat records : List.concat (bandsOf records) = records.
Proof.
  induction records as [|r rest IH]; [reflexivity|].
  simpl. destruct (bandsOf rest) as [|[|next band] bands]; simpl in *.
  - now rewrite <- IH.
  - now rewrite <- IH.
  - destruct (SrvRecord.priority next =? SrvRecord.priority r); simpl;
      now rewrite <- IH.
Qed.

Lemma bandsOf_bands records : Forall isBand (bandsOf records).
Proof.
  induction records as [|r rest IH]; [constructor|].
  simpl. destruct (bandsOf rest) as [|[|next band] bands].
  - constructor; [|constructor]. split; [discriminate|]. now repeat constructor.
  - constructor; [|exact IH]. split; [discriminate|]. now repeat constructor.
  - destruct (Z.eqb_spec (SrvRecord.priority next) (SrvRecord.priority r))
      as [E|N].
    + inversion IH as [|? ? [_ Hb] Hbs]; subst. constructor; [|exact Hbs].
      split; [discriminate|]. simpl in *. constructor; [reflexivity|].
      rewrite <- E. exact Hb.
    + constructor; [|exact IH]. split; [discriminate|].
      now repeat constructor.
Qed.


Lemma bandsOf_unfold r rest :
  bandsOf (r :: rest) =
  match bandsOf rest with
  | (next :: band) :: bands =>
      if SrvRecord.priority next =? SrvRecord.priority r
      then (r :: next :: band) :: bands
      else [r] :: (next :: band) :: bands
  | bands => [r] :: bands
  end.
Proof. reflexivity. Qed.

Lemma bandsOf_one_band cur p :
  cur <> [] ->
  Forall (fun r => SrvRecord.priority r = p) cur ->
  bandsOf cur = [cur].
Proof.
  induction cur as [|x cur IH]; intros Hne Hp; [contradiction|].
  inversion Hp as [|? ? Hx Hcur]; subst.
  destruct cur as [|y cur']; [reflexivity|].
  rewrite bandsOf_unfold, IH by (discriminate || assumption).
  inversion Hcur as [|? ? Hy _]; subst. now rewrite Hy, Z.eqb_refl.
Qed.

Lemma bandsOf_next_band cur p r rest :
  cur <> [] ->
  Forall (fun x => SrvRecord.priority x = p) cur ->
  SrvRecord.priority r <> p ->
  bandsOf (cur ++ r :: rest) = cur :: bandsOf (r :: rest).
Proof.
  intros Hne Hp Hr. induction cur as [|x cur IH]; [contradiction|].
  inversion Hp as [|? ? Hx Hcur]; subst.
  destruct cur as [|y cur'].
  - cbn [app]. destruct (bandsOf_cons r rest) as (band & bands & E).
    rewrite bandsOf_unfold, E.
    destruct (Z.eqb_spec (SrvRecord.priority r) (SrvRecord.priority x));
      [contradiction | reflexivity].
  - change ((x :: y :: cur') ++ r :: rest)%list
      with (x :: ((y :: cur') ++ r :: rest))%list.
    rewrite bandsOf_unfold, IH by (discriminate || assumption).
    inversion Hcur as [|? ? Hy _]; subst. now rewrite Hy, Z.eqb_refl.
Qed.

Lemma prepend_prepend a b outcome :
  prepend a (prepend b outcome) = prepend (a ++ b)%list outcome.
Proof.
  destruct outcome as [[l c]|e]; simpl; [|reflexivity].
  now rewrite app_assoc.
Qed.

Lemma prepend_nil outcome : prepend [] outcome = outcome.
Proof. now destruct outcome as [[l c]|e]. Qed.

Section Bands.
Variable random : nat -> Q.

(** The [forEach] over the sorted records, started inside a band [cur] of
    priority [p], orders the bands of [cur ++ records] one after the
    other. *)
Lemma forEachSorted_bands records :
  forall cur acc calls p,
    cur <> [] ->
    Forall (fun r => SrvRecord.priority r = p) cur ->
    processLast random
      (forEachSorted random records (mkBandLoop (Some p) cur acc calls)) =
    prepend acc (orderBands random (bandsOf (cur ++ records)) calls).
Proof.
  induction records as [|r rest IH]; intros cur acc calls p Hne Hp.
  - rewrite app_nil_r, (bandsOf_one_band cur p Hne Hp). simpl.
    destruct (orderResourceListByWeight random cur calls) as [[o c]|e];
      simpl; [|reflexivity].
    now rewrite app_nil_r.
  - cbn [forEachSorted previousPriority recordsToProcess sortedServices
           randomCalls priorityDiffers].
    destruct (Z.eqb_spec (SrvRecord.priority r) p) as [E|N]; cbn [negb].
    + rewrite (IH (cur ++ [r])%list acc calls p).
      * now rewrite <- app_assoc.
      * destruct cur; discriminate.
      * apply Forall_app. split; [exact Hp | now repeat constructor].
    + rewrite (bandsOf_next_band cur p r rest Hne Hp N).
      cbn [orderBands].
      destruct (orderResourceListByWeight random cur calls) as [[o c]|e];
        [|reflexivity].
      rewrite (IH [r] (acc ++ o)%list c (SrvRecord.priority r));
        [| discriminate | now repeat constructor].
      now rewrite prepend_prepend.
Qed.

Lemma orderByPriorityAndWeight_bands records calls :
  orderByPriorityAndWeight random records calls =
  orderBands random (bandsOf (sort records)) calls.
Proof.
  unfold orderByPriorityAndWeight.
  transitivity
    (processLast random
       (forEachSorted random (sort records)
          (mkBandLoop
             match sort records with
             | first :: _ => Some (SrvRecord.priority first)
             | [] => None
             end [] [] calls))).
  { unfold processLast.
    destruct (forEachSorted random (sort records) _) as [st|e];
      [|reflexivity].
    destruct (orderResourceListByWeight random (recordsToProcess st)
                (randomCalls st)) as [[o c]|e]; reflexivity. }
  destruct (sort records) as [|first rest].
  - reflexivity.
  - cbn [forEachSorted previousPriority recordsToProcess sortedServices
           randomCalls priorityDiffers].
    rewrite Z.eqb_refl. cbn [negb app].
    rewrite (forEachSorted_bands rest [first] [] calls
               (SrvRecord.priority first));
      [| discriminate | now repeat constructor].
    apply prepend_nil.
Qed.

End Bands.

(** *** The output depends on the calls to [Math.random] that are made *)




(** *** Validation of the response *)

Lemma queryNameOf_not_empty domainName service protocol :
  String.eqb (queryNameOf domainName service protocol) "" = false.
Proof. reflexivity. Qed.

Lemma locateServices_validated random domainName service protocol calls
    response srvRecords :
  Validated (queryNameOf domainName service protocol) response srvRecords ->
  locateServices (respond response) random domainName service protocol calls
  = processSrvRecords random (QueryResponse.AD response) srvRecords calls.
Proof.
  intros (Hstatus & question & answers & Hq & Hname & Htype & Ha & Hmap & _).
  unfold locateServices, respond. rewrite Hstatus, Hq, Ha, Hmap, Hname, Htype.
  rewrite queryNameOf_not_empty, String.eqb_refl. reflexivity.
Qed.

Lemma processSrvRecords_continue random ad srvRecords calls :
  srvRecords <> [] ->
  List.length (filter isSentinel srvRecords) <> 1%nat ->
  processSrvRecords random ad srvRecords calls =
  respondWith ad
    (orderByPriorityAndWeight random (filter notSentinel srvRecords) calls).
Proof.
  intros Hne Hs. unfold processSrvRecords.
  destruct srvRecords as [|r l]; [contradiction|]. cbn [List.length Nat.eqb].
  destruct (Nat.eqb_spec (List.length (filter isSentinel (r :: l))) 1);
    [contradiction|].
  reflexivity.
Qed.

Lemma processSrvRecords_withdrawn random ad srvRecords calls :
  List.length (filter isSentinel srvRecords) = 1%nat ->
  processSrvRecords random ad srvRecords calls = Ok (None, calls).
Proof.
  intros Hs. unfold processSrvRecords.
  destruct srvRecords as [|r l]; [discriminate|]. cbn [List.length Nat.eqb].
  now rewrite Hs.
Qed.

Lemma orderBands_outcome random bands :
  forall calls l c,
    orderBands random bands calls = Ok (l, c) ->
    Permutation l (map serviceOf (List.concat bands)).
Proof.
  induction bands as [|band rest IH]; intros calls l c H; simpl in H.
  - injection H as <- <-. constructor.
  - destruct (orderResourceListByWeight random band calls) as [[o c']|e] eqn:O;
      [|discriminate].
    apply prepend_Ok in H as (l' & H & ->).
    apply orderResourceListByWeight_outcome in O as [P _].
    simpl. rewrite map_app. apply Permutation_app; [exact P|].
    eapply IH. exact H.
Qed.

(** The services that come out are those of the records that went in. *)
Lemma orderByPriorityAndWeight_outcome random records calls l c :
  orderByPriorityAndWeight random records calls = Ok (l, c) ->
  Permutation l (map serviceOf records).
Proof.
  rewrite orderByPriorityAndWeight_bands. intros H.
  apply orderBands_outcome in H. rewrite bandsOf_concat in H.
  rewrite H. apply Permutation_map, sort_perm.
Qed.



(** C5. The checks of [locateServices] on the response, in their order:
    status NXDOMAIN gives [null]; any other status but NOERROR fails; then
    a missing [Question], a number of questions other than one, a question
    name other than the query name and a question type other than SRV each
    fail, with five messages that are pairwise different; then a missing
    [Answer] gives [null]; and answers of which none echoes the question
    fail with a sixth message. *)
Theorem locateServices_validation random domainName service protocol calls
    (response : QueryResponse.t) :
  let queryName := queryNameOf domainName service protocol in
  let result :=
    locateServices (respond response) random domainName service protocol
      calls in
  let fails message := result = Throw (DnsServerResponseError message) in
  (QueryResponse.Status response = ErrorCodes.NXDOMAIN ->
   result = Ok (None, calls))
  /\ (QueryResponse.Status response <> ErrorCodes.NXDOMAIN ->
      QueryResponse.Status response <> ErrorCodes.NOERROR ->
      fails "Error response sent by the server")
  /\ (QueryResponse.Status response = ErrorCodes.NOERROR ->
      (QueryResponse.Question response = None ->
       fails "No `Question` field found")
      /\ (forall questions,
            QueryResponse.Question response = Some questions ->
            List.length questions <> 1%nat ->
            fails "Expected only one `Question` element")
      /\ (forall question,
            QueryResponse.Question response = Some [question] ->
            (QueryQuestion.name question <> queryName ->
             fails "Invalid question name")
            /\ (QueryQuestion.name question = queryName ->
                QueryQuestion.type question <> RecordTypes.SRV ->
                fails "Invalid question type")
            /\ (QueryQuestion.name question = queryName ->
                QueryQuestion.type question = RecordTypes.SRV ->
                (QueryResponse.Answer response = None ->
                 result = Ok (None, calls))
                /\ (forall answers,
                      QueryResponse.Answer response = Some answers ->
                      filter (answerMatches question) answers = [] ->
                      fails "No valid answer found"))))
  /\ NoDup ["Error response sent by the server";
            "No `Question` field found";
            "Expected only one `Question` element";
            "Invalid question name";
            "Invalid question type";
            "No valid answer found"].
Proof.
  cbv zeta. unfold locateServices, respond.
  split; [|split; [|split]].
  - intros ->. reflexivity.
  - intros H3 H0.
    destruct (Z.eqb_spec (QueryResponse.Status response) ErrorCodes.NXDOMAIN);
      [contradiction|].
    destruct (Z.eqb_spec (QueryResponse.Status response) ErrorCodes.NOERROR);
      [contradiction | reflexivity].
  - intros ->. cbn [Z.eqb ErrorCodes.NOERROR ErrorCodes.NXDOMAIN negb].
    split; [|split].
    + intros ->. reflexivity.
    + intros questions -> Hlen.
      destruct questions as [|q [|q' l]]; try reflexivity.
      now contradiction Hlen.
    + intros question ->. split; [|split].
      * intros Hname.
        destruct (String.eqb_spec (QueryQuestion.name question)
                    (queryNameOf domainName service protocol));
          [contradiction|].
        now rewrite andb_false_r.
      * intros -> Htype.
        rewrite queryNameOf_not_empty, String.eqb_refl.
        destruct (Z.eqb_spec (QueryQuestion.type question) RecordTypes.SRV);
          [contradiction|].
        now rewrite andb_false_r.
      * intros -> ->. rewrite queryNameOf_not_empty, String.eqb_refl.
        cbn [negb andb Z.eqb RecordTypes.SRV].
        split; [intros ->; reflexivity|].
        intros answers -> ->. reflexivity.
  - repeat constructor; simpl; intuition discriminate.
Qed.

Lemma locateServices_validation_witness :
  let locate response :=
    locateServices (respond response) (constantRandom 0) "example.com"
      "bsvalias" "tcp" 0 in
  let fails response message :=
    locate response = Throw (DnsServerResponseError message) in
  locate (responseOf 3 (Some [exampleQuestion]) None) = Ok (None, 0%nat)
  /\ fails (responseOf 2 (Some [exampleQuestion]) None)
       "Error response sent by the server"
  /\ fails (responseOf 0 None None) "No `Question` field found"
  /\ fails (responseOf 0 (Some [exampleQuestion; exampleQuestion]) None)
       "Expected only one `Question` element"
  /\ fails (responseOf 0 (Some [QueryQuestion.mk "example.com" 33]) None)
       "Invalid question name"
  /\ fails (responseOf 0
              (Some [QueryQuestion.mk "_bsvalias._tcp.example.com" 1]) None)
       "Invalid question type"
  /\ locate (responseOf 0 (Some [exampleQuestion]) None) = Ok (None, 0%nat)
  /\ fails (responseOf 0 (Some [exampleQuestion])
              (Some [ResourceRecordAnswer.mk "example.com" 33 299
                       "some data"]))
       "No valid answer found".
Proof.
  cbv zeta.
  pose proof (fun response =>
                locateServices_validation (constantRandom 0) "example.com"
                  "bsvalias" "tcp" 0 response) as V.
  cbv zeta in V.
  split; [apply (proj1 (V _)); reflexivity|].
  split; [apply (proj1 (proj2 (V _))); discriminate|].
  split.
  { destruct (V (responseOf 0 None None)) as (_ & _ & H & _).
    apply (proj1 (H eq_refl)). reflexivity. }
  split.
  { destruct (V (responseOf 0 (Some [exampleQuestion; exampleQuestion]) None))
      as (_ & _ & H & _).
    apply (proj1 (proj2 (H eq_refl)) _ eq_refl). discriminate. }
  split.
  { destruct (V (responseOf 0 (Some [QueryQuestion.mk "example.com" 33]) None))
      as (_ & _ & H & _).
    apply (proj1 (proj2 (proj2 (H eq_refl)) _ eq_refl)). discriminate. }
  split.
  { destruct (V (responseOf 0
                   (Some [QueryQuestion.mk "_bsvalias._tcp.example.com" 1])
                   None)) as (_ & _ & H & _).
    apply (proj1 (proj2 (proj2 (proj2 (H eq_refl)) _ eq_refl)));
      [reflexivity | discriminate]. }
  split.
  { destruct (V (responseOf 0 (Some [exampleQuestion]) None))
      as (_ & _ & H & _).
    destruct (proj2 (proj2 (H eq_refl)) _ eq_refl) as (_ & _ & Ha).
    apply (proj1 (Ha eq_refl eq_refl)). reflexivity. }
  destruct (V (responseOf 0 (Some [exampleQuestion])
                 (Some [ResourceRecordAnswer.mk "example.com" 33 299
                          "some data"]))) as (_ & _ & H & _).
  destruct (proj2 (proj2 (H eq_refl)) _ eq_refl) as (_ & _ & Ha).
  exact (proj2 (Ha eq_refl eq_refl) _ eq_refl eq_refl).
Defined.

(** *** Withdrawal of the service *)

Lemma respondWith_not_null ad outcome calls :
  respondWith ad outcome <> Ok (None, calls).
Proof. destruct outcome as [[l c]|e]; discriminate. Qed.

(** C2 (amended). For a validated response with records [srvRecords]:
    [locateServices] returns [null] exactly when the records hold exactly
    one record of target ".", however many other records there are; a
    record of target "." that is the sole record gives [null]; and when the
    records hold no such record or two or more, those records are dropped,
    the others are ordered by priority and weight, and no service of the
    response has host ".". *)
Theorem locateServices_withdrawal random domainName service protocol calls
    response srvRecords :
  Validated (queryNameOf domainName service protocol) response srvRecords ->
  let result :=
    locateServices (respond response) random domainName service protocol
      calls in
  let sentinels := List.length (filter isSentinel srvRecords) in
  (sentinels = 1%nat <-> result = Ok (None, calls))
  /\ (forall r, srvRecords = [r] -> SrvRecord.target r = "." ->
      result = Ok (None, calls))
  /\ (sentinels <> 1%nat ->
      result =
        respondWith (QueryResponse.AD response)
          (orderByPriorityAndWeight random (filter notSentinel srvRecords)
             calls)
      /\ forall srvResolverResponse calls',
          result = Ok (Some srvResolverResponse, calls') ->
          Forall (fun s => DomainService.host s <> ".")
            (SrvResolverResponse.services srvResolverResponse)).
Proof.
  intros Hv. cbv zeta. rewrite (locateServices_validated _ _ _ _ _ _ _ Hv).
  destruct Hv as (_ & _ & _ & _ & _ & _ & _ & _ & Hne).
  split; [|split].
  - split.
    + apply processSrvRecords_withdrawn.
    + intros H.
      destruct (Nat.eq_dec (List.length (filter isSentinel srvRecords)) 1)
        as [|N]; [assumption|].
      rewrite (processSrvRecords_continue _ _ _ _ Hne N) in H.
      now apply respondWith_not_null in H.
  - intros r -> Ht. apply processSrvRecords_withdrawn.
    simpl. unfold isSentinel. rewrite Ht. reflexivity.
  - intros N. rewrite (processSrvRecords_continue _ _ _ _ Hne N).
    split; [reflexivity|].
    intros srvResolverResponse calls' H.
    destruct (orderByPriorityAndWeight random (filter notSentinel srvRecords)
                calls) as [[l c]|e] eqn:O; [|discriminate].
    simpl in H. injection H as <- <-. simpl.
    apply orderByPriorityAndWeight_outcome in O.
    apply Forall_forall. intros s Hin.
    apply (Permutation_in _ O) in Hin.
    apply in_map_iff in Hin as (r & <- & Hr).
    apply filter_In in Hr as [_ Hr]. unfold notSentinel, isSentinel in Hr.
    simpl. intros E. rewrite E in Hr. discriminate.
Qed.

Lemma sentinelAmongTwo_validated :
  Validated (queryNameOf "example.com" "bsvalias" "tcp") sentinelAmongTwo
    [exampleRecord 10 10 "."; exampleRecord 7 10 "example.com"].
Proof.
  split; [reflexivity|]. eexists _, _.
  repeat (split; [reflexivity|]). discriminate.
Qed.

Lemma twoSentinels_validated :
  Validated (queryNameOf "example.com" "bsvalias" "tcp") twoSentinels
    [exampleRecord 10 10 "."; exampleRecord 7 10 "."].
Proof.
  split; [reflexivity|]. eexists _, _.
  repeat (split; [reflexivity|]). discriminate.
Qed.

Lemma soleSentinel_validated :
  Validated (queryNameOf "example.com" "bsvalias" "tcp") soleSentinel
    [exampleRecord 10 10 "."].
Proof.
  split; [reflexivity|]. eexists _, _.
  repeat (split; [reflexivity|]). discriminate.
Qed.

Lemma locateServices_withdrawal_witness :
  locateServices (respond sentinelAmongTwo) (constantRandom 0)
    "example.com" "bsvalias" "tcp" 0 = Ok (None, 0%nat)
  /\ locateServices (respond soleSentinel) (constantRandom 0)
       "example.com" "bsvalias" "tcp" 0 = Ok (None, 0%nat)
  /\ locateServices (respond twoSentinels) (constantRandom 0)
       "example.com" "bsvalias" "tcp" 0
     = respondWith true
         (orderByPriorityAndWeight (constantRandom 0)
            (filter notSentinel
               [exampleRecord 10 10 "."; exampleRecord 7 10 "."]) 0).
Proof.
  split; [|split].
  - apply (proj1 (locateServices_withdrawal (constantRandom 0) _ _ _ 0 _ _
                    sentinelAmongTwo_validated)).
    reflexivity.
  - apply (proj1 (proj2 (locateServices_withdrawal (constantRandom 0) _ _ _ 0
                           _ _ soleSentinel_validated))
             (exampleRecord 10 10 "."));
      reflexivity.
  - apply (proj2 (proj2 (locateServices_withdrawal (constantRandom 0) _ _ _ 0
                           _ _ twoSentinels_validated))).
    simpl. discriminate.
Defined.

(** The response of the repository's test "returns `null` if server
    returns one RR with target value set to `.`": two answers are
    retained, one of them has target ".", and the result is [null]. *)
Lemma sentinel_among_two_answers_is_withdrawal :
  Validated (queryNameOf "example.com" "bsvalias" "tcp") sentinelAmongTwo
    [exampleRecord 10 10 "."; exampleRecord 7 10 "example.com"]
  /\ List.length
       [exampleRecord 10 10 "."; exampleRecord 7 10 "example.com"] = 2%nat
  /\ locateServices (respond sentinelAmongTwo) (constantRandom 0)
       "example.com" "bsvalias" "tcp" 0 = Ok (None, 0%nat).
Proof.
  split; [|split; reflexivity].
  split; [reflexivity|]. eexists _, _.
  repeat (split; [reflexivity|]). discriminate.
Qed.

(** *** Priority bands of the response *)

Lemma filter_all {A : Type} (f : A -> bool) (l : list A) :
  Forall (fun x => f x = true) l -> filter f l = l.
Proof.
  induction 1 as [|x l Hx _ IH]; simpl; [reflexivity|].
  now rewrite Hx, IH.
Qed.



Lemma fourAnswers_validated :
  Validated (queryNameOf "example.com" "bsvalias" "tcp") fourAnswers
    fourRecords.
Proof.
  split; [reflexivity|]. eexists _, _.
  repeat (split; [reflexivity|]). discriminate.
Qed.


(** The repository's test "returns SRV records that have the same priority
    using weight", with [Math.random] returning 0.3 and then 0.5. *)
Example fourAnswers_order_03 :
  locateServices (respond fourAnswers) (constantRandom (3 # 10))
    "example.com" "bsvalias" "tcp" 0
  = Ok (Some (SrvResolverResponse.mk
                [DomainService.mk "target4.example.com" 443;
                 DomainService.mk "target2.example.com" 443;
                 DomainService.mk "target1.example.com" 443;
                 DomainService.mk "target3.example.com" 443] true),
        2%nat).
Proof. reflexivity. Qed.

Example fourAnswers_order_05 :
  locateServices (respond fourAnswers) (constantRandom (1 # 2))
    "example.com" "bsvalias" "tcp" 0
  = Ok (Some (SrvResolverResponse.mk
                [DomainService.mk "target4.example.com" 443;
                 DomainService.mk "target2.example.com" 443;
                 DomainService.mk "target3.example.com" 443;
                 DomainService.mk "target1.example.com" 443] true),
        2%nat).
Proof. reflexivity. Qed.

(** *** The capability resolver *)

Lemma getField_Throw response field e :
  JsVal.getField response field = Throw e -> e = TypeError.
Proof.
  destruct response; simpl; try discriminate; try congruence.
  destruct (JsVal.ownProperty field properties); discriminate.
Qed.

Section Resolver.
Context {R : Type} {resolver : SrvResolver.t R}.
Variable this : CapabilityResolver.t R.
Variable domainName : string.

Import CapabilityResolver.

Lemma domainsAreEqual_spec a b :
  domainsAreEqual a b = true <->
  replaceTrailingDot a = replaceTrailingDot b.
Proof. unfold domainsAreEqual. apply String.eqb_eq. Qed.

Lemma sameOrWww_spec host :
  domainsAreEqual host domainName
  || domainsAreEqual host ("www." ++ domainName) = true
  <-> sameOrWww host domainName.
Proof.
  unfold sameOrWww. rewrite orb_true_iff, !domainsAreEqual_spec. tauto.
Qed.

Lemma getCapabilitiesForDomain_requested :
  snd (getCapabilitiesForDomain this domainName) =
  match getWellKnownBaseUrl this domainName with
  | Ok url => [url]
  | Throw _ => []
  end.
Proof.
  unfold getCapabilitiesForDomain.
  now destruct (getWellKnownBaseUrl this domainName).
Qed.

(** The three ways [getWellKnownBaseUrl] returns a URL. *)
Lemma getWellKnownBaseUrl_Ok url :
  getWellKnownBaseUrl this domainName = Ok url ->
  exists host port,
    url = wellKnownUrl host port
    /\ (sameOrWww host domainName
        \/ exists response others,
            SrvResolver.locateServices (srvResolver this) domainName
              "bsvalias" "tcp" = Ok (Some response)
            /\ SrvResolverResponse.services response =
               DomainService.mk host port :: others
            /\ SrvResolverResponse.isDomainSecure response = true).
Proof.
  unfold getWellKnownBaseUrl.
  destruct (SrvResolver.locateServices (srvResolver this) domainName
              "bsvalias" "tcp") as [[response|]|e] eqn:L; [| |discriminate].
  - destruct (SrvResolverResponse.services response) as [|[host port] others]
      eqn:S; [discriminate|].
    cbn [DomainService.host DomainService.port].
    destruct (domainsAreEqual host domainName
              || domainsAreEqual host ("www." ++ domainName)) eqn:D.
    + cbn [negb]. intros E. injection E as <-. exists host, port.
      split; [reflexivity|]. left. now apply sameOrWww_spec.
    + destruct (SrvResolverResponse.isDomainSecure response) eqn:A;
        cbn [negb]; [|discriminate].
      intros E. injection E as <-. exists host, port.
      split; [reflexivity|]. right. now exists response, others.
  - destruct (domainsAreEqual domainName domainName
              || domainsAreEqual domainName ("www." ++ domainName)) eqn:D;
      cbn [negb]; [|discriminate].
    intros E. injection E as <-. exists domainName, 443.
    split; [reflexivity|]. left. now left.
Qed.

(** C1. When the resolver returns a response whose first service has a
    host that equals the queried domain or its [www] host (final dots
    apart), the well-known document of that host and port is requested,
    whatever the response's [isDomainSecure]; when the host is another one
    and [isDomainSecure] is false, the call fails with the DNSSEC error
    that names the host and nothing is requested. Every URL that is
    requested is the well-known URL of a host that is the queried domain,
    its [www] host, or the first service of a response with
    [isDomainSecure] true. *)
Theorem getCapabilitiesForDomain_trusted_host :
  (forall response service others,
      SrvResolver.locateServices (srvResolver this) domainName
        "bsvalias" "tcp" = Ok (Some response) ->
      SrvResolverResponse.services response = service :: others ->
      (sameOrWww (DomainService.host service) domainName ->
       snd (getCapabilitiesForDomain this domainName) =
       [wellKnownUrl (DomainService.host service)
          (DomainService.port service)])
      /\ (~ sameOrWww (DomainService.host service) domainName ->
          SrvResolverResponse.isDomainSecure response = false ->
          getCapabilitiesForDomain this domainName =
          (Throw (DNSSECNotEnabledError
                    ("DNSSEC not enabled on domain "
                       ++ DomainService.host service)),
           [])))
  /\ (forall url,
        In url (snd (getCapabilitiesForDomain this domainName)) ->
        exists host port,
          url = wellKnownUrl host port
          /\ (sameOrWww host domainName
              \/ exists response others,
                  SrvResolver.locateServices (srvResolver this) domainName
                    "bsvalias" "tcp" = Ok (Some response)
                  /\ SrvResolverResponse.services response =
                     DomainService.mk host port :: others
                  /\ SrvResolverResponse.isDomainSecure response = true)).
Proof.
  split.
  - intros response service others L S. split.
    + intros Hsame. rewrite getCapabilitiesForDomain_requested.
      unfold getWellKnownBaseUrl. rewrite L, S.
      apply sameOrWww_spec in Hsame. now rewrite Hsame.
    + intros Hother A. unfold getCapabilitiesForDomain, getWellKnownBaseUrl.
      rewrite L, S, A.
      destruct (domainsAreEqual (DomainService.host service) domainName
                || domainsAreEqual (DomainService.host service)
                     ("www." ++ domainName)) eqn:D; [|reflexivity].
      apply sameOrWww_spec in D. contradiction.
  - intros url. rewrite getCapabilitiesForDomain_requested.
    destruct (getWellKnownBaseUrl this domainName) as [u|e] eqn:G;
      [|contradiction].
    intros [<-|[]]. now apply getWellKnownBaseUrl_Ok.
Qed.

(** C7. When the resolver returns [null], the well-known URL is that of
    the queried domain on port 443, that URL is the one requested, and the
    DNSSEC error is not raised: the call fails with it only if the request
    itself does. *)
Theorem getCapabilitiesForDomain_fallback :
  SrvResolver.locateServices (srvResolver this) domainName "bsvalias" "tcp"
  = Ok None ->
  let url := "https://" ++ domainName ++ ":443/.well-known/bsvalias" in
  getWellKnownBaseUrl this domainName = Ok url
  /\ snd (getCapabilitiesForDomain this domainName) = [url]
  /\ ((forall message,
          request this url <> Throw (DNSSECNotEnabledError message)) ->
      forall message,
        fst (getCapabilitiesForDomain this domainName)
        <> Throw (DNSSECNotEnabledError message)).
Proof.
  intros L. cbv zeta.
  assert (G : getWellKnownBaseUrl this domainName =
              Ok ("https://" ++ domainName ++ ":443/.well-known/bsvalias")).
  { unfold getWellKnownBaseUrl. rewrite L.
    unfold domainsAreEqual at 1. rewrite String.eqb_refl. reflexivity. }
  split; [exact G|]. split.
  - rewrite getCapabilitiesForDomain_requested. now rewrite G.
  - intros Hreq message. unfold getCapabilitiesForDomain. rewrite G.
    cbn [fst]. specialize (Hreq message).
    destruct (request this _) as [response|e]; [|exact Hreq].
    destruct (JsVal.getField response "capabilities") as [c|e] eqn:C;
      [|apply getField_Throw in C as ->; discriminate].
    destruct (negb (String.eqb (JsVal.typeOf c) "object")); [discriminate|].
    destruct (JsVal.getField response "bsvalias") as [b|e] eqn:B;
      [|apply getField_Throw in B as ->; discriminate].
    destruct (negb (JsVal.strictEqualsString b BSVALIAS_VERSION));
      discriminate.
Qed.

(** An empty list of services: [services[0]] is [undefined] and reading
    its [host] throws. *)
Lemma getCapabilitiesForDomain_no_service response :
  SrvResolver.locateServices (srvResolver this) domainName "bsvalias" "tcp"
  = Ok (Some response) ->
  SrvResolverResponse.services response = [] ->
  getCapabilitiesForDomain this domainName = (Throw TypeError, []).
Proof.
  intros L S. unfold getCapabilitiesForDomain, getWellKnownBaseUrl.
  now rewrite L, S.
Qed.

End Resolver.

Lemma getCapabilitiesForDomain_trusted_host_witness :
  snd (CapabilityResolver.getCapabilitiesForDomain
         (resolverWith (located "www.mypaymail.co." 443 false)
            (serve (wellKnownDocument exampleCapabilities)))
         "mypaymail.co")
  = ["https://www.mypaymail.co.:443/.well-known/bsvalias"]
  /\ CapabilityResolver.getCapabilitiesForDomain
       (resolverWith (located "example-target.com" 443 false)
          (serve (wellKnownDocument exampleCapabilities)))
       "mypaymail.co"
     = (Throw (DNSSECNotEnabledError
                 "DNSSEC not enabled on domain example-target.com"), [])
  /\ exists host port,
      "https://example-target.com:443/.well-known/bsvalias"
      = CapabilityResolver.wellKnownUrl host port
      /\ (sameOrWww host "mypaymail.co"
          \/ exists response others,
              SrvResolver.locateServices
                (CapabilityResolver.srvResolver
                   (resolverWith (located "example-target.com" 443 true)
                      (serve (wellKnownDocument exampleCapabilities))))
                "mypaymail.co" "bsvalias" "tcp" = Ok (Some response)
              /\ SrvResolverResponse.services response =
                 DomainService.mk host port :: others
              /\ SrvResolverResponse.isDomainSecure response = true).
Proof.
  split; [|split].
  - destruct (getCapabilitiesForDomain_trusted_host
                (resolverWith (located "www.mypaymail.co." 443 false)
                   (serve (wellKnownDocument exampleCapabilities)))
                "mypaymail.co") as [H1 _].
    destruct (H1 _ _ _ eq_refl eq_refl) as [Hsame _].
    apply Hsame. right. reflexivity.
  - destruct (getCapabilitiesForDomain_trusted_host
                (resolverWith (located "example-target.com" 443 false)
                   (serve (wellKnownDocument exampleCapabilities)))
                "mypaymail.co") as [H1 _].
    destruct (H1 _ _ _ eq_refl eq_refl) as [_ Hother].
    apply Hother; [|reflexivity].
    intros [E|E]; vm_compute in E; discriminate E.
  - destruct (getCapabilitiesForDomain_trusted_host
                (resolverWith (located "example-target.com" 443 true)
                   (serve (wellKnownDocument exampleCapabilities)))
                "mypaymail.co") as [_ H2].
    apply H2. left. reflexivity.
Defined.

Lemma getCapabilitiesForDomain_fallback_witness :
  CapabilityResolver.getWellKnownBaseUrl
    (resolverWith (Ok None) (serve (wellKnownDocument exampleCapabilities)))
    "mypaymail.co"
  = Ok "https://mypaymail.co:443/.well-known/bsvalias"
  /\ snd (CapabilityResolver.getCapabilitiesForDomain
            (resolverWith (Ok None)
               (serve (wellKnownDocument exampleCapabilities)))
            "mypaymail.co")
     = ["https://mypaymail.co:443/.well-known/bsvalias"]
  /\ forall message,
      fst (CapabilityResolver.getCapabilitiesForDomain
             (resolverWith (Ok None)
                (serve (wellKnownDocument exampleCapabilities)))
             "mypaymail.co")
      <> Throw (DNSSECNotEnabledError message).
Proof.
  destruct (getCapabilitiesForDomain_fallback
              (resolver := Fixed_SrvResolver)
              (resolverWith (Ok None)
                 (serve (wellKnownDocument exampleCapabilities)))
              "mypaymail.co" eq_refl) as (H1 & H2 & H3).
  split; [exact H1|]. split; [exact H2|].
  apply H3. intros message. discriminate.
Defined.

(** The two tests of the repository for the capability resolver. *)
Example resolves_target_of_srv_record :
  CapabilityResolver.getCapabilitiesForDomain
    (resolverOverDoh
       (QueryResponse.mk 0 false true true true false
          (Some [QueryQuestion.mk "_bsvalias._tcp.mypaymail.co" 33])
          (Some [ResourceRecordAnswer.mk "_bsvalias._tcp.mypaymail.co" 33 299
                   "10 10 443 example-target.com"]))
       (constantRandom 0) 0 (serve (wellKnownDocument exampleCapabilities)))
    "mypaymail.co"
  = (Ok exampleCapabilities,
     ["https://example-target.com:443/.well-known/bsvalias"]).
Proof. reflexivity. Qed.

Example resolves_domain_without_srv_record :
  CapabilityResolver.getCapabilitiesForDomain
    (resolverOverDoh
       (QueryResponse.mk 3 false true true true false
          (Some [QueryQuestion.mk "_bsvalias._tcp.mypaymail.co" 33]) None)
       (constantRandom 0) 0 (serve (wellKnownDocument exampleCapabilities)))
    "mypaymail.co"
  = (Ok exampleCapabilities,
     ["https://mypaymail.co:443/.well-known/bsvalias"]).
Proof. reflexivity. Qed.

(** C10. When the resolver returns a response with no service,
    [getCapabilitiesForDomain] throws a [TypeError], which is none of the
    error classes of the client, and requests nothing. [DohSrvResolver]
    returns such a response for a validated response whose records, two or
    more, all have target ".": over it the capability resolver throws the
    [TypeError]. *)
Theorem getCapabilitiesForDomain_empty_services :
  (forall (R : Type) (resolver : SrvResolver.t R)
          (this : CapabilityResolver.t R) domainName response,
      SrvResolver.locateServices (CapabilityResolver.srvResolver this)
        domainName "bsvalias" "tcp" = Ok (Some response) ->
      SrvResolverResponse.services response = [] ->
      CapabilityResolver.getCapabilitiesForDomain this domainName
      = (Throw TypeError, []))
  /\ (forall random calls request domainName response srvRecords,
        Validated (queryNameOf domainName "bsvalias" "tcp") response
          srvRecords ->
        Forall (fun r => isSentinel r = true) srvRecords ->
        (2 <= List.length srvRecords)%nat ->
        locateServices (respond response) random domainName "bsvalias" "tcp"
          calls
        = Ok (Some (SrvResolverResponse.mk [] (QueryResponse.AD response)),
              calls)
        /\ CapabilityResolver.getCapabilitiesForDomain
             (resolverOverDoh response random calls request) domainName
           = (Throw TypeError, []))
  /\ (forall message status,
        TypeError <> DnsServerResponseError message
        /\ TypeError <> DNSSECNotEnabledError message
        /\ TypeError <> BsvAliasUnexpectedServerResponseError message
        /\ TypeError <> BsvAliasServerErrorResponse status
        /\ TypeError <> ConnectionTimeoutError
        /\ TypeError <> UnexpectedBsvAliasNetworkError message).
Proof.
  split; [|split].
  - intros R resolver this domainName response L S.
    now apply getCapabilitiesForDomain_no_service with (response := response).
  - intros random calls request domainName response srvRecords Hv Hall Hlen.
    assert (L : locateServices (respond response) random domainName
                  "bsvalias" "tcp" calls
                = Ok (Some (SrvResolverResponse.mk []
                              (QueryResponse.AD response)), calls)).
    { rewrite (locateServices_validated _ _ _ _ _ _ _ Hv).
      rewrite processSrvRecords_continue.
      - assert (E : filter notSentinel srvRecords = []).
        { clear Hlen Hv. induction Hall as [|r l Hr _ IH]; [reflexivity|].
          simpl. unfold notSentinel at 1. now rewrite Hr. }
        rewrite E. reflexivity.
      - destruct srvRecords; [simpl in Hlen; lia | discriminate].
      - rewrite (filter_all _ _ Hall). lia. }
    split; [exact L|].
    apply getCapabilitiesForDomain_no_service
      with (response := SrvResolverResponse.mk [] (QueryResponse.AD response));
      [|reflexivity].
    unfold resolverOverDoh, SrvResolver.locateServices,
      DohSrvResolver_SrvResolver.
    cbn [CapabilityResolver.srvResolver DohInstance.get DohInstance.random
           DohInstance.calls].
    now rewrite L.
  - intros message status. repeat split; discriminate.
Qed.

Lemma getCapabilitiesForDomain_empty_services_witness :
  locateServices (respond twoSentinels) (constantRandom 0) "example.com"
    "bsvalias" "tcp" 0
  = Ok (Some (SrvResolverResponse.mk [] true), 0%nat)
  /\ CapabilityResolver.getCapabilitiesForDomain
       (resolverOverDoh twoSentinels (constantRandom 0) 0
          (serve (wellKnownDocument exampleCapabilities)))
       "example.com"
     = (Throw TypeError, [])
  /\ CapabilityResolver.getCapabilitiesForDomain
       (resolverWith (Ok (Some (SrvResolverResponse.mk [] true)))
          (serve (wellKnownDocument exampleCapabilities)))
       "example.com"
     = (Throw TypeError, []).
Proof.
  destruct getCapabilitiesForDomain_empty_services as (H1 & H2 & _).
  assert (Hall : Forall (fun r => isSentinel r = true)
                   [exampleRecord 10 10 "."; exampleRecord 7 10 "."])
    by (repeat constructor).
  assert (Hlen : (2 <= List.length
                         [exampleRecord 10 10 "."; exampleRecord 7 10 "."])%nat)
    by (simpl; lia).
  destruct (H2 (constantRandom 0) 0%nat
              (serve (wellKnownDocument exampleCapabilities))
              "example.com" twoSentinels _ twoSentinels_validated Hall Hlen)
    as [L G].
  split; [exact L|]. split; [exact G|].
  apply (H1 _ _ (resolverWith (Ok (Some (SrvResolverResponse.mk [] true)))
                   (serve (wellKnownDocument exampleCapabilities)))
            "example.com" (SrvResolverResponse.mk [] true));
    reflexivity.
Defined.

(** *** The well-known document *)

Section Document.
Context {R : Type} {resolver : SrvResolver.t R}.
Variable this : CapabilityResolver.t R.
Variable domainName : string.
Variable url : string.
Variable properties : list (string * JsVal.t).
Hypothesis resolved :
  CapabilityResolver.getWellKnownBaseUrl this domainName = Ok url.
Hypothesis served :
  CapabilityResolver.request this url = Ok (JsVal.Object properties).

Import CapabilityResolver.

(** The checks on a document that is an object: a [capabilities] member
    that is missing or whose [typeof] is not "object" fails; then a
    [bsvalias] member that is not the string "1.0" fails; otherwise the
    [capabilities] member is returned as it is. *)
Lemma getCapabilitiesForDomain_document_checks :
  (JsVal.ownProperty "capabilities" properties = None ->
   getCapabilitiesForDomain this domainName =
   unexpected url "No capabilities returned")
  /\ (forall capabilities,
        JsVal.ownProperty "capabilities" properties = Some capabilities ->
        (JsVal.typeOf capabilities <> "object" ->
         getCapabilitiesForDomain this domainName =
         unexpected url "No capabilities returned")
        /\ (JsVal.typeOf capabilities = "object" ->
            (JsVal.ownProperty "bsvalias" properties
             <> Some (JsVal.Str BSVALIAS_VERSION) ->
             getCapabilitiesForDomain this domainName =
             unexpected url "Unsupported BSV alias version")
            /\ (JsVal.ownProperty "bsvalias" properties
                = Some (JsVal.Str BSVALIAS_VERSION) ->
                getCapabilitiesForDomain this domainName =
                (Ok capabilities, [url])))).
Proof.
  unfold getCapabilitiesForDomain, unexpected. rewrite resolved, served.
  cbn [JsVal.getField]. split.
  - intros ->. reflexivity.
  - intros capabilities ->. split.
    + intros T. destruct (String.eqb_spec (JsVal.typeOf capabilities) "object");
        [contradiction | reflexivity].
    + intros ->. cbn [String.eqb Ascii.eqb Bool.eqb negb]. split.
      * intros V.
        destruct (JsVal.ownProperty "bsvalias" properties) as [b|];
          [|reflexivity].
        destruct b; try reflexivity. simpl.
        destruct (String.eqb_spec s BSVALIAS_VERSION); [|reflexivity].
        subst. now contradiction V.
      * intros ->. reflexivity.
Qed.

(** A capability that the document lists is supported, whatever its
    value; one that it does not list is unsupported when
    [Object.prototype] has no member of that name. *)
Lemma isCapabilitySupportedForDomain_listed capabilities capabilityCode :
  getCapabilitiesForDomain this domainName =
  (Ok (JsVal.Object capabilities), [url]) ->
  (forall value,
      JsVal.ownProperty capabilityCode capabilities = Some value ->
      value <> JsVal.Undefined ->
      isCapabilitySupportedForDomain this capabilityCode domainName =
      (Ok true, [url]))
  /\ (JsVal.ownProperty capabilityCode capabilities = None ->
      JsVal.objectPrototypeGet capabilityCode = JsVal.Undefined ->
      isCapabilitySupportedForDomain this capabilityCode domainName =
      (Ok false, [url])).
Proof.
  intros G. unfold isCapabilitySupportedForDomain. rewrite G.
  cbn [JsVal.getOfObject]. split.
  - intros value -> Hv. destruct value; try reflexivity. contradiction.
  - intros -> ->. reflexivity.
Qed.

End Document.

(** C8, at a document whose [capabilities] member is [null]: the [typeof]
    of [null] is "object", the check passes and [null] is returned. *)
Theorem getCapabilitiesForDomain_null_capabilities :
  CapabilityResolver.getCapabilitiesForDomain
    (resolverWith (Ok None) (serve (wellKnownDocument JsVal.Null)))
    "example.com"
  = (Ok JsVal.Null, ["https://example.com:443/.well-known/bsvalias"]).
Proof. reflexivity. Qed.

(** C9, at a document with no capability and the capability code
    "toString": the read finds the member of [Object.prototype] and the
    capability is reported as supported. *)
Theorem isCapabilitySupportedForDomain_inherited_member :
  JsVal.ownProperty "toString" [] = None
  /\ CapabilityResolver.getCapabilitiesForDomain
       (resolverWith (Ok None) (serve (wellKnownDocument (JsVal.Object []))))
       "example.com"
     = (Ok (JsVal.Object []),
        ["https://example.com:443/.well-known/bsvalias"])
  /\ CapabilityResolver.isCapabilitySupportedForDomain
       (resolverWith (Ok None) (serve (wellKnownDocument (JsVal.Object []))))
       "toString" "example.com"
     = (Ok true, ["https://example.com:443/.well-known/bsvalias"]).
Proof. repeat split. Qed.

(** Listed capabilities with values that are falsy, and one that is not
    listed. *)
Example falsy_capabilities_are_supported :
  let this :=
    resolverWith (Ok None)
      (serve (wellKnownDocument
                (JsVal.Object
                   [("zero", JsVal.Number 0); ("empty", JsVal.Str "");
                    ("no", JsVal.Boolean false); ("null", JsVal.Null)]))) in
  map (fun code =>
         fst (CapabilityResolver.isCapabilitySupportedForDomain this code
                "example.com"))
    ["zero"; "empty"; "no"; "null"; "pki"]
  = [Ok true; Ok true; Ok true; Ok true; Ok false].
Proof. reflexivity. Qed.

(** After a [null] capabilities member the capability lookup throws. *)
Example null_capabilities_lookup_throws :
  CapabilityResolver.isCapabilitySupportedForDomain
    (resolverWith (Ok None) (serve (wellKnownDocument JsVal.Null)))
    "pki" "example.com"
  = (Throw TypeError, ["https://example.com:443/.well-known/bsvalias"]).
Proof. reflexivity. Qed.
(* ===================================================================== *)
(** ** Further properties                                                 *)
(* ===================================================================== *)

(** *** Tokens and numbers of an SRV answer *)

Lemma split_length sep s :
  List.length (split sep s) = S (countChar sep s).
Proof.
  induction s as [|c s IH]; [reflexivity|].
  simpl. destruct (Ascii.eqb c sep); simpl; [now rewrite IH|].
  destruct (split sep s) as [|tok toks]; simpl in *; [discriminate|].
  exact IH.
Qed.

Lemma hasChar_cons sep c s :
  hasChar sep (String c s) = false ->
  Ascii.eqb c sep = false /\ hasChar sep s = false.
Proof.
  unfold hasChar. simpl. destruct (Ascii.eqb c sep); [discriminate|].
  now split.
Qed.

Lemma hasChar_append sep a b :
  hasChar sep a = false -> hasChar sep b = false ->
  hasChar sep (a ++ b) = false.
Proof.
  induction a as [|c a IH]; intros Ha Hb; [exact Hb|].
  apply hasChar_cons in Ha as [Hc Ha]. specialize (IH Ha Hb).
  unfold hasChar in *. simpl. now rewrite Hc.
Qed.

Lemma split_no_separator sep s :
  hasChar sep s = false -> split sep s = [s].
Proof.
  induction s as [|c s IH]; intros H; [reflexivity|].
  apply hasChar_cons in H as [Hc Hs]. simpl. rewrite Hc, (IH Hs).
  reflexivity.
Qed.

Lemma split_first_token sep a b :
  hasChar sep a = false ->
  split sep (a ++ String sep b) = a :: split sep b.
Proof.
  induction a as [|c a IH]; intros H.
  - simpl. now rewrite Ascii.eqb_refl.
  - apply hasChar_cons in H as [Hc Ha]. simpl. rewrite Hc, (IH Ha).
    reflexivity.
Qed.








Lemma hasChar_cons_intro sep c s :
  Ascii.eqb c sep = false -> hasChar sep s = false ->
  hasChar sep (String c s) = false.
Proof. unfold hasChar. simpl. now intros ->. Qed.




Lemma split_tokens sep s :
  Forall (fun token => hasChar sep token = false) (split sep s).
Proof.
  induction s as [|c s IH]; [now repeat constructor|].
  simpl. destruct (Ascii.eqb c sep) eqn:E.
  - constructor; [reflexivity | exact IH].
  - destruct (split sep s) as [|token tokens].
    + constructor; [now apply hasChar_cons_intro | constructor].
    + inversion IH as [|? ? Ht Hts]; subst. constructor; [|exact Hts].
      now apply hasChar_cons_intro.
Qed.

Lemma replaceTrailingDot_prefix s :
  exists suffix, s = replaceTrailingDot s ++ suffix.
Proof.
  induction s as [|c s [suffix IH]]; [now exists ""|].
  simpl. destruct (Ascii.eqb c "." && String.eqb s "").
  - now exists (String c s).
  - exists suffix. simpl. now rewrite <- IH.
Qed.

Lemma hasChar_prefix sep a b :
  hasChar sep (a ++ b) = false -> hasChar sep a = false.
Proof.
  induction a as [|c a IH]; intros H; [reflexivity|].
  simpl in H. apply hasChar_cons in H as [Hc Ha].
  apply hasChar_cons_intro; [exact Hc | now apply IH].
Qed.

Lemma hasLineTerminator_append a b :
  hasLineTerminator (a ++ b) = hasLineTerminator a || hasLineTerminator b.
Proof.
  induction a as [|c a IH]; [reflexivity|].
  simpl. rewrite IH. now rewrite orb_assoc.
Qed.

(** X1. The data of an answer splits into one token more than it has
    spaces: an answer is deserialised only when its data has exactly
    three spaces. The record then has the name and the TTL of the answer,
    and its target is not empty and holds neither a space nor a line
    terminator. *)
Theorem deserialiseSrvAnswer_record (answer : ResourceRecordAnswer.t) :
  (countChar " " (ResourceRecordAnswer.data answer) <> 3%nat ->
   deserialiseSrvAnswer answer = invalid msgInvalidAnswer)
  /\ (forall record,
        deserialiseSrvAnswer answer = Ok record ->
        countChar " " (ResourceRecordAnswer.data answer) = 3%nat
        /\ SrvRecord.name record = ResourceRecordAnswer.name answer
        /\ SrvRecord.TTL record = ResourceRecordAnswer.TTL answer
        /\ SrvRecord.target record <> ""
        /\ hasChar " " (SrvRecord.target record) = false
        /\ hasLineTerminator (SrvRecord.target record) = false).
Proof.
  pose proof (split_length " " (ResourceRecordAnswer.data answer)) as L.
  pose proof (split_tokens " " (ResourceRecordAnswer.data answer)) as T.
  unfold deserialiseSrvAnswer.
  destruct (Nat.eqb_spec
              (List.length (split " " (ResourceRecordAnswer.data answer))) 4)
    as [E|N]; cbn [negb].
  - split; [intros H; exfalso; apply H; lia|].
    intros record H. split; [lia|].
    destruct (split " " (ResourceRecordAnswer.data answer))
      as [|p [|w [|po [|t [|extra rest]]]]]; try discriminate E.
    cbn [nth] in H.
    destruct (parseInt p) as [priority|]; [|discriminate].
    destruct (parseInt w) as [weight|]; [|discriminate].
    destruct (parseInt po) as [port|]; [|discriminate].
    assert (Ht : hasChar " " t = false).
    { inversion T as [|? ? _ T1]; inversion T1 as [|? ? _ T2];
        inversion T2 as [|? ? _ T3]; now inversion T3. }
    destruct (hasLineTerminator t) eqn:LT.
    { unfold execTargetRegex in H.
      now rewrite (execLazyGroup_line_terminator t "" LT) in H. }
    unfold execTargetRegex in H.
    rewrite (execLazyGroup_strips t "" LT) in H. cbn [append] in H.
    injection H as <-. cbn [SrvRecord.name SrvRecord.TTL SrvRecord.target].
    split; [reflexivity|]. split; [reflexivity|].
    destruct (replaceTrailingDot_prefix t) as [suffix P].
    destruct (String.eqb_spec (replaceTrailingDot t) "") as [Z|NZ].
    + repeat split; discriminate.
    + split; [exact NZ|]. split.
      * rewrite P in Ht. now apply hasChar_prefix in Ht.
      * rewrite P, hasLineTerminator_append in LT.
        now apply orb_false_iff in LT as [LT _].
  - split; [reflexivity | discriminate].
Qed.

Lemma deserialiseSrvAnswer_record_witness :
  deserialiseSrvAnswer (exampleAnswerOf "10  10 443 example.com")
  = invalid msgInvalidAnswer
  /\ (countChar " " (ResourceRecordAnswer.data exampleAnswer) = 3%nat
      /\ SrvRecord.name (exampleRecord 10 10 "example.com")
         = ResourceRecordAnswer.name exampleAnswer
      /\ SrvRecord.TTL (exampleRecord 10 10 "example.com")
         = ResourceRecordAnswer.TTL exampleAnswer
      /\ SrvRecord.target (exampleRecord 10 10 "example.com") <> ""
      /\ hasChar " " (SrvRecord.target (exampleRecord 10 10 "example.com"))
         = false
      /\ hasLineTerminator
           (SrvRecord.target (exampleRecord 10 10 "example.com")) = false).
Proof.
  split.
  - apply (proj1 (deserialiseSrvAnswer_record
                    (exampleAnswerOf "10  10 443 example.com"))).
    simpl. discriminate.
  - apply (proj2 (deserialiseSrvAnswer_record exampleAnswer)).
    reflexivity.
Defined.



(** *** Bands with weights that are zero or negative *)











(** *** What [locateServices] returns and which answers it reads *)

Lemma bands_length bands :
  Forall isBand bands ->
  (List.length bands <= List.length (List.concat bands))%nat.
Proof.
  induction 1 as [|band rest [Hne _] _ IH]; simpl; [lia|].
  rewrite length_app. destruct band; [contradiction | simpl; lia].
Qed.

Lemma orderBands_calls random bands :
  Forall isBand bands ->
  forall calls l c,
    orderBands random bands calls = Ok (l, c) ->
    c = (calls + (List.length (List.concat bands) - List.length bands))%nat.
Proof.
  induction 1 as [|band rest [Hne _] Hrest IH]; intros calls l c H;
    simpl in H.
  - injection H as <- <-. simpl. lia.
  - destruct (orderResourceListByWeight random band calls) as [[o c']|e] eqn:O;
      [|discriminate].
    apply prepend_Ok in H as (l' & H & ->).
    apply orderResourceListByWeight_outcome in O as [_ ->].
    apply IH in H. subst c. pose proof (bands_length rest Hrest).
    simpl. rewrite length_app. destruct band; [contradiction | simpl; lia].
Qed.

(** X5. For a validated response, a response that [locateServices] returns
    carries the [AD] flag, has one service for every record whose target
    is not ".", and was built with as many calls to [Math.random] as
    there are such records less the number of their priority bands. A
    sole record whose target is not "." gives its service with no call to
    [Math.random]. *)
Theorem locateServices_counts random domainName service protocol calls
    response srvRecords :
  Validated (queryNameOf domainName service protocol) response srvRecords ->
  let result :=
    locateServices (respond response) random domainName service protocol
      calls in
  let kept := filter notSentinel srvRecords in
  (forall srvResolverResponse calls',
      result = Ok (Some srvResolverResponse, calls') ->
      SrvResolverResponse.isDomainSecure srvResolverResponse
      = QueryResponse.AD response
      /\ List.length (SrvResolverResponse.services srvResolverResponse)
         = List.length kept
      /\ calls' = (calls + (List.length kept
                            - List.length (bandsOf (sort kept))))%nat)
  /\ (forall record,
        srvRecords = [record] -> SrvRecord.target record <> "." ->
        result =
        Ok (Some (SrvResolverResponse.mk [serviceOf record]
                    (QueryResponse.AD response)), calls)).
Proof.
  intros Hv. cbv zeta. rewrite (locateServices_validated _ _ _ _ _ _ _ Hv).
  destruct Hv as (_ & _ & _ & _ & _ & _ & _ & _ & Hne).
  split.
  - intros srvResolverResponse calls' H.
    destruct (Nat.eq_dec (List.length (filter isSentinel srvRecords)) 1)
      as [E|N].
    { rewrite (processSrvRecords_withdrawn _ _ _ _ E) in H. discriminate. }
    rewrite (processSrvRecords_continue _ _ _ _ Hne N) in H.
    destruct (orderByPriorityAndWeight random (filter notSentinel srvRecords)
                calls) as [[l c]|e] eqn:O; [|discriminate].
    simpl in H. injection H as <- <-. simpl.
    split; [reflexivity|]. split.
    + apply orderByPriorityAndWeight_outcome in O.
      rewrite (Permutation_length O). apply length_map.
    + rewrite orderByPriorityAndWeight_bands in O.
      apply orderBands_calls in O; [|apply bandsOf_bands].
      rewrite bandsOf_concat in O.
      now rewrite (Permutation_length (sort_perm _)) in O.
  - intros record -> Ht.
    assert (S : isSentinel record = false).
    { unfold isSentinel. now apply String.eqb_neq. }
    rewrite processSrvRecords_continue;
      [| discriminate | simpl; rewrite S; discriminate].
    cbn [filter]. unfold notSentinel at 1. rewrite S. cbn [negb filter].
    rewrite orderByPriorityAndWeight_bands. cbn.
    unfold orderResourceListByWeight. cbn. rewrite whileMore_unfold.
    reflexivity.
Qed.

Lemma locateServices_counts_witness :
  (true = QueryResponse.AD fourAnswers
   /\ List.length
        [DomainService.mk "target4.example.com" 443;
         DomainService.mk "target2.example.com" 443;
         DomainService.mk "target1.example.com" 443;
         DomainService.mk "target3.example.com" 443]
      = List.length (filter notSentinel fourRecords)
   /\ 2%nat
      = (0 + (List.length (filter notSentinel fourRecords)
              - List.length
                  (bandsOf (sort (filter notSentinel fourRecords)))))%nat)
  /\ locateServices
       (respond (exampleResponse false ["10 10 443 example.com"]))
       (constantRandom 0) "example.com" "bsvalias" "tcp" 7
     = Ok (Some (SrvResolverResponse.mk
                   [DomainService.mk "example.com" 443] false), 7%nat).
Proof.
  split.
  - apply (proj1 (locateServices_counts (constantRandom (3 # 10))
                    "example.com" "bsvalias" "tcp" 0 fourAnswers fourRecords
                    fourAnswers_validated)
             (SrvResolverResponse.mk
                [DomainService.mk "target4.example.com" 443;
                 DomainService.mk "target2.example.com" 443;
                 DomainService.mk "target1.example.com" 443;
                 DomainService.mk "target3.example.com" 443] true)).
    reflexivity.
  - assert (V : Validated (queryNameOf "example.com" "bsvalias" "tcp")
                  (exampleResponse false ["10 10 443 example.com"])
                  [exampleRecord 10 10 "example.com"]).
    { split; [reflexivity|]. eexists _, _.
      repeat (split; [reflexivity|]). discriminate. }
    apply (proj2 (locateServices_counts (constantRandom 0)
                    "example.com" "bsvalias" "tcp" 7 _ _ V)
             (exampleRecord 10 10 "example.com"));
      [reflexivity | discriminate].
Defined.

Lemma filter_idempotent {A : Type} (f : A -> bool) (l : list A) :
  filter f (filter f l) = filter f l.
Proof.
  induction l as [|x l IH]; [reflexivity|].
  simpl. destruct (f x) eqn:E; [|exact IH]. simpl. now rewrite E, IH.
Qed.

Lemma mapResult_first_failure {A B : Type} (f : A -> Result B)
    (good : list A) bad rest e :
  Forall (fun a => exists b, f a = Ok b) good ->
  f bad = Throw e ->
  mapResult f (good ++ bad :: rest) = Throw e.
Proof.
  induction 1 as [|a good [b Ha] _ IH]; intros Hbad; simpl.
  - now rewrite Hbad.
  - now rewrite Ha, (IH Hbad).
Qed.

(** X6. [locateServices] reads only the answers that echo the question:
    the result is the same when the other answers are removed. Among the
    answers that echo it, the first one that cannot be deserialised makes
    the call fail with the error of that answer, whatever follows it. *)
Theorem locateServices_answers_read random domainName service protocol calls
    (response : QueryResponse.t) (question : QueryQuestion.t) :
  QueryResponse.Question response = Some [question] ->
  (forall answers,
      locateServices (respond (withAnswer response (Some answers))) random
        domainName service protocol calls
      = locateServices
          (respond (withAnswer response
                      (Some (filter (answerMatches question) answers))))
          random domainName service protocol calls)
  /\ (forall answers good bad rest e,
        QueryResponse.Status response = ErrorCodes.NOERROR ->
        QueryQuestion.name question
        = queryNameOf domainName service protocol ->
        QueryQuestion.type question = RecordTypes.SRV ->
        filter (answerMatches question) answers = (good ++ bad :: rest)%list ->
        Forall (fun a => exists r, deserialiseSrvAnswer a = Ok r) good ->
        deserialiseSrvAnswer bad = Throw e ->
        locateServices (respond (withAnswer response (Some answers))) random
          domainName service protocol calls
        = Throw e).
Proof.
  intros Hq. split.
  - intros answers. unfold locateServices, respond, withAnswer.
    cbn [QueryResponse.Status QueryResponse.Question QueryResponse.Answer
           QueryResponse.AD].
    rewrite Hq. now rewrite filter_idempotent.
  - intros answers good bad rest e Hs Hn Ht Hf Hgood Hbad.
    unfold locateServices, respond, withAnswer.
    cbn [QueryResponse.Status QueryResponse.Question QueryResponse.Answer
           QueryResponse.AD].
    rewrite Hs, Hq, Hn, Ht, Hf.
    rewrite queryNameOf_not_empty, String.eqb_refl.
    rewrite (mapResult_first_failure _ _ _ _ _ Hgood Hbad). reflexivity.
Qed.

Lemma locateServices_answers_read_witness :
  locateServices
    (respond (withAnswer (exampleResponse true [])
                (Some [ResourceRecordAnswer.mk "example.com" 33 299 "x";
                       exampleAnswerOf "10 10 443 example.com"])))
    (constantRandom 0) "example.com" "bsvalias" "tcp" 0
  = locateServices
      (respond (withAnswer (exampleResponse true [])
                  (Some (filter (answerMatches exampleQuestion)
                           [ResourceRecordAnswer.mk "example.com" 33 299 "x";
                            exampleAnswerOf "10 10 443 example.com"]))))
      (constantRandom 0) "example.com" "bsvalias" "tcp" 0
  /\ locateServices
       (respond (withAnswer (exampleResponse true [])
                   (Some [exampleAnswerOf "10 10 443 example.com";
                          exampleAnswerOf "10 x 443 example.com";
                          exampleAnswerOf "y"])))
       (constantRandom 0) "example.com" "bsvalias" "tcp" 0
     = Throw (DnsServerResponseError msgInvalidWeight).
Proof.
  destruct (locateServices_answers_read (constantRandom 0) "example.com"
              "bsvalias" "tcp" 0 (exampleResponse true []) exampleQuestion
              eq_refl) as [H1 H2].
  split; [apply H1|].
  apply (H2 _ [exampleAnswerOf "10 10 443 example.com"]
            (exampleAnswerOf "10 x 443 example.com")
            [exampleAnswerOf "y"]);
    try reflexivity.
  repeat constructor. eexists. reflexivity.
Defined.

(** *** Outcomes of the capability resolver *)

Lemma ends_with_dot_or_not s :
  endsWithDot s \/ ~ endsWithDot s.
Proof.
  unfold endsWithDot. induction s as [|c s [[s' ->]|IH]].
  - right. intros [[|c s'] E]; discriminate E.
  - left. now exists (String c s').
  - destruct s as [|d s].
    + destruct (Ascii.eqb_spec c ".") as [->|N].
      * left. now exists "".
      * right. intros [[|x [|y s']] E]; simpl in E; try discriminate E.
        injection E as E. contradiction.
    + right. intros [[|x s'] E]; simpl in E; [discriminate E|].
      injection E as _ E. apply IH. now exists s'.
Qed.

Lemma replaceTrailingDot_without s :
  ~ endsWithDot s -> replaceTrailingDot s = s.
Proof.
  intros H. apply replaceTrailingDot_no_dot. intros s' E. apply H.
  now exists s'.
Qed.

(** X7. [domainsAreEqual] holds exactly for two equal names and for two
    names of which one is the other followed by one dot, the other not
    ending with a dot: one final dot is overlooked on either side, a
    second one is not. *)
Theorem domainsAreEqual_one_dot (a b : string) :
  CapabilityResolver.domainsAreEqual a b = true <->
  a = b
  \/ (a = b ++ "." /\ ~ endsWithDot b)
  \/ (b = a ++ "." /\ ~ endsWithDot a).
Proof.
  rewrite domainsAreEqual_spec. split.
  - intros E.
    destruct (ends_with_dot_or_not a) as [[a' ->]|Na],
             (ends_with_dot_or_not b) as [[b' ->]|Nb].
    + rewrite !replaceTrailingDot_dot in E. left. now subst.
    + rewrite replaceTrailingDot_dot, (replaceTrailingDot_without b Nb) in E.
      right. left. now subst.
    + rewrite replaceTrailingDot_dot, (replaceTrailingDot_without a Na) in E.
      right. right. now subst.
    + rewrite (replaceTrailingDot_without a Na),
        (replaceTrailingDot_without b Nb) in E.
      now left.
  - intros [->|[[-> N]|[-> N]]]; [reflexivity|..];
      now rewrite replaceTrailingDot_dot, replaceTrailingDot_without.
Qed.

Lemma ownProperty_In key properties value :
  JsVal.ownProperty key properties = Some value -> In (key, value) properties.
Proof.
  induction properties as [|[k v] rest IH]; [discriminate|].
  simpl. destruct (String.eqb_spec k key) as [->|_].
  - intros [= ->]. now left.
  - intros H. right. now apply IH.
Qed.

Section Outcomes.
Context {R : Type} {resolver : SrvResolver.t R}.
Variable this : CapabilityResolver.t R.
Variable domainName : string.

Import CapabilityResolver.

(** X8. Failures pass through [getCapabilitiesForDomain] unchanged: one
    of the resolver with nothing requested, one of the request with the
    well-known URL as the only request. Nothing is requested exactly when
    [getWellKnownBaseUrl] throws, and no second URL is tried. *)
Theorem getCapabilitiesForDomain_failures :
  (forall e,
      SrvResolver.locateServices (srvResolver this) domainName
        "bsvalias" "tcp" = Throw e ->
      getCapabilitiesForDomain this domainName = (Throw e, []))
  /\ (forall url e,
        getWellKnownBaseUrl this domainName = Ok url ->
        request this url = Throw e ->
        getCapabilitiesForDomain this domainName = (Throw e, [url]))
  /\ (snd (getCapabilitiesForDomain this domainName) = [] <->
      exists e, getWellKnownBaseUrl this domainName = Throw e)
  /\ (List.length (snd (getCapabilitiesForDomain this domainName)) <= 1)%nat.
Proof.
  split; [|split; [|split]].
  - intros e L. unfold getCapabilitiesForDomain, getWellKnownBaseUrl.
    now rewrite L.
  - intros url e G Q. unfold getCapabilitiesForDomain. now rewrite G, Q.
  - rewrite getCapabilitiesForDomain_requested.
    destruct (getWellKnownBaseUrl this domainName) as [url|e].
    + split; [discriminate | intros [e E]; discriminate E].
    + split; [now exists e | reflexivity].
  - rewrite getCapabilitiesForDomain_requested.
    destruct (getWellKnownBaseUrl this domainName); simpl; lia.
Qed.

(** X9. The checks on the document fetched from [url]. A document that is
    [null] makes the read of its [capabilities] throw a [TypeError]; a
    document that is not an object, or an object whose [capabilities] is
    missing or is of a type other than "object", fails with "No
    capabilities returned"; then a [bsvalias] other than the string "1.0"
    fails with "Unsupported BSV alias version"; otherwise the
    [capabilities] member is returned as it is, arrays included. *)
Theorem getCapabilitiesForDomain_document (url : string) :
  getWellKnownBaseUrl this domainName = Ok url ->
  (request this url = Ok JsVal.Null ->
   getCapabilitiesForDomain this domainName = (Throw TypeError, [url]))
  /\ (forall response,
        request this url = Ok response ->
        JsVal.typeOf response <> "object" ->
        response <> JsVal.Undefined ->
        getCapabilitiesForDomain this domainName =
        unexpected url "No capabilities returned")
  /\ (forall properties,
        request this url = Ok (JsVal.Object properties) ->
        (JsVal.ownProperty "capabilities" properties = None ->
         getCapabilitiesForDomain this domainName =
         unexpected url "No capabilities returned")
        /\ (forall capabilities,
              JsVal.ownProperty "capabilities" properties
              = Some capabilities ->
              (JsVal.typeOf capabilities <> "object" ->
               getCapabilitiesForDomain this domainName =
               unexpected url "No capabilities returned")
              /\ (JsVal.typeOf capabilities = "object" ->
                  (JsVal.ownProperty "bsvalias" properties
                   <> Some (JsVal.Str BSVALIAS_VERSION) ->
                   getCapabilitiesForDomain this domainName =
                   unexpected url "Unsupported BSV alias version")
                  /\ (JsVal.ownProperty "bsvalias" properties
                      = Some (JsVal.Str BSVALIAS_VERSION) ->
                      getCapabilitiesForDomain this domainName =
                      (Ok capabilities, [url]))))).
Proof.
  intros G. split; [|split].
  - intros Q. unfold getCapabilitiesForDomain. now rewrite G, Q.
  - intros response Q T U. unfold getCapabilitiesForDomain, unexpected.
    rewrite G, Q.
    destruct response; try reflexivity; contradiction.
  - intros properties Q.
    exact (getCapabilitiesForDomain_document_checks this domainName url
             properties G Q).
Qed.

(** X10. After [getCapabilitiesForDomain] has returned an object whose
    values are not [undefined], [isCapabilitySupportedForDomain] returns
    true exactly for the keys of the object and for the names of the
    properties of [Object.prototype], whatever the value of a key; after
    it has returned [null] the lookup throws a [TypeError]; and a failure
    of [getCapabilitiesForDomain] is passed on. *)
Theorem isCapabilitySupportedForDomain_outcomes (capabilityCode : string)
    (requested : list string) :
  (forall capabilities,
      getCapabilitiesForDomain this domainName =
      (Ok (JsVal.Object capabilities), requested) ->
      (forall key value, In (key, value) capabilities ->
                         value <> JsVal.Undefined) ->
      isCapabilitySupportedForDomain this capabilityCode domainName =
      (Ok (match JsVal.ownProperty capabilityCode capabilities with
           | Some _ => true
           | None => isInherited capabilityCode
           end), requested))
  /\ (getCapabilitiesForDomain this domainName = (Ok JsVal.Null, requested) ->
      isCapabilitySupportedForDomain this capabilityCode domainName =
      (Throw TypeError, requested))
  /\ (forall e,
        getCapabilitiesForDomain this domainName = (Throw e, requested) ->
        isCapabilitySupportedForDomain this capabilityCode domainName =
        (Throw e, requested)).
Proof.
  unfold isCapabilitySupportedForDomain. split; [|split].
  - intros capabilities -> Hjson. cbn [JsVal.getOfObject].
    destruct (JsVal.ownProperty capabilityCode capabilities) as [value|] eqn:O.
    + apply ownProperty_In, Hjson in O. now destruct value.
    + unfold JsVal.objectPrototypeGet, isInherited.
      destruct (String.eqb capabilityCode "__proto__"); [reflexivity|].
      now destruct (JsVal.inString capabilityCode
                      JsVal.objectPrototypeFunctions).
  - intros ->. reflexivity.
  - intros e ->. reflexivity.
Qed.

End Outcomes.

Lemma getCapabilitiesForDomain_failures_witness :
  CapabilityResolver.getCapabilitiesForDomain
    (resolverWith (Throw (DnsServerResponseError "Invalid answer"))
       (serve (wellKnownDocument exampleCapabilities))) "example.com"
  = (Throw (DnsServerResponseError "Invalid answer"), [])
  /\ CapabilityResolver.getCapabilitiesForDomain
       (resolverWith (Ok None) (fun _ => Throw ConnectionTimeoutError))
       "example.com"
     = (Throw ConnectionTimeoutError,
        ["https://example.com:443/.well-known/bsvalias"]).
Proof.
  split.
  - apply (proj1 (getCapabilitiesForDomain_failures
                    (resolverWith
                       (Throw (DnsServerResponseError "Invalid answer"))
                       (serve (wellKnownDocument exampleCapabilities)))
                    "example.com")).
    reflexivity.
  - apply (proj1 (proj2 (getCapabilitiesForDomain_failures
                           (resolverWith (Ok None)
                              (fun _ => Throw ConnectionTimeoutError))
                           "example.com")));
      reflexivity.
Defined.

Lemma getCapabilitiesForDomain_document_witness :
  CapabilityResolver.getCapabilitiesForDomain
    (resolverWith (Ok None) (serve JsVal.Null)) "example.com"
  = (Throw TypeError, ["https://example.com:443/.well-known/bsvalias"])
  /\ CapabilityResolver.getCapabilitiesForDomain
       (resolverWith (Ok None) (serve (JsVal.Str "not found")))
       "example.com"
     = unexpected "https://example.com:443/.well-known/bsvalias"
         "No capabilities returned"
  /\ CapabilityResolver.getCapabilitiesForDomain
       (resolverWith (Ok None)
          (serve (JsVal.Object
                    [("bsvalias", JsVal.Str "2.0");
                     ("capabilities", exampleCapabilities)])))
       "example.com"
     = unexpected "https://example.com:443/.well-known/bsvalias"
         "Unsupported BSV alias version"
  /\ CapabilityResolver.getCapabilitiesForDomain
       (resolverWith (Ok None)
          (serve (wellKnownDocument (JsVal.Array [JsVal.Number 1]))))
       "example.com"
     = (Ok (JsVal.Array [JsVal.Number 1]),
        ["https://example.com:443/.well-known/bsvalias"]).
Proof.
  pose proof (fun document =>
                getCapabilitiesForDomain_document
                  (resolverWith (Ok None) (serve document)) "example.com"
                  "https://example.com:443/.well-known/bsvalias" eq_refl)
    as D.
  split; [apply (proj1 (D JsVal.Null)); reflexivity|].
  split.
  { apply (proj1 (proj2 (D (JsVal.Str "not found"))) (JsVal.Str "not found"));
      [reflexivity | discriminate | discriminate]. }
  split.
  { destruct (proj2 (proj2 (D (JsVal.Object
                                 [("bsvalias", JsVal.Str "2.0");
                                  ("capabilities", exampleCapabilities)])))
                _ eq_refl) as [_ H].
    destruct (H exampleCapabilities eq_refl) as [_ H'].
    apply (proj1 (H' eq_refl)). discriminate. }
  destruct (proj2 (proj2 (D (wellKnownDocument (JsVal.Array [JsVal.Number 1]))))
              _ eq_refl) as [_ H].
  destruct (H (JsVal.Array [JsVal.Number 1]) eq_refl) as [_ H'].
  apply (proj2 (H' eq_refl)). reflexivity.
Defined.

Lemma isCapabilitySupportedForDomain_outcomes_witness :
  CapabilityResolver.isCapabilitySupportedForDomain
    (resolverWith (Ok None) (serve (wellKnownDocument exampleCapabilities)))
    "f12f968c92d6" "example.com"
  = (Ok true, ["https://example.com:443/.well-known/bsvalias"])
  /\ CapabilityResolver.isCapabilitySupportedForDomain
       (resolverWith (Ok None) (serve (wellKnownDocument exampleCapabilities)))
       "2a40af698840" "example.com"
     = (Ok false, ["https://example.com:443/.well-known/bsvalias"])
  /\ CapabilityResolver.isCapabilitySupportedForDomain
       (resolverWith (Ok None) (serve (wellKnownDocument JsVal.Null)))
       "pki" "example.com"
     = (Throw TypeError, ["https://example.com:443/.well-known/bsvalias"]).
Proof.
  assert (J : forall key value,
             In (key, value)
               [("pki",
                 JsVal.Str
                   "https://bsvalias.example.org/{alias}@{domain.tld}/id");
                ("f12f968c92d6", JsVal.Boolean false)] ->
             value <> JsVal.Undefined).
  { intros key value [E|[E|[]]]; injection E as _ <-; discriminate. }
  split; [|split].
  - apply (proj1 (isCapabilitySupportedForDomain_outcomes
                    (resolver := Fixed_SrvResolver)
                    (resolverWith (Ok None)
                       (serve (wellKnownDocument exampleCapabilities)))
                    "example.com" "f12f968c92d6"
                    ["https://example.com:443/.well-known/bsvalias"])
             _ eq_refl J).
  - apply (proj1 (isCapabilitySupportedForDomain_outcomes
                    (resolver := Fixed_SrvResolver)
                    (resolverWith (Ok None)
                       (serve (wellKnownDocument exampleCapabilities)))
                    "example.com" "2a40af698840"
                    ["https://example.com:443/.well-known/bsvalias"])
             _ eq_refl J).
  - apply (proj1 (proj2 (isCapabilitySupportedForDomain_outcomes
                           (resolverWith (Ok None)
                              (serve (wellKnownDocument JsVal.Null)))
                           "example.com" "pki"
                           ["https://example.com:443/.well-known/bsvalias"]))).
    reflexivity.
Defined.

(** *** Regular expressions *)

Lemma append_is_empty a b : a ++ b = "" -> a = "" /\ b = "".
Proof. destruct a; simpl; [now intros -> | discriminate]. Qed.

Lemma Matches_Never s : ~ Matches RegExp.Never s.
Proof. intros H. inversion H. Qed.

Lemma Matches_Empty s : Matches RegExp.Empty s <-> s = "".
Proof. split; [intros H; now inversion H | intros ->; constructor]. Qed.

Lemma Matches_Seq r1 r2 s :
  Matches (RegExp.Seq r1 r2) s <->
  exists s1 s2, s = s1 ++ s2 /\ Matches r1 s1 /\ Matches r2 s2.
Proof.
  split.
  - intros H. inversion H; subst. now eexists _, _.
  - intros (s1 & s2 & -> & H1 & H2). now constructor.
Qed.

Lemma Matches_Or r1 r2 s :
  Matches (RegExp.Or r1 r2) s <-> Matches r1 s \/ Matches r2 s.
Proof.
  split.
  - intros H. inversion H; subst; [now left | now right].
  - intros [H|H]; [now apply MatchesOrLeft | now apply MatchesOrRight].
Qed.

Lemma nullable_Matches r : RegExp.nullable r = true <-> Matches r "".
Proof.
  induction r as [| |member|r1 IH1 r2 IH2|r1 IH1 r2 IH2|r IH]; simpl.
  - split; [discriminate | intros H; inversion H].
  - split; [constructor | reflexivity].
  - split; [discriminate | intros H; inversion H].
  - rewrite andb_true_iff, IH1, IH2, Matches_Seq. split.
    + intros [H1 H2]. now exists "", "".
    + intros (s1 & s2 & E & H1 & H2). symmetry in E.
      apply append_is_empty in E as [-> ->]. now split.
  - rewrite orb_true_iff, IH1, IH2, Matches_Or. reflexivity.
  - split; [constructor | reflexivity].
Qed.

Lemma isNever_true r : RegExp.isNever r = true -> r = RegExp.Never.
Proof. destruct r; (reflexivity || discriminate). Qed.

Lemma isEmpty_true r : RegExp.isEmpty r = true -> r = RegExp.Empty.
Proof. destruct r; (reflexivity || discriminate). Qed.

Lemma Matches_seq r1 r2 s :
  Matches (RegExp.seq r1 r2) s <-> Matches (RegExp.Seq r1 r2) s.
Proof.
  unfold RegExp.seq. rewrite Matches_Seq.
  destruct (RegExp.isNever r1) eqn:N1; cbn [orb].
  { apply isNever_true in N1 as ->. split.
    - intros H. now apply Matches_Never in H.
    - intros (s1 & s2 & _ & H & _). now apply Matches_Never in H. }
  destruct (RegExp.isNever r2) eqn:N2.
  { apply isNever_true in N2 as ->. split.
    - intros H. now apply Matches_Never in H.
    - intros (s1 & s2 & _ & _ & H). now apply Matches_Never in H. }
  destruct (RegExp.isEmpty r1) eqn:E1.
  { apply isEmpty_true in E1 as ->. split.
    - intros H. exists "", s. repeat split; [constructor | exact H].
    - intros (s1 & s2 & -> & H1 & H2). apply Matches_Empty in H1 as ->.
      exact H2. }
  apply Matches_Seq.
Qed.

Lemma Matches_or r1 r2 s :
  Matches (RegExp.or r1 r2) s <-> Matches (RegExp.Or r1 r2) s.
Proof.
  unfold RegExp.or. rewrite Matches_Or.
  destruct (RegExp.isNever r1) eqn:N1.
  { apply isNever_true in N1 as ->. split; [now right|].
    intros [H|H]; [now apply Matches_Never in H | exact H]. }
  destruct (RegExp.isNever r2) eqn:N2.
  { apply isNever_true in N2 as ->. split; [now left|].
    intros [H|H]; [exact H | now apply Matches_Never in H]. }
  apply Matches_Or.
Qed.

(** A star that matches a string with a first character matches it in a
    first piece with that character and a rest. *)
Lemma Matches_Star_cons r c s :
  Matches (RegExp.Star r) (String c s) ->
  exists s1 s2,
    s = s1 ++ s2 /\ Matches r (String c s1) /\ Matches (RegExp.Star r) s2.
Proof.
  intros H. remember (RegExp.Star r) as star eqn:Er.
  remember (String c s) as input eqn:Ei. revert c s Ei.
  induction H as [| | | | | |r' s1 s2 H1 _ H2 IH2]; intros c0 s0 Ei;
    try discriminate.
  injection Er as ->. destruct s1 as [|c1 s1].
  - simpl in Ei. now apply IH2.
  - simpl in Ei. injection Ei as -> <-. now exists s1, s2.
Qed.

Lemma Matches_after c r :
  forall s, Matches (RegExp.after c r) s <-> Matches r (String c s).
Proof.
  induction r as [| |member|r1 IH1 r2 IH2|r1 IH1 r2 IH2|r IH]; intros s;
    simpl.
  - split; intros H; inversion H.
  - split; intros H; inversion H.
  - destruct (member c) eqn:M.
    + rewrite Matches_Empty. split.
      * intros ->. now constructor.
      * intros H. now inversion H.
    + split; [intros H; inversion H|].
      intros H. inversion H; subst. congruence.
  - assert (Hseq : Matches (RegExp.seq (RegExp.after c r1) r2) s <->
                   exists s1 s2, s = s1 ++ s2 /\ Matches r1 (String c s1)
                                 /\ Matches r2 s2).
    { rewrite Matches_seq, Matches_Seq. split.
      - intros (s1 & s2 & -> & H1 & H2). apply IH1 in H1.
        now exists s1, s2.
      - intros (s1 & s2 & -> & H1 & H2). apply IH1 in H1.
        now exists s1, s2. }
    destruct (RegExp.nullable r1) eqn:N.
    + rewrite Matches_or, Matches_Or, Hseq, IH2, Matches_Seq. split.
      * intros [(s1 & s2 & -> & H1 & H2)|H].
        -- now exists (String c s1), s2.
        -- apply nullable_Matches in N. now exists "", (String c s).
      * intros ([|c1 s1] & s2 & E & H1 & H2); simpl in E.
        -- subst s2. now right.
        -- injection E as <- ->. left. now exists s1, s2.
    + rewrite Hseq, Matches_Seq. split.
      * intros (s1 & s2 & -> & H1 & H2). now exists (String c s1), s2.
      * intros ([|c1 s1] & s2 & E & H1 & H2); simpl in E.
        -- apply nullable_Matches in H1. congruence.
        -- injection E as <- ->. now exists s1, s2.
  - rewrite Matches_or, !Matches_Or, IH1, IH2. reflexivity.
  - rewrite Matches_seq, Matches_Seq. split.
    + intros (s1 & s2 & -> & H1 & H2). apply IH in H1.
      apply (MatchesStarMore r (String c s1) s2 H1 H2).
    + intros H. apply Matches_Star_cons in H as (s1 & s2 & -> & H1 & H2).
      apply IH in H1. now exists s1, s2.
Qed.

(** [test] decides the language. *)
Lemma test_Matches s : forall r, RegExp.test r s = true <-> Matches r s.
Proof.
  induction s as [|c s IH]; intros r; simpl.
  - apply nullable_Matches.
  - rewrite IH. apply Matches_after.
Qed.

(** *** The handles that [checkPaymailHandle] admits *)

Lemma Matches_Class member s :
  Matches (RegExp.Class member) s <->
  exists c, s = String c "" /\ member c = true.
Proof.
  split.
  - intros H. inversion H; subst. now eexists.
  - intros (c & -> & M). now constructor.
Qed.

Lemma Matches_Star r s :
  Matches (RegExp.Star r) s <->
  exists pieces,
    s = fold_right append "" pieces /\ Forall (Matches r) pieces.
Proof.
  split.
  - intros H. remember (RegExp.Star r) as star eqn:Er.
    induction H as [| | | | | |r' s1 s2 H1 _ H2 IH2]; try discriminate.
    + now exists [].
    + injection Er as ->. destruct (IH2 eq_refl) as (pieces & -> & F).
      exists (s1 :: pieces). split; [reflexivity | now constructor].
  - intros (pieces & -> & F). induction F as [|p pieces Hp _ IH]; simpl.
    + constructor.
    + now constructor.
Qed.

Lemma Matches_Star_Class member s :
  Matches (RegExp.Star (RegExp.Class member)) s <->
  allChars member s = true.
Proof.
  rewrite Matches_Star. split.
  - intros (pieces & -> & F). induction F as [|p pieces Hp _ IH];
      [reflexivity|].
    apply Matches_Class in Hp as (c & -> & M). simpl. now rewrite M.
  - revert s. induction s as [|c s IH]; intros H.
    + now exists [].
    + simpl in H. apply andb_true_iff in H as [M H].
      destruct (IH H) as (pieces & -> & F).
      exists (String c "" :: pieces). split; [reflexivity|].
      constructor; [now constructor | exact F].
Qed.

Lemma Matches_AtMost_Class member n :
  forall s,
    Matches (RegExp.AtMost n (RegExp.Class member)) s <->
    (String.length s <= n)%nat /\ allChars member s = true.
Proof.
  induction n as [|n IH]; intros s; simpl.
  - rewrite Matches_Empty. split.
    + intros ->. split; [simpl; lia | reflexivity].
    + intros [L _]. destruct s; [reflexivity | simpl in L; lia].
  - unfold RegExp.Optional. rewrite Matches_Or, Matches_Seq, Matches_Empty.
    split.
    + intros [(s1 & s2 & -> & H1 & H2) | ->];
      [|split; [simpl; lia | reflexivity]].
      apply Matches_Class in H1 as (c & -> & M).
      apply IH in H2 as [L A]. simpl. rewrite M, A. split; [lia | reflexivity].
    + intros [L A]. destruct s as [|c s]; [now right|].
      simpl in *. apply andb_true_iff in A as [M A]. left.
      exists (String c ""), s. split; [reflexivity|].
      split; [now constructor|]. apply IH. split; [lia | exact A].
Qed.

Lemma Matches_label l : Matches Validators.label l <-> isLabel l.
Proof.
  unfold Validators.label, RegExp.Optional, isLabel.
  rewrite Matches_Seq. split.
  - intros (s1 & s2 & -> & H1 & H2).
    apply Matches_Class in H1 as (first & -> & M1).
    apply Matches_Or in H2 as [H2|H2].
    + apply Matches_Seq in H2 as (middle & s3 & -> & H2 & H3).
      apply Matches_AtMost_Class in H2 as [L A].
      apply Matches_Class in H3 as (last & -> & M3).
      right. now exists first, middle, last.
    + apply Matches_Empty in H2 as ->. left. now exists first.
  - intros [(c & -> & M)|(first & middle & last & -> & M1 & A & L & M3)].
    + exists (String c ""), "". split; [reflexivity|].
      split; [now constructor|]. apply MatchesOrRight. constructor.
    + exists (String first ""), (middle ++ String last "").
      split; [reflexivity|]. split; [now constructor|].
      apply MatchesOrLeft. constructor.
      * now apply Matches_AtMost_Class.
      * now constructor.
Qed.

Lemma Matches_dotted_labels s :
  Matches
    (RegExp.Star (RegExp.Seq (RegExp.Class (Ascii.eqb ".")) Validators.label))
    s <->
  exists labels, s = dotted labels /\ Forall isLabel labels.
Proof.
  rewrite Matches_Star. split.
  - intros (pieces & -> & F). induction F as [|p pieces Hp _ IH].
    + now exists [].
    + destruct IH as (labels & E & Fl).
      apply Matches_Seq in Hp as (d & l & -> & Hd & Hl).
      apply Matches_Class in Hd as (c & -> & Hc).
      apply Ascii.eqb_eq in Hc as <-. apply Matches_label in Hl.
      exists (l :: labels). split; [|now constructor].
      simpl. now rewrite E.
  - intros (labels & -> & F). induction F as [|l labels Hl _ IH].
    + now exists [].
    + destruct IH as (pieces & E & Fp).
      exists (("." ++ l) :: pieces). split.
      * simpl. now rewrite E.
      * constructor; [|exact Fp].
        apply (MatchesSeq _ _ "." l); [now constructor|].
        now apply Matches_label.
Qed.

Lemma allChars_not_empty member s :
  Matches (RegExp.Plus (RegExp.Class member)) s <->
  s <> "" /\ allChars member s = true.
Proof.
  unfold RegExp.Plus. rewrite Matches_Seq. split.
  - intros (s1 & s2 & -> & H1 & H2).
    apply Matches_Class in H1 as (c & -> & M).
    apply Matches_Star_Class in H2. simpl. rewrite M, H2.
    split; [discriminate | reflexivity].
  - intros [Hne A]. destruct s as [|c s]; [contradiction|].
    simpl in A. apply andb_true_iff in A as [M A].
    exists (String c ""), s. split; [reflexivity|].
    split; [now constructor | now apply Matches_Star_Class].
Qed.

Lemma Matches_handleRegex s :
  Matches Validators.handleRegex s <->
  exists alias domainName, isHandle s alias domainName.
Proof.
  unfold Validators.handleRegex, isHandle.
  rewrite Matches_Seq. split.
  - intros (alias & s2 & -> & H1 & H2).
    apply allChars_not_empty in H1 as [Hne A].
    apply Matches_Seq in H2 as (at' & domainName & -> & Hat & Hd).
    apply Matches_Class in Hat as (c & -> & Hc).
    apply Ascii.eqb_eq in Hc as <-.
    apply Matches_Seq in Hd as (first & tail & -> & Hf & Ht).
    apply Matches_label in Hf.
    apply Matches_dotted_labels in Ht as (rest & -> & Fr).
    exists alias, (first ++ dotted rest). repeat split; try assumption.
    now exists first, rest.
  - intros (alias & domainName & -> & Hne & A & first & rest & -> & Hf & Fr).
    exists alias, ("@" ++ first ++ dotted rest). split; [reflexivity|].
    split; [now apply allChars_not_empty|].
    apply (MatchesSeq _ _ "@" (first ++ dotted rest)); [now constructor|].
    constructor; [now apply Matches_label|].
    apply Matches_dotted_labels. now exists rest.
Qed.

Lemma allChars_hasChar member c s :
  member c = false -> allChars member s = true -> hasChar c s = false.
Proof.
  intros Hc. induction s as [|d s IH]; intros A; [reflexivity|].
  simpl in A. apply andb_true_iff in A as [M A].
  apply hasChar_cons_intro; [|now apply IH].
  destruct (Ascii.eqb_spec d c) as [->|_]; [congruence | reflexivity].
Qed.

Lemma allChars_append member a b :
  allChars member (a ++ b) = allChars member a && allChars member b.
Proof.
  induction a as [|c a IH]; [reflexivity|].
  simpl. rewrite IH. now rewrite andb_assoc.
Qed.

Lemma allChars_weaken (m1 m2 : ascii -> bool) s :
  (forall c, m1 c = true -> m2 c = true) ->
  allChars m1 s = true -> allChars m2 s = true.
Proof.
  intros W. induction s as [|c s IH]; [reflexivity|].
  simpl. intros A. apply andb_true_iff in A as [M A].
  now rewrite (W c M), IH.
Qed.

Lemma alphanumeric_is_domain_char c :
  Validators.isAlphanumeric c = true -> isDomainChar c = true.
Proof.
  intros H. unfold isDomainChar, Validators.isLabelChar. now rewrite H.
Qed.

Lemma label_is_domain_char c :
  Validators.isLabelChar c = true -> isDomainChar c = true.
Proof. intros H. unfold isDomainChar. now rewrite H. Qed.

Lemma isLabel_chars l :
  isLabel l -> l <> "" /\ allChars isDomainChar l = true.
Proof.
  intros [(c & -> & M)|(first & middle & last & -> & M1 & A & _ & M3)].
  - split; [discriminate|]. simpl.
    now rewrite (alphanumeric_is_domain_char c M).
  - split; [discriminate|]. simpl.
    rewrite (alphanumeric_is_domain_char first M1), allChars_append.
    rewrite (allChars_weaken _ _ middle label_is_domain_char A). simpl.
    now rewrite (alphanumeric_is_domain_char last M3).
Qed.

Lemma dotted_chars labels :
  Forall isLabel labels -> allChars isDomainChar (dotted labels) = true.
Proof.
  induction 1 as [|l labels Hl _ IH]; [reflexivity|].
  simpl. rewrite allChars_append, IH.
  now rewrite (proj2 (isLabel_chars l Hl)).
Qed.

(** The domain name of a handle is not empty and is made of letters,
    digits, hyphens and dots. *)
Lemma isHandle_domain handle alias domainName :
  isHandle handle alias domainName ->
  domainName <> "" /\ allChars isDomainChar domainName = true.
Proof.
  intros (_ & _ & _ & first & rest & -> & Hf & Fr).
  destruct (isLabel_chars first Hf) as [Hne A]. split.
  - destruct first; [contradiction | discriminate].
  - now rewrite allChars_append, A, dotted_chars.
Qed.

Lemma isHandle_parts handle alias domainName :
  isHandle handle alias domainName ->
  hasChar "@" alias = false /\ hasChar "@" domainName = false.
Proof.
  intros H. destruct (isHandle_domain _ _ _ H) as [_ D].
  destruct H as (_ & _ & A & _). split.
  - now apply (allChars_hasChar Validators.isLocalPartChar).
  - now apply (allChars_hasChar isDomainChar).
Qed.

Lemma isHandle_split handle alias domainName :
  isHandle handle alias domainName ->
  split "@" handle = [alias; domainName].
Proof.
  intros H. destruct (isHandle_parts _ _ _ H) as [A D].
  destruct H as (-> & _). change ("@" ++ domainName) with (String "@" domainName).
  rewrite (split_first_token _ _ _ A). now rewrite (split_no_separator _ _ D).
Qed.

Lemma checkPaymailHandle_Return handle :
  Validators.checkPaymailHandle handle = Client.Return tt <->
  exists s alias domainName,
    handle = JsVal.Str s /\ isHandle s alias domainName.
Proof.
  split.
  - destruct handle as [| | | |s| | | |]; try discriminate. simpl.
    destruct (RegExp.test Validators.handleRegex s) eqn:T; [|discriminate].
    intros _. apply test_Matches, Matches_handleRegex in T
      as (alias & domainName & H).
    now exists s, alias, domainName.
  - intros (s & alias & domainName & -> & H). simpl.
    assert (T : RegExp.test Validators.handleRegex s = true).
    { apply test_Matches, Matches_handleRegex. now exists alias, domainName. }
    now rewrite T.
Qed.

Lemma isHandle_example :
  isHandle "alice@example.com" "alice" "example.com".
Proof.
  repeat split; [discriminate|].
  exists "example", ["com"]. split; [reflexivity|]. split.
  - right. exists "e"%char, "xampl", "e"%char.
    repeat split; simpl; lia.
  - constructor; [|constructor]. right. exists "c"%char, "o", "m"%char.
    repeat split; simpl; lia.
Qed.

(** X11 (validators.ts, [checkPaymailHandle]). The values that pass are
    exactly the strings made of a non-empty alias of the admitted
    characters, one [@], and a domain name of one or more labels separated
    by dots, where a label is at most 63 letters, digits and hyphens and
    neither starts nor ends with a hyphen. A value that is not a string is
    refused with a [TypeError], every other string with an [Error]. *)
Theorem checkPaymailHandle_handles (handle : JsVal.t) :
  (Validators.checkPaymailHandle handle = Client.Return tt <->
   exists s alias domainName,
     handle = JsVal.Str s /\ isHandle s alias domainName)
  /\ (JsVal.typeOf handle <> "string" ->
      Validators.checkPaymailHandle handle =
        Client.Raise (Client.TypeError "`handle` must be a string"))
  /\ (forall s,
        handle = JsVal.Str s ->
        (forall alias domainName, ~ isHandle s alias domainName) ->
        Validators.checkPaymailHandle handle =
          Client.Raise
            (Client.Error "`handle` must be a valid paymail handle")).
Proof.
  split; [apply checkPaymailHandle_Return|]. split.
  - destruct handle; simpl; try reflexivity. intros H. now destruct H.
  - intros s -> N. simpl.
    destruct (RegExp.test Validators.handleRegex s) eqn:T; [|reflexivity].
    apply test_Matches, Matches_handleRegex in T as (alias & domainName & H).
    destruct (N _ _ H).
Qed.

Lemma checkPaymailHandle_handles_witness :
  Validators.checkPaymailHandle (JsVal.Str "alice@example.com")
    = Client.Return tt
  /\ Validators.checkPaymailHandle (JsVal.Number 7)
     = Client.Raise (Client.TypeError "`handle` must be a string").
Proof.
  split.
  - apply (proj1 (checkPaymailHandle_handles (JsVal.Str "alice@example.com"))).
    exists "alice@example.com", "alice", "example.com".
    split; [reflexivity | exact isHandle_example].
  - apply (proj1 (proj2 (checkPaymailHandle_handles (JsVal.Number 7)))).
    simpl. discriminate.
Defined.

Lemma domain_char_not_line_terminator c :
  isDomainChar c = true -> isLineTerminator c = false.
Proof.
  destruct c as [[] [] [] [] [] [] [] []]; vm_compute;
    intros H; (reflexivity || discriminate H).
Qed.

(** X12 (validators.ts, [checkPaymailHandle]; sfp-client.ts, the
    [split] of the handle). Splitting a handle that passed the check at
    [@] gives exactly two parts, the alias and the domain name. Neither is
    empty, and the domain name holds only letters, digits, hyphens and
    dots: no [@], no [$], no line terminator. *)
Theorem checkPaymailHandle_split (handle : string) :
  Validators.checkPaymailHandle (JsVal.Str handle) = Client.Return tt ->
  exists alias domainName,
    split "@" handle = [alias; domainName]
    /\ handle = alias ++ "@" ++ domainName
    /\ alias <> "" /\ domainName <> ""
    /\ allChars Validators.isLocalPartChar alias = true
    /\ allChars isDomainChar domainName = true
    /\ hasChar "$" domainName = false
    /\ hasLineTerminator domainName = false.
Proof.
  intros H. apply checkPaymailHandle_Return in H
    as (s & alias & domainName & [= <-] & H).
  exists alias, domainName.
  destruct (isHandle_domain _ _ _ H) as [Dne D].
  split; [now apply isHandle_split|].
  destruct H as (E & Ane & A & _).
  repeat split; try assumption.
  - now apply (allChars_hasChar isDomainChar).
  - clear - D. induction domainName as [|c d IH]; [reflexivity|].
    simpl in D. apply andb_true_iff in D as [M D].
    simpl. rewrite (domain_char_not_line_terminator c M). now apply IH.
Qed.

Lemma checkPaymailHandle_split_witness :
  exists alias domainName,
    split "@" "alice@example.com" = [alias; domainName]
    /\ "alice@example.com" = alias ++ "@" ++ domainName
    /\ alias <> "" /\ domainName <> ""
    /\ allChars Validators.isLocalPartChar alias = true
    /\ allChars isDomainChar domainName = true
    /\ hasChar "$" domainName = false
    /\ hasLineTerminator domainName = false.
Proof.
  apply (checkPaymailHandle_split "alice@example.com"). reflexivity.
Defined.

(** *** [String.prototype.replace] and the URL templates *)

Lemma stripPrefix_append pattern following :
  JsString.stripPrefix pattern (pattern ++ following) = Some following.
Proof.
  induction pattern as [|p pattern IH]; [reflexivity|].
  simpl. now rewrite Ascii.eqb_refl.
Qed.

Lemma stripPrefix_Some pattern :
  forall s following,
    JsString.stripPrefix pattern s = Some following ->
    s = pattern ++ following.
Proof.
  induction pattern as [|p pattern IH]; intros s following.
  - simpl. now intros [= ->].
  - simpl. destruct s as [|c s]; [discriminate|].
    destruct (Ascii.eqb_spec p c) as [->|_]; [|discriminate].
    intros H. now rewrite (IH _ _ H).
Qed.

Lemma splitAtFirst_Some pattern :
  forall s preceding following,
    JsString.splitAtFirst pattern s = Some (preceding, following) ->
    s = preceding ++ pattern ++ following.
Proof.
  induction s as [|c s IH]; intros preceding following.
  - simpl. destruct (JsString.stripPrefix pattern "") eqn:E; [|discriminate].
    intros [= <- <-]. now apply (stripPrefix_Some pattern).
  - simpl. destruct (JsString.stripPrefix pattern (String c s)) eqn:E.
    + intros [= <- <-]. now apply (stripPrefix_Some pattern).
    + destruct (JsString.splitAtFirst pattern s) as [[pre post]|] eqn:F;
        [|discriminate].
      intros [= <- <-]. simpl. now rewrite (IH _ _ eq_refl).
Qed.

Lemma splitAtFirst_None pattern :
  forall s,
    JsString.splitAtFirst pattern s = None ->
    forall preceding following, s <> preceding ++ pattern ++ following.
Proof.
  induction s as [|c s IH]; intros H preceding following E.
  - simpl in H. destruct (JsString.stripPrefix pattern "") eqn:F;
      [discriminate|].
    symmetry in E. apply append_is_empty in E as [-> E].
    apply append_is_empty in E as [-> ->]. discriminate F.
  - simpl in H.
    destruct (JsString.stripPrefix pattern (String c s)) eqn:F;
      [discriminate|].
    destruct (JsString.splitAtFirst pattern s) as [[pre post]|] eqn:G;
      [discriminate|].
    destruct preceding as [|d preceding].
    + simpl in E. rewrite E, stripPrefix_append in F. discriminate.
    + injection E as -> E. exact (IH eq_refl _ _ E).
Qed.

Lemma splitAtFirst_first p pattern preceding following :
  hasChar p preceding = false ->
  JsString.splitAtFirst (String p pattern)
    (preceding ++ String p pattern ++ following)
  = Some (preceding, following).
Proof.
  induction preceding as [|c preceding IH]; intros H.
  - simpl. now rewrite Ascii.eqb_refl, stripPrefix_append.
  - apply hasChar_cons in H as [Hc H].
    change (String c preceding ++ String p pattern ++ following)
      with (String c (preceding ++ String p pattern ++ following)).
    cbn [JsString.splitAtFirst JsString.stripPrefix].
    rewrite Ascii.eqb_sym, Hc. now rewrite (IH H).
Qed.

Lemma getSubstitution_literal matched preceding following template :
  hasChar "$" template = false ->
  JsString.getSubstitution matched preceding following template = template.
Proof.
  induction template as [|c template IH]; intros H; [reflexivity|].
  apply hasChar_cons in H as [Hc H]. simpl. rewrite Hc.
  destruct template; now rewrite (IH H).
Qed.

Lemma replace_first p pattern preceding following replaceValue :
  hasChar p preceding = false ->
  JsString.replace (preceding ++ String p pattern ++ following)
    (String p pattern) replaceValue
  = preceding
      ++ JsString.getSubstitution (String p pattern) preceding following
           replaceValue
      ++ following.
Proof.
  intros H. unfold JsString.replace. now rewrite (splitAtFirst_first _ _ _ _ H).
Qed.

Lemma replace_absent s searchValue replaceValue :
  (forall preceding following, s <> preceding ++ searchValue ++ following) ->
  JsString.replace s searchValue replaceValue = s.
Proof.
  intros H. unfold JsString.replace.
  destruct (JsString.splitAtFirst searchValue s) as [[pre post]|] eqn:E;
    [|reflexivity].
  destruct (H _ _ (splitAtFirst_Some _ _ _ _ E)).
Qed.

Lemma occurrence_has_char p pattern s preceding following :
  s = preceding ++ String p pattern ++ following -> hasChar p s = true.
Proof.
  intros ->. induction preceding as [|c preceding IH].
  - unfold hasChar. simpl. rewrite Ascii.eqb_refl. reflexivity.
  - unfold hasChar in *. simpl. destruct (Ascii.eqb c p); [reflexivity|].
    exact IH.
Qed.

Lemma fillTemplate_placeholders before between after alias domainName :
  hasChar "{" before = false ->
  hasChar "{" between = false ->
  hasChar "$" domainName = false ->
  let inserted :=
    JsString.getSubstitution "{alias}" before
      (between ++ "{domain.tld}" ++ after) alias in
  hasChar "{" inserted = false ->
  SfpClient.fillTemplate
    (before ++ "{alias}" ++ between ++ "{domain.tld}" ++ after)
    alias domainName
  = before ++ inserted ++ between ++ domainName ++ after.
Proof.
  intros Hb Hm Hd inserted Hi. unfold SfpClient.fillTemplate.
  rewrite (replace_first "{" "alias}" before _ alias Hb). fold inserted.
  assert (E : before ++ inserted ++ between ++ "{domain.tld}" ++ after
              = (before ++ inserted ++ between) ++ "{domain.tld}" ++ after).
  { now rewrite !append_assoc. }
  rewrite E, replace_first.
  - rewrite (getSubstitution_literal _ _ _ _ Hd). now rewrite !append_assoc.
  - now repeat apply hasChar_append.
Qed.

(** X13 (sfp-client.ts, [requestAssetInformation]: the two [replace]
    calls on the URL template). For a handle that passed the check, whose
    alias holds neither [$] nor an opening brace, a template of the
    documented shape, with the alias placeholder before the domain
    placeholder and no other opening brace before them, is filled with
    the alias and the domain name as they are. A template without an
    opening brace is left as it is. *)
Theorem fillTemplate_literal
    (before between after handle alias domainName : string) :
  isHandle handle alias domainName ->
  hasChar "$" alias = false ->
  hasChar "{" alias = false ->
  hasChar "{" before = false ->
  hasChar "{" between = false ->
  SfpClient.fillTemplate
    (before ++ "{alias}" ++ between ++ "{domain.tld}" ++ after)
    alias domainName
  = before ++ alias ++ between ++ domainName ++ after
  /\ SfpClient.fillTemplate before alias domainName = before.
Proof.
  intros H Ha1 Ha2 Hb Hm.
  assert (Hd : hasChar "$" domainName = false).
  { apply (allChars_hasChar isDomainChar); [reflexivity|].
    apply (isHandle_domain _ _ _ H). }
  split.
  - rewrite (fillTemplate_placeholders _ _ _ _ _ Hb Hm Hd);
      rewrite (getSubstitution_literal _ _ _ _ Ha1); [reflexivity | exact Ha2].
  - unfold SfpClient.fillTemplate.
    assert (N : forall pattern preceding following,
              before <> preceding ++ String "{" pattern ++ following).
    { intros pattern preceding following E.
      apply occurrence_has_char in E. congruence. }
    rewrite (replace_absent before) by apply N.
    now rewrite replace_absent by apply N.
Qed.

Lemma fillTemplate_literal_witness :
  SfpClient.fillTemplate
    ("https://sfp.example.com/" ++ "{alias}" ++ "@" ++ "{domain.tld}"
       ++ "/asset")
    "alice" "example.com"
  = "https://sfp.example.com/" ++ "alice" ++ "@" ++ "example.com"
      ++ "/asset"
  /\ SfpClient.fillTemplate "https://sfp.example.com/" "alice" "example.com"
     = "https://sfp.example.com/".
Proof.
  apply (fillTemplate_literal "https://sfp.example.com/" "@" "/asset"
           "alice@example.com" "alice" "example.com");
    [exact isHandle_example | reflexivity..].
Defined.

Lemma isHandle_alias handle alias domainName alias' :
  isHandle handle alias domainName ->
  alias' <> "" ->
  allChars Validators.isLocalPartChar alias' = true ->
  isHandle (alias' ++ "@" ++ domainName) alias' domainName.
Proof.
  intros (_ & _ & _ & D) Hne A. repeat split; assumption.
Qed.

(** X14 (sfp-client.ts, [requestAssetInformation]: [replace] with the
    alias as the replacement; validators.ts, [checkPaymailHandle]). The
    check admits the aliases [$&], [$$], [$`] and [$'], which [replace]
    reads as patterns: the first leaves the alias placeholder in the URL,
    the second inserts one [$], the third inserts the part of the template
    before the placeholder and the fourth the part after it. *)
Theorem fillTemplate_alias_patterns
    (before between after handle alias domainName : string) :
  isHandle handle alias domainName ->
  hasChar "{" before = false ->
  hasChar "{" between = false ->
  let template :=
    before ++ "{alias}" ++ between ++ "{domain.tld}" ++ after in
  (forall special,
     In special ["$&"; "$$"; "$`"; "$'"] ->
     Validators.checkPaymailHandle
       (JsVal.Str (special ++ "@" ++ domainName)) = Client.Return tt)
  /\ SfpClient.fillTemplate template "$&" domainName
     = JsString.replace template "{domain.tld}" domainName
  /\ SfpClient.fillTemplate template "$$" domainName
     = before ++ "$" ++ between ++ domainName ++ after
  /\ SfpClient.fillTemplate template "$`" domainName
     = before ++ before ++ between ++ domainName ++ after
  /\ JsString.replace template "{alias}" "$'"
     = before ++ (between ++ "{domain.tld}" ++ after)
         ++ between ++ "{domain.tld}" ++ after.
Proof.
  intros H Hb Hm template.
  assert (Hd : hasChar "$" domainName = false).
  { apply (allChars_hasChar isDomainChar); [reflexivity|].
    apply (isHandle_domain _ _ _ H). }
  split; [|split; [|split; [|split]]].
  - intros special Hs. apply checkPaymailHandle_Return.
    exists (special ++ "@" ++ domainName), special, domainName.
    split; [reflexivity|].
    apply (isHandle_alias _ _ _ special H);
      simpl in Hs; decompose [or] Hs; subst;
      try contradiction; (discriminate || reflexivity).
  - unfold SfpClient.fillTemplate, template.
    rewrite (replace_first "{" "alias}" before _ "$&" Hb).
    cbn [JsString.getSubstitution Ascii.eqb Bool.eqb].
    now rewrite append_empty_r.
  - unfold template.
    now rewrite (fillTemplate_placeholders _ _ _ _ _ Hb Hm Hd).
  - unfold template.
    rewrite (fillTemplate_placeholders _ _ _ _ _ Hb Hm Hd);
      cbn [JsString.getSubstitution Ascii.eqb Bool.eqb];
      rewrite append_empty_r; [reflexivity | exact Hb].
  - unfold template.
    rewrite (replace_first "{" "alias}" before _ "$'" Hb).
    cbn [JsString.getSubstitution Ascii.eqb Bool.eqb].
    now rewrite append_empty_r.
Qed.

Lemma fillTemplate_alias_patterns_witness :
  SfpClient.fillTemplate "https://sfp.example.com/{alias}@{domain.tld}/asset"
    "$&" "example.com"
  = "https://sfp.example.com/{alias}@example.com/asset".
Proof.
  apply (proj1 (proj2
    (fillTemplate_alias_patterns "https://sfp.example.com/" "@" "/asset"
       "alice@example.com" "alice" "example.com"
       isHandle_example eq_refl eq_refl))).
Defined.

(** *** The methods of [SfpClient] *)

Section SfpMethods.
Context {R : Type} {resolver : SrvResolver.t R}.
Variable this : SfpClient.t R.

Import SfpClient.

Lemma capabilityUrl_outcome domainName brfc notSupported :
  capabilityUrl this domainName brfc notSupported =
  (match fst (CapabilityResolver.getCapabilitiesForDomain
                (capabilityResolver this) domainName) with
   | Throw e => Client.Raise (Client.Core e)
   | Ok capabilities =>
       match JsVal.getOfObject capabilities brfc with
       | Throw e => Client.Raise (Client.Core e)
       | Ok (JsVal.Str s) => Client.Return s
       | Ok _ => Client.Raise notAString
       end
   end,
   map WellKnown
     (snd (CapabilityResolver.getCapabilitiesForDomain
             (capabilityResolver this) domainName))).
Proof.
  unfold capabilityUrl.
  destruct (CapabilityResolver.getCapabilitiesForDomain
              (capabilityResolver this) domainName) as [[capabilities|e] requested];
    [|reflexivity].
  simpl. destruct (JsVal.getOfObject capabilities brfc) as [[]|]; reflexivity.
Qed.

Lemma capabilityUrl_Raise domainName brfc notSupported e effects :
  capabilityUrl this domainName brfc notSupported = (Client.Raise e, effects) ->
  exists e', e = Client.Core e'.
Proof.
  rewrite capabilityUrl_outcome.
  destruct (fst (CapabilityResolver.getCapabilitiesForDomain
                   (capabilityResolver this) domainName)) as [capabilities|e'].
  - destruct (JsVal.getOfObject capabilities brfc) as [[]|e'];
      intros [= <- _]; try (now eexists); discriminate.
  - intros [= <- _]. now eexists.
Qed.

Lemma requestAssetInformation_handle handle alias domainName :
  isHandle handle alias domainName ->
  requestAssetInformation this (JsVal.Str handle) =
  match capabilityUrl this domainName ASSET_INFORMATION_BRFC
          "No asset information capability found" with
  | (Client.Raise e, effects) => (Client.Raise e, effects)
  | (Client.Return urlTemplate, effects) =>
      let url := fillTemplate urlTemplate alias domainName in
      (Client.ofCore (get this url [("responseType", "json")]),
       (effects ++ [Get url [("responseType", "json")]])%list)
  end.
Proof.
  intros H. unfold requestAssetInformation.
  assert (C : Validators.checkPaymailHandle (JsVal.Str handle)
              = Client.Return tt).
  { apply checkPaymailHandle_Return. now exists handle, alias, domainName. }
  now rewrite C, (isHandle_split _ _ _ H).
Qed.

(** X15 (sfp-client.ts, [requestAssetInformation]). A handle that fails
    the check is refused before anything is requested. The method never
    throws [BsvAliasCapabilityNotSupportedError]: when the capabilities of
    the domain hold no asset information entry, it fails with "Capability
    information must be a string". A failure to fetch the capabilities is
    passed on, and the endpoint is not requested. *)
Theorem requestAssetInformation_failures (assetHandle : JsVal.t) :
  (forall e,
      Validators.checkPaymailHandle assetHandle = Client.Raise e ->
      requestAssetInformation this assetHandle = (Client.Raise e, []))
  /\ (forall message,
        fst (requestAssetInformation this assetHandle)
        <> Client.Raise (Client.BsvAliasCapabilityNotSupportedError message))
  /\ (forall handle alias domainName,
        assetHandle = JsVal.Str handle ->
        isHandle handle alias domainName ->
        let fetched :=
          CapabilityResolver.getCapabilitiesForDomain
            (capabilityResolver this) domainName in
        (forall properties,
            fst fetched = Ok (JsVal.Object properties) ->
            JsVal.ownProperty ASSET_INFORMATION_BRFC properties = None ->
            requestAssetInformation this assetHandle
            = (Client.Raise notAString, map WellKnown (snd fetched)))
        /\ (forall e,
              fst fetched = Throw e ->
              requestAssetInformation this assetHandle
              = (Client.Raise (Client.Core e), map WellKnown (snd fetched)))).
Proof.
  split; [|split].
  - intros e C. unfold requestAssetInformation. now rewrite C.
  - intros message. unfold requestAssetInformation.
    destruct (Validators.checkPaymailHandle assetHandle) as [[]|e] eqn:C.
    + destruct assetHandle as [| | | |handle| | | |]; try discriminate.
      destruct (split "@" handle) as [|alias [|domainName rest]];
        try discriminate.
      destruct (capabilityUrl this domainName ASSET_INFORMATION_BRFC
                  "No asset information capability found")
        as [[urlTemplate|e] effects] eqn:U.
      * simpl. destruct (get this _ _); discriminate.
      * apply capabilityUrl_Raise in U as [e' ->]. discriminate.
    + simpl. intros [= ->].
      destruct assetHandle as [| | | |handle| | | |]; try discriminate.
      simpl in C. destruct (negb _); discriminate.
  - intros handle alias domainName -> H fetched. subst fetched.
    rewrite (requestAssetInformation_handle _ _ _ H), capabilityUrl_outcome.
    split.
    + intros properties F O. rewrite F. simpl. now rewrite O.
    + intros e F. now rewrite F.
Qed.

(** X16 (sfp-client.ts, [requestAssetInformation]). For a handle that
    passed the check, when the capabilities of its domain hold a string
    for the asset information entry, the method fetches the capabilities
    of the domain after the [@] and then sends one GET, with the header
    [responseType: json], to that template filled with the alias and the
    domain name; what the GET returns or throws is the outcome. With a
    template of the documented shape and an alias without [$] and opening
    brace, the URL holds the alias and the domain name as they are. *)
Theorem requestAssetInformation_request
    (handle alias domainName urlTemplate : string) (capabilities : JsVal.t) :
  isHandle handle alias domainName ->
  let fetched :=
    CapabilityResolver.getCapabilitiesForDomain
      (capabilityResolver this) domainName in
  fst fetched = Ok capabilities ->
  JsVal.getOfObject capabilities ASSET_INFORMATION_BRFC
    = Ok (JsVal.Str urlTemplate) ->
  let sent url :=
    (Client.ofCore (get this url [("responseType", "json")]),
     (map WellKnown (snd fetched)
        ++ [Get url [("responseType", "json")]])%list) in
  requestAssetInformation this (JsVal.Str handle)
  = sent (fillTemplate urlTemplate alias domainName)
  /\ (forall before between after,
        urlTemplate
          = before ++ "{alias}" ++ between ++ "{domain.tld}" ++ after ->
        hasChar "$" alias = false ->
        hasChar "{" alias = false ->
        hasChar "{" before = false ->
        hasChar "{" between = false ->
        requestAssetInformation this (JsVal.Str handle)
        = sent (before ++ alias ++ between ++ domainName ++ after)).
Proof.
  intros H fetched F G sent. subst fetched sent.
  assert (E : requestAssetInformation this (JsVal.Str handle)
              = (Client.ofCore
                   (get this (fillTemplate urlTemplate alias domainName)
                      [("responseType", "json")]),
                 (map WellKnown
                    (snd (CapabilityResolver.getCapabilitiesForDomain
                            (capabilityResolver this) domainName))
                    ++ [Get (fillTemplate urlTemplate alias domainName)
                          [("responseType", "json")]])%list)).
  { rewrite (requestAssetInformation_handle _ _ _ H), capabilityUrl_outcome.
    now rewrite F, G. }
  split; [exact E|].
  intros before between after -> Ha1 Ha2 Hb Hm. rewrite E.
  assert (Hd : hasChar "$" domainName = false).
  { apply (allChars_hasChar isDomainChar); [reflexivity|].
    apply (isHandle_domain _ _ _ H). }
  rewrite (fillTemplate_placeholders _ _ _ _ _ Hb Hm Hd);
    rewrite (getSubstitution_literal _ _ _ _ Ha1); [reflexivity | exact Ha2].
Qed.

End SfpMethods.

Lemma requestAssetInformation_failures_witness :
  SfpClient.requestAssetInformation
    (sfpClientWith (wellKnownDocument exampleCapabilities) (Ok JsVal.Null))
    (JsVal.Str "alice.example.com")
  = (Client.Raise (Client.Error "`handle` must be a valid paymail handle"),
     [])
  /\ SfpClient.requestAssetInformation
       (sfpClientWith (wellKnownDocument exampleCapabilities) (Ok JsVal.Null))
       (JsVal.Str "alice@example.com")
     = (Client.Raise notAString,
        [SfpClient.WellKnown "https://example.com:443/.well-known/bsvalias"]).
Proof.
  split.
  - apply (proj1 (requestAssetInformation_failures
                    (resolver := Fixed_SrvResolver)
                    (sfpClientWith (wellKnownDocument exampleCapabilities)
                       (Ok JsVal.Null))
                    (JsVal.Str "alice.example.com"))).
    reflexivity.
  - exact (proj1 (proj2 (proj2 (requestAssetInformation_failures
                                  (resolver := Fixed_SrvResolver)
                                  (sfpClientWith
                                     (wellKnownDocument exampleCapabilities)
                                     (Ok JsVal.Null))
                                  (JsVal.Str "alice@example.com")))
                    "alice@example.com" "alice" "example.com" eq_refl
                    isHandle_example)
             _ eq_refl eq_refl).
Defined.

Lemma requestAssetInformation_request_witness :
  SfpClient.requestAssetInformation
    (sfpClientWith
       (wellKnownDocument
          (JsVal.Object
             [("1300361cb2d4",
               JsVal.Str
                 "https://sfp.example.com/{alias}@{domain.tld}/asset")]))
       (Ok (JsVal.Str "asset information")))
    (JsVal.Str "alice@example.com")
  = (Client.Return (JsVal.Str "asset information"),
     [SfpClient.WellKnown "https://example.com:443/.well-known/bsvalias";
      SfpClient.Get "https://sfp.example.com/alice@example.com/asset"
        [("responseType", "json")]]).
Proof.
  exact (proj2 (requestAssetInformation_request
                  (resolver := Fixed_SrvResolver)
                  (sfpClientWith
                     (wellKnownDocument
                        (JsVal.Object
                           [("1300361cb2d4",
                             JsVal.Str
                               "https://sfp.example.com/{alias}@{domain.tld}/asset")]))
                     (Ok (JsVal.Str "asset information")))
                  "alice@example.com" "alice" "example.com"
                  "https://sfp.example.com/{alias}@{domain.tld}/asset" _
                  isHandle_example eq_refl eq_refl)
           "https://sfp.example.com/" "@" "/asset"
           eq_refl eq_refl eq_refl eq_refl eq_refl).
Defined.

Section SfpAuthorize.
Context {R : Type} {resolver : SrvResolver.t R}.
Variable this : SfpClient.t R.

Import SfpClient.

Lemma checkAuthorizeTransactionParams_Return params :
  checkAuthorizeTransactionParams params = Client.Return tt <->
  exists properties assetPaymail alias domainName hex,
    params = JsVal.Object properties
    /\ JsVal.ownProperty "assetPaymail" properties
       = Some (JsVal.Str assetPaymail)
    /\ isHandle assetPaymail alias domainName
    /\ JsVal.ownProperty "hex" properties = Some (JsVal.Str hex).
Proof.
  split.
  - unfold checkAuthorizeTransactionParams.
    destruct (negb (String.eqb (JsVal.typeOf params) "object")); [discriminate|].
    destruct (JsVal.getField params "assetPaymail") as [assetPaymail|] eqn:A;
      [|now destruct (JsVal.getField params "hex")].
    destruct (JsVal.getField params "hex") as [hex|] eqn:X; [|discriminate].
    destruct (Validators.checkPaymailHandle assetPaymail) as [[]|] eqn:C;
      [|discriminate].
    apply checkPaymailHandle_Return in C as (s & alias & domainName & -> & H).
    destruct hex as [| | | |hex| | | |]; try discriminate. intros _.
    destruct params as [| | | | | |properties| |]; try discriminate.
    simpl in A, X.
    destruct (JsVal.ownProperty "assetPaymail" properties) as [a|] eqn:OA;
      [|discriminate].
    destruct (JsVal.ownProperty "hex" properties) as [x|] eqn:OX;
      [|discriminate].
    injection A as ->. injection X as ->.
    now exists properties, s, alias, domainName, hex.
  - intros (properties & s & alias & domainName & hex & -> & A & H & X).
    unfold checkAuthorizeTransactionParams. simpl. rewrite A, X.
    assert (C : Validators.checkPaymailHandle (JsVal.Str s)
                = Client.Return tt).
    { apply checkPaymailHandle_Return. now exists s, alias, domainName. }
    now rewrite C.
Qed.

(** X17 (sfp-client.ts, [checkAuthorizeTransactionParams] and
    [authorizeTransaction]). The parameters are accepted exactly when they
    are an object with a valid handle as [assetPaymail] and a string as
    [hex]. [null] passes the test on [typeof] and fails with the
    [TypeError] of the runtime; a value whose [typeof] is not "object"
    fails with "`params` must be an object". Whenever the parameters are
    refused, [authorizeTransaction] requests nothing. It never throws
    [BsvAliasCapabilityNotSupportedError]. *)
Theorem authorizeTransaction_validation (params : JsVal.t) :
  (checkAuthorizeTransactionParams params = Client.Return tt <->
   exists properties assetPaymail alias domainName hex,
     params = JsVal.Object properties
     /\ JsVal.ownProperty "assetPaymail" properties
        = Some (JsVal.Str assetPaymail)
     /\ isHandle assetPaymail alias domainName
     /\ JsVal.ownProperty "hex" properties = Some (JsVal.Str hex))
  /\ (params = JsVal.Null ->
      checkAuthorizeTransactionParams params
      = Client.Raise (Client.Core TypeError))
  /\ (JsVal.typeOf params <> "object" ->
      checkAuthorizeTransactionParams params
      = Client.Raise (Client.TypeError "`params` must be an object"))
  /\ (forall e,
        checkAuthorizeTransactionParams params = Client.Raise e ->
        authorizeTransaction this params = (Client.Raise e, []))
  /\ (forall message,
        fst (authorizeTransaction this params)
        <> Client.Raise (Client.BsvAliasCapabilityNotSupportedError message)).
Proof.
  split; [apply checkAuthorizeTransactionParams_Return|].
  split; [now intros ->|]. split; [|split].
  - intros T. unfold checkAuthorizeTransactionParams.
    destruct (String.eqb_spec (JsVal.typeOf params) "object") as [E|_];
      [contradiction | reflexivity].
  - intros e C. unfold authorizeTransaction. now rewrite C.
  - intros message. unfold authorizeTransaction.
    destruct (checkAuthorizeTransactionParams params) as [[]|e] eqn:C.
    + destruct (JsVal.getField params "hex") as [hex|];
        [|discriminate].
      destruct (JsVal.getField params "assetPaymail") as [[| | | |s| | | |]|];
        try discriminate.
      destruct (split "@" s) as [|alias [|domainName rest]]; try discriminate.
      destruct (capabilityUrl this domainName AUTHORIZE_TRANSACTION_BRFC
                  "No authorize transaction capability found")
        as [[url|e] effects] eqn:U.
      * simpl. destruct (post this _ _ _); discriminate.
      * apply capabilityUrl_Raise in U as [e' ->]. discriminate.
    + simpl. intros [= ->]. unfold checkAuthorizeTransactionParams in C.
      destruct (negb _); [discriminate|].
      destruct (JsVal.getField params "assetPaymail") as [assetPaymail|];
        destruct (JsVal.getField params "hex") as [hex|]; try discriminate.
      destruct (Validators.checkPaymailHandle assetPaymail) as [[]|e] eqn:V.
      * destruct (negb _); discriminate.
      * injection C as ->.
        destruct assetPaymail as [| | | |s| | | |]; try discriminate.
        simpl in V. destruct (negb _); discriminate.
Qed.

(** X18 (sfp-client.ts, [authorizeTransaction]). For accepted
    parameters, the method fetches the capabilities of the domain after
    the [@] of [assetPaymail]; when they hold a string for the authorize
    transaction entry, it sends one POST to that string as it is, with no
    header of its own and the object holding [hex] alone as data, and its
    outcome is that of the POST. When the entry is missing or the
    capabilities cannot be fetched, nothing is posted. *)
Theorem authorizeTransaction_request
    (properties : list (string * JsVal.t))
    (assetPaymail alias domainName hex : string) :
  JsVal.ownProperty "assetPaymail" properties
    = Some (JsVal.Str assetPaymail) ->
  isHandle assetPaymail alias domainName ->
  JsVal.ownProperty "hex" properties = Some (JsVal.Str hex) ->
  let fetched :=
    CapabilityResolver.getCapabilitiesForDomain
      (capabilityResolver this) domainName in
  let postData := JsVal.Object [("hex", JsVal.Str hex)] in
  (forall capabilities url,
      fst fetched = Ok capabilities ->
      JsVal.getOfObject capabilities AUTHORIZE_TRANSACTION_BRFC
        = Ok (JsVal.Str url) ->
      authorizeTransaction this (JsVal.Object properties)
      = (Client.ofCore (post this url [] postData),
         (map WellKnown (snd fetched) ++ [Post url [] postData])%list))
  /\ (forall capabilityProperties,
        fst fetched = Ok (JsVal.Object capabilityProperties) ->
        JsVal.ownProperty AUTHORIZE_TRANSACTION_BRFC capabilityProperties
          = None ->
        authorizeTransaction this (JsVal.Object properties)
        = (Client.Raise notAString, map WellKnown (snd fetched)))
  /\ (forall e,
        fst fetched = Throw e ->
        authorizeTransaction this (JsVal.Object properties)
        = (Client.Raise (Client.Core e), map WellKnown (snd fetched))).
Proof.
  intros A H X fetched postData. subst fetched postData.
  assert (C : checkAuthorizeTransactionParams (JsVal.Object properties)
              = Client.Return tt).
  { apply checkAuthorizeTransactionParams_Return.
    now exists properties, assetPaymail, alias, domainName, hex. }
  assert (E : authorizeTransaction this (JsVal.Object properties)
              = match capabilityUrl this domainName
                        AUTHORIZE_TRANSACTION_BRFC
                        "No authorize transaction capability found" with
                | (Client.Raise e, effects) => (Client.Raise e, effects)
                | (Client.Return url, effects) =>
                    (Client.ofCore
                       (post this url []
                          (JsVal.Object [("hex", JsVal.Str hex)])),
                     (effects
                        ++ [Post url []
                              (JsVal.Object [("hex", JsVal.Str hex)])])%list)
                end).
  { unfold authorizeTransaction. rewrite C. simpl. rewrite A, X.
    now rewrite (isHandle_split _ _ _ H). }
  rewrite E, capabilityUrl_outcome. split; [|split].
  - intros capabilities url F G. now rewrite F, G.
  - intros capabilityProperties F O. rewrite F. simpl. now rewrite O.
  - intros e F. now rewrite F.
Qed.

End SfpAuthorize.

Lemma authorizeTransaction_validation_witness :
  SfpClient.checkAuthorizeTransactionParams (JsVal.Str "alice@example.com")
  = Client.Raise (Client.TypeError "`params` must be an object")
  /\ SfpClient.authorizeTransaction
       (sfpClientWith (wellKnownDocument exampleCapabilities) (Ok JsVal.Null))
       JsVal.Null
     = (Client.Raise (Client.Core TypeError), []).
Proof.
  split.
  - apply (proj1 (proj2 (proj2
      (authorizeTransaction_validation (resolver := Fixed_SrvResolver)
         (sfpClientWith (wellKnownDocument exampleCapabilities)
            (Ok JsVal.Null))
         (JsVal.Str "alice@example.com"))))).
    simpl. discriminate.
  - apply (proj1 (proj2 (proj2 (proj2
      (authorizeTransaction_validation (resolver := Fixed_SrvResolver)
         (sfpClientWith (wellKnownDocument exampleCapabilities)
            (Ok JsVal.Null))
         JsVal.Null))))).
    reflexivity.
Defined.

Lemma authorizeTransaction_request_witness :
  SfpClient.authorizeTransaction
    (sfpClientWith
       (wellKnownDocument
          (JsVal.Object
             [("95dddb461bff",
               JsVal.Str "https://sfp.example.com/{alias}/authorize")]))
       (Ok (JsVal.Object [("signature", JsVal.Str "3045")])))
    (authorizeParams "alice@example.com" "0100")
  = (Client.Return (JsVal.Object [("signature", JsVal.Str "3045")]),
     [SfpClient.WellKnown "https://example.com:443/.well-known/bsvalias";
      SfpClient.Post "https://sfp.example.com/{alias}/authorize" []
        (JsVal.Object [("hex", JsVal.Str "0100")])]).
Proof.
  exact (proj1 (authorizeTransaction_request
                  (resolver := Fixed_SrvResolver)
                  (sfpClientWith
                     (wellKnownDocument
                        (JsVal.Object
                           [("95dddb461bff",
                             JsVal.Str
                               "https://sfp.example.com/{alias}/authorize")]))
                     (Ok (JsVal.Object [("signature", JsVal.Str "3045")])))
                  [("assetPaymail", JsVal.Str "alice@example.com");
                   ("hex", JsVal.Str "0100")]
                  "alice@example.com" "alice" "example.com" "0100"
                  eq_refl isHandle_example eq_refl)
           _ "https://sfp.example.com/{alias}/authorize" eq_refl eq_refl).
Defined.

(** *** [Request] *)

Lemma Headers_get_set key key' value object :
  Headers.get key (Headers.set key' value object) =
  if String.eqb key' key then Some value else Headers.get key object.
Proof.
  induction object as [|[k v] object IH]; [reflexivity|].
  simpl. destruct (String.eqb_spec k key') as [->|N]; simpl.
  - now destruct (String.eqb key' key).
  - rewrite IH. destruct (String.eqb_spec k key) as [->|_]; [|reflexivity].
    destruct (String.eqb_spec key' key) as [E|_]; [|reflexivity].
    now destruct N.
Qed.

Lemma Headers_get_In key object value :
  Headers.get key object = Some value -> In key (map fst object).
Proof.
  induction object as [|[k v] object IH]; [discriminate|].
  simpl. destruct (String.eqb_spec k key) as [->|_]; [now left|].
  intros H. right. now apply IH.
Qed.

Lemma Headers_get_spread key source :
  NoDup (map fst source) ->
  forall target,
    Headers.get key (Headers.spread target source) =
    match Headers.get key source with
    | Some value => Some value
    | None => Headers.get key target
    end.
Proof.
  unfold Headers.spread.
  induction source as [|[k v] source IH]; intros D target; [reflexivity|].
  inversion D as [|? ? Hk D']; subst. simpl. rewrite (IH D').
  rewrite Headers_get_set.
  destruct (Headers.get key source) as [value|] eqn:G.
  - destruct (String.eqb_spec k key) as [->|_]; [|reflexivity].
    destruct Hk. now apply (Headers_get_In _ _ value).
  - now destruct (String.eqb k key).
Qed.

Section RequestOutcomes.
Context {D : Type}.
Variable axios : AxiosRequestConfig.t -> Request.AxiosOutcome D.

(** X19 (request.ts, [sendRequest], [get] and [post]). A request sets
    the timer of the cancel token to the connection timeout plus one
    second, calls [axios] once and clears the timer, whatever the outcome.
    The configuration holds the URL, the method and the data as given,
    the timeout and the response type of the instance, and credentials
    enabled. Its headers are those of the caller, plus a [content-type] of
    [application/json] when the caller gives none. *)
Theorem sendRequest_config (this : Request.t) (method url : string)
    (headers : option Headers.t) (data : option JsVal.t) :
  match headers with
  | Some object => NoDup (map fst object)
  | None => True
  end ->
  exists config,
    Request.sendRequest axios this method url headers data
    = (settled (axios config),
       [Request.SetTimeout (Request.maxConnectionTimeout this + 1000);
        Request.Axios config; Request.ClearTimeout])
    /\ AxiosRequestConfig.url config = url
    /\ AxiosRequestConfig.method config = method
    /\ AxiosRequestConfig.data config = data
    /\ AxiosRequestConfig.timeout config = Request.maxConnectionTimeout this
    /\ AxiosRequestConfig.responseType config = Request.responseType this
    /\ AxiosRequestConfig.withCredentials config = true
    /\ (forall key,
          Headers.get key (AxiosRequestConfig.headers config) =
          match headers with
          | Some object =>
              match Headers.get key object with
              | Some value => Some value
              | None =>
                  if String.eqb "content-type" key
                  then Some "application/json" else None
              end
          | None =>
              if String.eqb "content-type" key
              then Some "application/json" else None
          end)
    /\ Request.get axios this url headers
       = Request.sendRequest axios this "get" url headers None
    /\ Request.post axios this url headers data
       = Request.sendRequest axios this "post" url headers data.
Proof.
  intros N.
  exists (AxiosRequestConfig.mk url method (Request.maxConnectionTimeout this)
            data (Request.responseType this)
            (Headers.spread [("content-type", "application/json")]
               (match headers with Some h => h | None => [] end))
            true).
  split.
  { unfold Request.sendRequest, settled.
    destruct (axios _); reflexivity. }
  cbn [AxiosRequestConfig.url AxiosRequestConfig.method
       AxiosRequestConfig.data AxiosRequestConfig.timeout
       AxiosRequestConfig.responseType AxiosRequestConfig.withCredentials
       AxiosRequestConfig.headers].
  repeat (split; [reflexivity|]). split; [|split; reflexivity].
  intros key. destruct headers as [object|].
  - now rewrite (Headers_get_spread key object N).
  - reflexivity.
Qed.


End RequestOutcomes.

Lemma sendRequest_config_witness :
  exists config,
    Request.post (fun _ => Request.Fulfilled (JsVal.Str "accepted"))
      (Request.new None) "https://sfp.example.com/authorize"
      (Some [("accept", "application/json")])
      (Some (JsVal.Object [("hex", JsVal.Str "0100")]))
    = (Ok (JsVal.Str "accepted"),
       [Request.SetTimeout 11000; Request.Axios config; Request.ClearTimeout])
    /\ Headers.get "content-type" (AxiosRequestConfig.headers config)
       = Some "application/json"
    /\ Headers.get "accept" (AxiosRequestConfig.headers config)
       = Some "application/json".
Proof.
  destruct (sendRequest_config
              (fun _ => Request.Fulfilled (JsVal.Str "accepted"))
              (Request.new None) "post" "https://sfp.example.com/authorize"
              (Some [("accept", "application/json")])
              (Some (JsVal.Object [("hex", JsVal.Str "0100")])))
    as (config & E & _ & _ & _ & _ & _ & _ & G & _ & P).
  - simpl. constructor; [intros [] | constructor].
  - exists config. split; [now rewrite P, E|].
    split; [exact (G "content-type") | exact (G "accept")].
Defined.


(** X21 (doh-srv-resolver.ts, the constructor and the request of
    [locateServices]; request.ts, [get]). The resolver that the
    constructor builds sends one GET to the DNS-over-HTTPS endpoint, with
    the service, the protocol and the domain in the query name, a timeout
    of ten seconds, and [application/dns-json] both as [accept] and in the
    place of the default [content-type]. A rejection of that request
    leaves [locateServices] as the error that [Request] makes of it; a
    response is processed as [locateServices] processes it over any
    transport. *)
Theorem locateServices_over_request
    (axios : AxiosRequestConfig.t -> Request.AxiosOutcome QueryResponse.t)
    (random : nat -> Q) (domainName service protocol : string)
    (calls : nat) :
  DohSrvResolverConstructor.get axios
    (queryUrl (queryNameOf domainName service protocol)) queryHeaders
  = (settled (axios (dnsQueryConfig domainName service protocol)),
     [Request.SetTimeout 11000;
      Request.Axios (dnsQueryConfig domainName service protocol);
      Request.ClearTimeout])
  /\ locateServices
       (DohInstance.get (DohSrvResolverConstructor.new axios random calls))
       random domainName service protocol calls
     = match axios (dnsQueryConfig domainName service protocol) with
       | Request.Rejected error => Throw (Request.onRejected error)
       | Request.Fulfilled response =>
           locateServices (respond response) random domainName service
             protocol calls
       end.
Proof.
  assert (U : queryUrl (queryNameOf domainName service protocol)
              = AxiosRequestConfig.url
                  (dnsQueryConfig domainName service protocol)).
  { unfold queryUrl, queryNameOf, dnsQueryConfig. simpl.
    now rewrite !append_assoc. }
  assert (G : DohSrvResolverConstructor.get axios
                (queryUrl (queryNameOf domainName service protocol))
                queryHeaders
              = (settled (axios (dnsQueryConfig domainName service protocol)),
                 [Request.SetTimeout 11000;
                  Request.Axios (dnsQueryConfig domainName service protocol);
                  Request.ClearTimeout])).
  { unfold DohSrvResolverConstructor.get, Request.get, Request.sendRequest.
    rewrite U. unfold settled.
    change (AxiosRequestConfig.mk _ "get" _ None _ _ true)
      with (dnsQueryConfig domainName service protocol).
    now destruct (axios (dnsQueryConfig domainName service protocol)). }
  split; [exact G|].
  unfold locateServices, DohSrvResolverConstructor.new. simpl DohInstance.get.
  rewrite G. unfold respond. simpl fst.
  now destruct (axios (dnsQueryConfig domainName service protocol)).
Qed.

(** X22 (sfp-client.ts, [requestAssetInformation]: the second [replace]
    works on the result of the first; validators.ts,
    [checkPaymailHandle]). The check admits an alias that holds the domain
    placeholder. With such an alias the domain name is written into the
    alias, and the placeholder of the template itself stays in the URL. *)
Theorem fillTemplate_alias_placeholder
    (before rest handle alias domainName prefix suffix : string) :
  isHandle handle alias domainName ->
  allChars Validators.isLocalPartChar prefix = true ->
  allChars Validators.isLocalPartChar suffix = true ->
  hasChar "$" prefix = false ->
  hasChar "$" suffix = false ->
  hasChar "{" prefix = false ->
  hasChar "{" before = false ->
  let alias' := prefix ++ "{domain.tld}" ++ suffix in
  Validators.checkPaymailHandle (JsVal.Str (alias' ++ "@" ++ domainName))
    = Client.Return tt
  /\ SfpClient.fillTemplate (before ++ "{alias}" ++ rest) alias' domainName
     = before ++ (prefix ++ domainName ++ suffix) ++ rest.
Proof.
  intros H Ap As Dp Ds Bp Bb alias'. subst alias'.
  assert (Hd : hasChar "$" domainName = false).
  { apply (allChars_hasChar isDomainChar); [reflexivity|].
    apply (isHandle_domain _ _ _ H). }
  split.
  - apply checkPaymailHandle_Return.
    exists ((prefix ++ "{domain.tld}" ++ suffix) ++ "@" ++ domainName),
      (prefix ++ "{domain.tld}" ++ suffix), domainName.
    split; [reflexivity|].
    apply (isHandle_alias _ _ _ _ H).
    + destruct prefix; discriminate.
    + rewrite !allChars_append, Ap, As. reflexivity.
  - unfold SfpClient.fillTemplate.
    rewrite (replace_first "{" "alias}" before rest _ Bb).
    rewrite getSubstitution_literal
      by (repeat apply hasChar_append; (assumption || reflexivity)).
    assert (E : before ++ (prefix ++ "{domain.tld}" ++ suffix) ++ rest
                = (before ++ prefix) ++ "{domain.tld}" ++ suffix ++ rest).
    { now rewrite !append_assoc. }
    rewrite E, replace_first by now apply hasChar_append.
    rewrite (getSubstitution_literal _ _ _ _ Hd). now rewrite !append_assoc.
Qed.

Lemma fillTemplate_alias_placeholder_witness :
  SfpClient.fillTemplate "https://sfp.example.com/{alias}@{domain.tld}/asset"
    "a{domain.tld}" "example.com"
  = "https://sfp.example.com/aexample.com@{domain.tld}/asset".
Proof.
  exact (proj2 (fillTemplate_alias_placeholder "https://sfp.example.com/"
                  "@{domain.tld}/asset" "alice@example.com" "alice"
                  "example.com" "a" "" isHandle_example
                  eq_refl eq_refl eq_refl eq_refl eq_refl eq_refl)).
Defined.
